(** * NETRA per-session pipeline: a shallow embedding

    The development follows the Python sources of the repository:
    - [app/models.py]             data classes (tracked objects, task state, session state)
    - [app/utils.py]              semantic keys and distance phrases
    - [app/services/tracking.py]  the object stability tracker
    - [app/services/speech.py]    the speech gate
    - [app/services/memory.py]    the persistent memory store
    - [app/services/processor.py] frame handlers and voice inquiries
    - [app/routes/websocket.py]   session start, producer and consumer loop

    Python [float] is IEEE binary64 and is modelled by Rocq's primitive floats;
    Python [int] is modelled by [Z]; [str] by [string] (byte strings, the
    case and whitespace functions act on the ASCII range); every call of
    [time.time()] reads the next value of an explicit clock. *)

From Stdlib Require Import ZArith String Ascii List Bool Lia Floats DecimalString.
From stdpp Require Import base gmap strings list.
Import ListNotations.
Set Warnings "-inexact-float".

Local Open Scope string_scope.

(** ** Python values and exceptions *)

(** The exception classes (all below [Exception]) the modelled code can see. *)
Inductive exn : Type :=
| KeyError
| IndexError
| TypeError
| AttributeError
| ValueError
| OverflowError
| TimeoutError
| RuntimeError
| JSONDecodeError.

(** The outcome of a fallible computation. *)
Inductive Res (A : Type) : Type :=
| Ok (a : A)
| Raise (e : exn).
Arguments Ok {A} a.
Arguments Raise {A} e.

Definition is_ok {A} (r : Res A) : bool :=
  match r with Ok _ => true | Raise _ => false end.

(** ** The clock behind [time.time()] *)

Record Clock : Type := mkClock {
  readings : nat -> float;
  ticks : nat
}.

Definition time_time (c : Clock) : float * Clock :=
  (readings c (ticks c), {| readings := readings c; ticks := S (ticks c) |}).

(** ** Strings as Python uses them *)

Module PyStr.

Definition lower_ascii (c : ascii) : ascii :=
  let n := nat_of_ascii c in
  if (Nat.leb 65 n && Nat.leb n 90)%bool then ascii_of_nat (n + 32) else c.

(** [s.lower()] *)
Fixpoint lower (s : string) : string :=
  match s with
  | EmptyString => EmptyString
  | String c r => String (lower_ascii c) (lower r)
  end.

(** Whitespace of [str.split()] and [str.strip()] in the ASCII range:
    tab, newline, vertical tab, form feed, carriage return, the four
    separators 0x1c-0x1f and the space. *)
Definition isspace (c : ascii) : bool :=
  let n := nat_of_ascii c in
  ((Nat.leb 9 n && Nat.leb n 13) || (Nat.leb 28 n && Nat.leb n 32))%bool.

Fixpoint lstrip (s : string) : string :=
  match s with
  | EmptyString => EmptyString
  | String c r => if isspace c then lstrip r else s
  end.

Fixpoint rev_string (acc s : string) : string :=
  match s with
  | EmptyString => acc
  | String c r => rev_string (String c acc) r
  end.

(** [s.strip()] *)
Definition strip (s : string) : string :=
  rev_string EmptyString (lstrip (rev_string EmptyString (lstrip s))).

(** [s.split()]: maximal runs of characters that are not whitespace.
    [cur] is the word being read, reversed. *)
Fixpoint split_go (cur : string) (s : string) : list string :=
  match s with
  | EmptyString =>
      match cur with
      | EmptyString => []
      | _ => [rev_string EmptyString cur]
      end
  | String c r =>
      if isspace c then
        match cur with
        | EmptyString => split_go EmptyString r
        | _ => rev_string EmptyString cur :: split_go EmptyString r
        end
      else split_go (String c cur) r
  end.

Definition split (s : string) : list string := split_go EmptyString s.

(** [sep.join(ws)] *)
Fixpoint join (sep : string) (ws : list string) : string :=
  match ws with
  | [] => EmptyString
  | [w] => w
  | w :: rest => w ++ sep ++ join sep rest
  end.

(** [needle in s] *)
Fixpoint contains (needle s : string) : bool :=
  if String.prefix needle s then true
  else match s with
       | EmptyString => false
       | String _ r => contains needle r
       end.

(** [x in xs] for a list of strings *)
Definition mem (x : string) (xs : list string) : bool :=
  existsb (String.eqb x) xs.

(** [str(n)] for an [int] *)
Definition of_Z (n : Z) : string := NilEmpty.string_of_int (Z.to_int n).

End PyStr.

(** ** Floats as Python uses them *)

Module PyFloat.

Local Open Scope Z_scope.

(** [int(x)]: truncation towards zero; [OverflowError] on an infinity,
    [ValueError] on a NaN. *)
Definition to_int (x : float) : Res Z :=
  match Prim2SF x with
  | S754_zero _ => Ok 0
  | S754_infinity _ => Raise OverflowError
  | S754_nan => Raise ValueError
  | S754_finite s m e =>
      let a := if Z.leb 0 e then Z.pos m * 2 ^ e else Z.pos m / 2 ^ (- e) in
      Ok (if s then - a else a)
  end.

(** [x > y] *)
Definition gtb (x y : float) : bool := PrimFloat.ltb y x.

(** [x >= y] *)
Definition geb (x y : float) : bool := PrimFloat.leb y x.

End PyFloat.

(** ** [app/models.py]: tracked objects *)

Module Tracking.

Local Open Scope Z_scope.

Record TrackedObject : Type := mkTrackedObject {
  name : string;
  category : string;
  confidence : float;
  raw_distance : float;
  raw_direction : string;
  distance : float;
  direction : string;
  last_seen : float;
  frames_detected : Z;
  is_stable : bool
}.

(** [TrackedObject.update] *)
Definition update (self : TrackedObject) (new_dist : float) (new_dir : string)
    (new_conf : float) (clk : Clock) : TrackedObject * Clock :=
  let '(t, clk) := time_time clk in
  let fd := frames_detected self + 1 in
  ({| name := name self;
      category := category self;
      confidence := new_conf;
      raw_distance := new_dist;
      raw_direction := new_dir;
      distance := (distance self * 0.7 + new_dist * 0.3)%float;
      direction := new_dir;
      last_seen := t;
      frames_detected := fd;
      is_stable := if 2 <=? fd then true else is_stable self |}, clk).

(** One element of the [detections] list: a JSON object whose keys may be
    absent ([None]); a present key holds a value of the documented type. *)
Record Detection : Type := mkDetection {
  det_name : option string;
  det_confidence_score : option float;
  det_distance : option float;
  det_direction : option string;
  det_category : option string
}.

(** [app/services/tracking.py]: [VisualTracker] *)
Record VisualTracker : Type := mkVisualTracker {
  tracked_objects : gmap string TrackedObject;
  confidence_threshold : float;
  persistence_frames : Z;
  timeout : float
}.

(** [VisualTracker()] with the default arguments of [__init__] *)
Definition new_tracker : VisualTracker :=
  {| tracked_objects := ∅;
     confidence_threshold := 75%float;
     persistence_frames := 2;
     timeout := 2.0%float |}.

(** [det.get("confidence_score", 100)] *)
Definition detection_confidence (det : Detection) : float :=
  default 100%float (det_confidence_score det).

(** The test [not name or confidence < self.confidence_threshold] *)
Definition skipped (thr : float) (det : Detection) : bool :=
  match det_name det with
  | None => true
  | Some n => (String.eqb n "" || PrimFloat.ltb (detection_confidence det) thr)%bool
  end.

(** The entry built for a key that is not tracked yet *)
Definition fresh_object (n : string) (det : Detection) (now : float) : TrackedObject :=
  let dist := default 0.0%float (det_distance det) in
  let dir := default "ahead" (det_direction det) in
  {| name := n;
     category := default "unknown" (det_category det);
     confidence := detection_confidence det;
     raw_distance := dist;
     raw_direction := dir;
     distance := dist;
     direction := dir;
     last_seen := now;
     frames_detected := 1;
     is_stable := false |}.

(** The body of the loop [for det in detections] *)
Definition ingest (thr now : float) (acc : gmap string TrackedObject * Clock)
    (det : Detection) : gmap string TrackedObject * Clock :=
  match det_name det with
  | None => acc
  | Some n =>
      if skipped thr det then acc
      else
        let key := PyStr.lower n in
        match acc.1 !! key with
        | Some o =>
            let '(o', clk') :=
              update o (default 0.0%float (det_distance det))
                     (default "ahead" (det_direction det))
                     (detection_confidence det) acc.2 in
            (<[key := o']> acc.1, clk')
        | None => (<[key := fresh_object n det now]> acc.1, acc.2)
        end
  end.

(** Step 1 of [process_detections]: drop the entries not seen for [timeout] *)
Definition prune (now tmo : float) (objs : gmap string TrackedObject)
    : gmap string TrackedObject :=
  filter (λ kv, PrimFloat.ltb (now - last_seen kv.2)%float tmo = true) objs.

(** Step 3: the stable entries, in the order the map enumerates them *)
Definition stable_objects (objs : gmap string TrackedObject) : list TrackedObject :=
  List.filter is_stable (map snd (map_to_list objs)).

(** [VisualTracker.process_detections] *)
Definition process_detections (self : VisualTracker) (detections : list Detection)
    (clk : Clock) : list TrackedObject * VisualTracker * Clock :=
  let '(now, clk) := time_time clk in
  let pruned := prune now (timeout self) (tracked_objects self) in
  let '(objs, clk) :=
    fold_left (ingest (confidence_threshold self) now) detections (pruned, clk) in
  (stable_objects objs,
   {| tracked_objects := objs;
      confidence_threshold := confidence_threshold self;
      persistence_frames := persistence_frames self;
      timeout := timeout self |},
   clk).

(** [VisualTracker.get_primary_target]: the first entry of least distance *)
Definition get_primary_target (stable : list TrackedObject) : option TrackedObject :=
  match stable with
  | [] => None
  | o :: rest =>
      Some (fold_left
              (λ best x, if PrimFloat.ltb (distance x) (distance best) then x else best)
              rest o)
  end.

End Tracking.

(** ** [app/config.py]: the speech timing settings, in seconds *)

Module Config.

Definition CRITICAL_REPEAT_INTERVAL : float := 1.0%float.
Definition HIGH_REPEAT_INTERVAL : float := 2.0%float.
Definition MEDIUM_REPEAT_INTERVAL : float := 4.0%float.
Definition LOW_REPEAT_INTERVAL : float := 8.0%float.

End Config.

(** ** [app/utils.py] *)

Module Utils.

Local Open Scope Z_scope.

(** [f"{x:.1f}"]: one decimal, the exact binary value rounded half to even *)
Definition format_1f (x : float) : string :=
  match Prim2SF x with
  | S754_zero s => if s then "-0.0" else "0.0"
  | S754_infinity s => if s then "-inf" else "inf"
  | S754_nan => "nan"
  | S754_finite s m e =>
      let num := Z.pos m * 10 in
      let n :=
        if 0 <=? e then num * 2 ^ e
        else
          let d := 2 ^ (- e) in
          let q := num / d in
          let r := num mod d in
          if 2 * r <? d then q
          else if d <? 2 * r then q + 1
          else if Z.even q then q else q + 1 in
      ((if s then "-" else "") ++ PyStr.of_Z (n / 10) ++ "." ++ PyStr.of_Z (n mod 10))%string
  end.

(** [format_distance_speech] *)
Definition format_distance_speech (meters : float) : Res string :=
  if PrimFloat.ltb meters 1.0 then
    match PyFloat.to_int (meters * 100)%float with
    | Ok cm => Ok (PyStr.of_Z cm ++ " centimeters")%string
    | Raise e => Raise e
    end
  else if PrimFloat.ltb meters 10.0 then
    Ok (format_1f meters ++ " meters")%string
  else
    match PyFloat.to_int meters with
    | Ok m => Ok (PyStr.of_Z m ++ " meters")%string
    | Raise e => Raise e
    end.

(** The adjectives left out of the identity of a subject *)
Definition ignore_words : list string :=
  ["grey"; "gray"; "white"; "black"; "brown"; "red"; "blue"; "green";
   "open"; "closed"; "small"; "large"; "big"; "little"; "tiny"; "huge";
   "old"; "new"; "patterned"; "textured"; "wooden"; "metal"]%string.

(** [extract_semantic_key] *)
Definition extract_semantic_key (subject direction category : string) : string :=
  let subject_normalized := PyStr.strip (PyStr.lower subject) in
  let words := PyStr.split subject_normalized in
  let filtered_words := List.filter (λ w, negb (PyStr.mem w ignore_words)) words in
  let core_subject :=
    match filtered_words with
    | [] => subject_normalized
    | _ => PyStr.join " " filtered_words
    end in
  (core_subject ++ "|" ++ direction ++ "|" ++ category)%string.

End Utils.

(** ** [app/services/speech.py]: the speech gate *)

Module Speech.

Local Open Scope Z_scope.

Record SpeechManager : Type := mkSpeechManager {
  current_speech_end_time : float;
  last_semantic_key : string;
  last_speech_time : float;
  last_distance : float;
  last_priority : string;
  announced_subjects : gmap string float;
  recent_speeches : list string
}.

(** [SpeechManager()] *)
Definition new_speech_manager : SpeechManager :=
  {| current_speech_end_time := 0.0%float;
     last_semantic_key := "";
     last_speech_time := 0.0%float;
     last_distance := 999.0%float;
     last_priority := "low";
     announced_subjects := ∅;
     recent_speeches := [] |}.

(** [float(n)] for a word count *)
Definition float_of_nat (n : nat) : float :=
  PrimFloat.of_uint63 (Uint63.of_Z (Z.of_nat n)).

(** [estimate_speech_duration] *)
Definition estimate_speech_duration (text : string) : float :=
  let word_count := List.length (PyStr.split text) in
  (float_of_nat word_count / 2.5 + 0.5)%float.

(** [is_speaking] *)
Definition is_speaking (self : SpeechManager) (clk : Clock) : bool * Clock :=
  let '(t, clk) := time_time clk in
  (PrimFloat.ltb t (current_speech_end_time self), clk).

(** [priority_map.get(priority, 0)] *)
Definition priority_map (priority : string) : Z :=
  if String.eqb priority "critical" then 4
  else if String.eqb priority "high" then 3
  else if String.eqb priority "medium" then 2
  else if String.eqb priority "low" then 1
  else 0.

(** [cooldowns.get(priority, MEDIUM_REPEAT_INTERVAL)] *)
Definition cooldowns (priority : string) : float :=
  if String.eqb priority "critical" then Config.CRITICAL_REPEAT_INTERVAL
  else if String.eqb priority "high" then Config.HIGH_REPEAT_INTERVAL
  else if String.eqb priority "medium" then Config.MEDIUM_REPEAT_INTERVAL
  else if String.eqb priority "low" then Config.LOW_REPEAT_INTERVAL
  else Config.MEDIUM_REPEAT_INTERVAL.

(** [_check_same_context] *)
Definition _check_same_context (self : SpeechManager) (priority : string)
    (now distance : float) : Res (bool * string) :=
  let time_since_last := (now - last_speech_time self)%float in
  let min_interval := cooldowns priority in
  let distance_change := (last_distance self - distance)%float in
  if PyFloat.gtb distance_change 0.5 then Ok (true, "distance_closed")
  else if PrimFloat.ltb time_since_last min_interval then
    match PyFloat.to_int (min_interval - time_since_last)%float with
    | Ok remaining =>
        Ok (false, ("same_context_cooldown (" ++ PyStr.of_Z remaining ++ "s left)")%string)
    | Raise e => Raise e
    end
  else Ok (true, "interval_passed").

(** [_check_new_context] *)
Definition _check_new_context (self : SpeechManager) (subject : string)
    (now : float) : bool * string :=
  let time_since_any := (now - last_speech_time self)%float in
  if PrimFloat.ltb time_since_any 3.0 then (false, "global_cooldown")
  else
    let last_announce := default 0%float (announced_subjects self !! PyStr.lower subject) in
    if PrimFloat.ltb (now - last_announce)%float 10.0 then (false, "subject_recently_announced")
    else (true, "new_context").

(** [should_speak]: the clock is read once for [now] and, when the priority
    is not critical, once more inside [is_speaking]. *)
Definition should_speak (self : SpeechManager) (priority subject direction category : string)
    (distance : float) (speech_text : string) (clk : Clock)
    : Res (bool * string) * Clock :=
  let '(now, clk) := time_time clk in
  let semantic_key := Utils.extract_semantic_key subject direction category in
  let current_prio_val := priority_map priority in
  let last_prio_val := priority_map (last_priority self) in
  if String.eqb priority "critical" then (Ok (true, "critical_alert"), clk)
  else
    let '(speaking, clk) := is_speaking self clk in
    if speaking then
      if ((last_prio_val <? current_prio_val)
          && PrimFloat.ltb distance (last_distance self - 0.3)%float)%bool
      then (Ok (true, "priority_escalation"), clk)
      else (Ok (false, "speech_in_progress"), clk)
    else if String.eqb semantic_key (last_semantic_key self) then
      (_check_same_context self priority now distance, clk)
    else (Ok (_check_new_context self subject now), clk).

(** [recent_speeches.append(text)] followed by [pop(0)] beyond five entries *)
Definition push_recent (log : list string) (text : string) : list string :=
  let log := (log ++ [text])%list in
  if (5 <? List.length log)%nat then tl log else log.

(** [record_speech] *)
Definition record_speech (self : SpeechManager) (speech_text priority subject direction
    category : string) (distance : float) (clk : Clock) : SpeechManager * Clock :=
  let '(now, clk) := time_time clk in
  let duration := estimate_speech_duration speech_text in
  let announced := <[PyStr.lower subject := now]> (announced_subjects self) in
  ({| current_speech_end_time := (now + duration)%float;
      last_semantic_key := Utils.extract_semantic_key subject direction category;
      last_speech_time := now;
      last_distance := distance;
      last_priority := priority;
      announced_subjects :=
        filter (λ kv, PrimFloat.ltb (now - kv.2)%float 60.0 = true) announced;
      recent_speeches := push_recent (recent_speeches self) speech_text |}, clk).

End Speech.

(** ** Python lists and bounded deques *)

Module PyList.

Local Open Scope Z_scope.

(** [l[i]]: a negative index counts from the end; [IndexError] out of range *)
Definition getitem {A : Type} (l : list A) (i : Z) : Res A :=
  let n := Z.of_nat (List.length l) in
  let j := if i <? 0 then n + i else i in
  if j <? 0 then Raise IndexError
  else match l !! Z.to_nat j with
       | Some x => Ok x
       | None => Raise IndexError
       end.

(** [l[i] = x], with the same index rules *)
Definition setitem {A : Type} (l : list A) (i : Z) (x : A) : Res (list A) :=
  let n := Z.of_nat (List.length l) in
  let j := if i <? 0 then n + i else i in
  if j <? 0 then Raise IndexError
  else if j <? n then Ok (<[Z.to_nat j := x]> l)
  else Raise IndexError.

(** [l[-n:]]: the last [n] elements *)
Definition last_n {A : Type} (n : nat) (l : list A) : list A :=
  drop (List.length l - n)%nat l.

(** [deque(maxlen=n).append(x)]: the oldest element leaves a full deque *)
Definition deque_append {A : Type} (maxlen : nat) (d : list A) (x : A) : list A :=
  last_n maxlen (d ++ [x])%list.

End PyList.

(** ** [app/models.py]: tasks and sessions *)

Module Models.

Local Open Scope Z_scope.

(** One step of a plan, with the keys of [TaskStep] *)
Record TaskStep : Type := mkTaskStep {
  step_id : Z;
  instruction : string;
  items : list string;
  completed : bool
}.

Definition set_completed (b : bool) (s : TaskStep) : TaskStep :=
  {| step_id := step_id s; instruction := instruction s; items := items s; completed := b |}.

Record TaskState : Type := mkTaskState {
  is_active : bool;
  plan : list TaskStep;
  current_step_index : Z;
  waiting_for_user : bool
}.

(** [TaskState()] *)
Definition new_task_state : TaskState :=
  {| is_active := false; plan := []; current_step_index := 0; waiting_for_user := false |}.

(** The property [TaskState.current_step] *)
Definition current_step (self : TaskState) : Res (option TaskStep) :=
  if (is_active self && negb (Nat.eqb (List.length (plan self)) 0)
      && (current_step_index self <? Z.of_nat (List.length (plan self))))%bool
  then match PyList.getitem (plan self) (current_step_index self) with
       | Ok s => Ok (Some s)
       | Raise e => Raise e
       end
  else Ok None.

Record GlobalTaskState : Type := mkGlobalTaskState {
  g_is_active : bool;
  g_plan : list TaskStep;
  g_current_step_index : Z;
  task_name : string;
  last_updated : float
}.

(** [GlobalTaskState()] *)
Definition new_global_task_state : GlobalTaskState :=
  {| g_is_active := false; g_plan := []; g_current_step_index := 0;
     task_name := ""; last_updated := 0.0%float |}.

(** [GlobalTaskState.to_task_state] *)
Definition to_task_state (self : GlobalTaskState) : TaskState :=
  {| is_active := g_is_active self;
     plan := g_plan self;
     current_step_index := g_current_step_index self;
     waiting_for_user := false |}.

(** [GlobalTaskState.update_from]; the default of [task_name] is [""] *)
Definition update_from (self : GlobalTaskState) (task_state : TaskState) (name : string)
    (clk : Clock) : GlobalTaskState * Clock :=
  let '(t, clk) := time_time clk in
  ({| g_is_active := is_active task_state;
      g_plan := plan task_state;
      g_current_step_index := current_step_index task_state;
      task_name := if String.eqb name "" then task_name self else name;
      last_updated := t |}, clk).

(** [self.is_active = False] on the durable state *)
Definition deactivate (self : GlobalTaskState) : GlobalTaskState :=
  {| g_is_active := false;
     g_plan := g_plan self;
     g_current_step_index := g_current_step_index self;
     task_name := task_name self;
     last_updated := last_updated self |}.

(** [GlobalTaskState.is_valid]: [and] reads the clock only for an active state *)
Definition is_valid (self : GlobalTaskState) (clk : Clock) : bool * Clock :=
  if g_is_active self then
    let '(t, clk) := time_time clk in
    (PrimFloat.ltb (t - last_updated self)%float 300, clk)
  else (false, clk).

Record MemoryEntry : Type := mkMemoryEntry {
  timestamp : float;
  m_direction : string;
  m_distance : float;
  m_category : string
}.

(** The payload the producer builds for a binary message *)
Record Frame : Type := mkFrame {
  image : string;
  heading : Z;
  task : string
}.

Record SessionState : Type := mkSessionState {
  social_context : list string;
  frames_received : Z;
  frames_processed : Z;
  frames_skipped : Z;
  current_goal : option string;
  micro_target : option string;
  mode : string;
  object_memory : gmap string MemoryEntry;
  task_state : TaskState;
  latest_frame : option Frame;
  is_processing : bool;
  _tracker : option Tracking.VisualTracker;
  _speech_manager : option Speech.SpeechManager
}.

(** [SessionState()]; the speech fields of the session that no modelled
    function reads ([recent_speeches], [last_speech_time], ...) are left out. *)
Definition new_session_state : SessionState :=
  {| social_context := [];
     frames_received := 0;
     frames_processed := 0;
     frames_skipped := 0;
     current_goal := None;
     micro_target := None;
     mode := "nav";
     object_memory := ∅;
     task_state := new_task_state;
     latest_frame := None;
     is_processing := false;
     _tracker := None;
     _speech_manager := None |}.

(** The lazily created services *)
Definition tracker (s : SessionState) : Tracking.VisualTracker :=
  default Tracking.new_tracker (_tracker s).

Definition speech_manager (s : SessionState) : Speech.SpeechManager :=
  default Speech.new_speech_manager (_speech_manager s).

(** [prune_memory] with the default retention window of 30 s *)
Definition prune_memory (mem : gmap string MemoryEntry) (clk : Clock)
    : gmap string MemoryEntry * Clock :=
  let '(now, clk) := time_time clk in
  (filter (λ kv, PrimFloat.ltb (now - timestamp kv.2)%float 30.0 = true) mem, clk).

(** [update_memory] *)
Definition update_memory (mem : gmap string MemoryEntry) (subject direction : string)
    (distance : float) (category : string) (clk : Clock)
    : gmap string MemoryEntry * Clock :=
  let '(t, clk) := time_time clk in
  prune_memory
    (<[PyStr.lower subject :=
         {| timestamp := t; m_direction := direction;
            m_distance := distance; m_category := category |}]> mem) clk.

End Models.

(** ** [app/services/memory.py]: the persistent memory store *)

Module Memory.

Local Open Scope Z_scope.

Record Location : Type := mkLocation {
  description : string;
  loc_timestamp : float
}.

Record HistoryEntry : Type := mkHistoryEntry {
  object : string;
  location : option string;
  scene : string;
  timestamp : float
}.

(** [self.data]; a key the loaded file lacks is [None]. [save()] mirrors the
    data to disk and swallows [OSError]; it does not change the data. *)
Record PersistentMemory : Type := mkPersistentMemory {
  locations : option (gmap string Location);
  history : option (list HistoryEntry)
}.

(** The structure [_load] returns when there is no readable file *)
Definition empty_memory : PersistentMemory :=
  {| locations := Some ∅; history := Some [] |}.

(** [add_location] *)
Definition add_location (self : PersistentMemory) (name description : string) (clk : Clock)
    : PersistentMemory * Clock :=
  let '(t, clk) := time_time clk in
  ({| locations :=
        Some (<[name := {| description := description; loc_timestamp := t |}]>
                (default ∅ (locations self)));
      history := history self |}, clk).

(** The names [log_object] refuses *)
Definition refused_name (object_name : string) : bool :=
  (String.eqb object_name ""
   || PyStr.mem (PyStr.lower object_name) ["none"; "unknown"; "null"]%string)%bool.

(** [log_object]: the clock is read for the entry, and once more in the
    duplicate test when the last entry is of the same object. *)
Definition log_object (self : PersistentMemory) (object_name : string)
    (location_tag : option string) (scene_desc : string) (clk : Clock)
    : PersistentMemory * Clock :=
  if refused_name object_name then (self, clk)
  else
    let '(t, clk) := time_time clk in
    let entry := {| object := object_name; location := location_tag;
                    scene := scene_desc; timestamp := t |} in
    let hist := default [] (history self) in
    let self := {| locations := locations self; history := Some hist |} in
    let append (clk : Clock) :=
      let hist := (hist ++ [entry])%list in
      let hist := if (1000 <? List.length hist)%nat then PyList.last_n 1000 hist else hist in
      ({| locations := locations self; history := Some hist |}, clk) in
    match last hist with
    | Some last =>
        if String.eqb (object last) object_name then
          let '(t', clk) := time_time clk in
          if PrimFloat.ltb (t' - timestamp last)%float 10 then (self, clk)
          else append clk
        else append clk
    | None => append clk
    end.

End Memory.

(** ** The world a session runs in *)

Module World.

Import Models.
Local Open Scope Z_scope.

(** An object of the [objects] list of a [result] message *)
Inductive UiObject : Type :=
| UiStable (name : string) (distance : float) (category : string)
| UiRaw (det : Tracking.Detection).

(** The JSON messages handed to [safe_send_json]. The processing time
    [ms] and the pass-through fields [social_cues] and [environment] are
    left out. *)
Inductive Message : Type :=
| Speak (text : string)
| TaskUpdate (plan : list TaskStep) (current_step_index : Z) (restored : bool)
    (visual_feedback : option string)
| MicroResult (x y : Z) (action : string) (guidance_speech : option string)
| NavResult (priority : string) (distance : float) (direction : string)
    (target_detected : bool) (current_goal : option string) (objects : list UiObject)
    (scene : string) (received processed : Z)
| InquiryResult (thinking : string) (current_goal : option string) (mode : string)
    (task_active : bool).

(** The records written through [logging] *)
Inductive LogRecord : Type :=
| LogError (origin : string) (e : exn)
| LogWarning (text : string).

(** What a call of the perception gateway comes back with *)
Inductive Gateway (A : Type) : Type :=
| GwFails (e : exn)
| GwEmpty
| GwGarbled (e : exn)
| GwReply (a : A).
Arguments GwFails {A} e.
Arguments GwEmpty {A}.
Arguments GwGarbled {A} e.
Arguments GwReply {A} a.

(** The parsed reply of the task planner: a list of steps, or other JSON *)
Inductive PlanData : Type :=
| NotAList
| PlanList (steps : list TaskStep).

Record World : Type := mkWorld {
  session : SessionState;
  global_task_state : GlobalTaskState;
  memory_store : Memory.PersistentMemory;
  sent : list Message;
  log : list LogRecord;
  clock : Clock;
  planner : nat -> Gateway PlanData;
  planner_calls : nat
}.

(** Computations over the world that may raise *)
Definition M (A : Type) : Type := World -> Res A * World.

Definition ret {A : Type} (a : A) : M A := λ w, (Ok a, w).

Definition bind {A B : Type} (m : M A) (f : A -> M B) : M B :=
  λ w, match m w with
       | (Ok a, w') => f a w'
       | (Raise e, w') => (Raise e, w')
       end.

Definition raise {A : Type} (e : exn) : M A := λ w, (Raise e, w).

(** [try: m except Exception as e: h e] *)
Definition try_except {A : Type} (m : M A) (h : exn -> M A) : M A :=
  λ w, match m w with
       | (Ok a, w') => (Ok a, w')
       | (Raise e, w') => h e w'
       end.

Definition lift {A : Type} (r : Res A) : M A := λ w, (r, w).

Definition get : M World := λ w, (Ok w, w).

Definition set_session (s : SessionState) : M unit :=
  λ w, (Ok tt, {| session := s; global_task_state := global_task_state w;
                 memory_store := memory_store w; sent := sent w; log := log w;
                 clock := clock w; planner := planner w;
                 planner_calls := planner_calls w |}).

Definition set_global (g : GlobalTaskState) : M unit :=
  λ w, (Ok tt, {| session := session w; global_task_state := g;
                 memory_store := memory_store w; sent := sent w; log := log w;
                 clock := clock w; planner := planner w;
                 planner_calls := planner_calls w |}).

Definition set_memory (m : Memory.PersistentMemory) : M unit :=
  λ w, (Ok tt, {| session := session w; global_task_state := global_task_state w;
                 memory_store := m; sent := sent w; log := log w;
                 clock := clock w; planner := planner w;
                 planner_calls := planner_calls w |}).

Definition set_clock (c : Clock) : M unit :=
  λ w, (Ok tt, {| session := session w; global_task_state := global_task_state w;
                 memory_store := memory_store w; sent := sent w; log := log w;
                 clock := c; planner := planner w;
                 planner_calls := planner_calls w |}).

(** [safe_send_json]: the message is handed to the socket; a failure of
    the socket is swallowed there and no caller looks at the result. *)
Definition safe_send_json (msg : Message) : M unit :=
  λ w, (Ok tt, {| session := session w; global_task_state := global_task_state w;
                 memory_store := memory_store w; sent := (sent w ++ [msg])%list;
                 log := log w; clock := clock w; planner := planner w;
                 planner_calls := planner_calls w |}).

(** [logging.error] and [logging.warning] *)
Definition logging (r : LogRecord) : M unit :=
  λ w, (Ok tt, {| session := session w; global_task_state := global_task_state w;
                 memory_store := memory_store w; sent := sent w;
                 log := (log w ++ [r])%list; clock := clock w; planner := planner w;
                 planner_calls := planner_calls w |}).

(** The next reply of the task planner *)
Definition call_planner : M (Gateway PlanData) :=
  λ w, (Ok (planner w (planner_calls w)),
        {| session := session w; global_task_state := global_task_state w;
           memory_store := memory_store w; sent := sent w; log := log w;
           clock := clock w; planner := planner w;
           planner_calls := S (planner_calls w) |}).

Declare Scope world_scope.
Delimit Scope world_scope with world.
Notation "x <- m ;; k" := (bind m (λ x, k))
  (at level 100, m at next level, right associativity) : world_scope.
Notation "m ;; k" := (bind m (λ _, k))
  (at level 100, right associativity) : world_scope.

Local Open Scope world_scope.

(** A function of the clock, run on the clock of the world *)
Definition with_clock {A : Type} (f : Clock -> A * Clock) : M A :=
  w <- get ;;
  let '(a, c) := f (clock w) in
  set_clock c ;; ret a.

Definition modify_session (f : SessionState -> SessionState) : M unit :=
  w <- get ;; set_session (f (session w)).

(** Field updates of the session *)
Definition with_mode (m : string) (s : SessionState) : SessionState :=
  {| social_context := social_context s; frames_received := frames_received s;
     frames_processed := frames_processed s; frames_skipped := frames_skipped s;
     current_goal := current_goal s; micro_target := micro_target s; mode := m;
     object_memory := object_memory s; task_state := task_state s;
     latest_frame := latest_frame s; is_processing := is_processing s;
     _tracker := _tracker s; _speech_manager := _speech_manager s |}.

Definition with_task_state (ts : TaskState) (s : SessionState) : SessionState :=
  {| social_context := social_context s; frames_received := frames_received s;
     frames_processed := frames_processed s; frames_skipped := frames_skipped s;
     current_goal := current_goal s; micro_target := micro_target s; mode := mode s;
     object_memory := object_memory s; task_state := ts;
     latest_frame := latest_frame s; is_processing := is_processing s;
     _tracker := _tracker s; _speech_manager := _speech_manager s |}.

Definition with_goal (g : option string) (s : SessionState) : SessionState :=
  {| social_context := social_context s; frames_received := frames_received s;
     frames_processed := frames_processed s; frames_skipped := frames_skipped s;
     current_goal := g; micro_target := micro_target s; mode := mode s;
     object_memory := object_memory s; task_state := task_state s;
     latest_frame := latest_frame s; is_processing := is_processing s;
     _tracker := _tracker s; _speech_manager := _speech_manager s |}.

Definition with_micro_target (t : option string) (s : SessionState) : SessionState :=
  {| social_context := social_context s; frames_received := frames_received s;
     frames_processed := frames_processed s; frames_skipped := frames_skipped s;
     current_goal := current_goal s; micro_target := t; mode := mode s;
     object_memory := object_memory s; task_state := task_state s;
     latest_frame := latest_frame s; is_processing := is_processing s;
     _tracker := _tracker s; _speech_manager := _speech_manager s |}.

Definition with_counters (received processed skipped : Z) (s : SessionState) : SessionState :=
  {| social_context := social_context s; frames_received := received;
     frames_processed := processed; frames_skipped := skipped;
     current_goal := current_goal s; micro_target := micro_target s; mode := mode s;
     object_memory := object_memory s; task_state := task_state s;
     latest_frame := latest_frame s; is_processing := is_processing s;
     _tracker := _tracker s; _speech_manager := _speech_manager s |}.

Definition with_mailbox (f : option Frame) (busy : bool) (s : SessionState) : SessionState :=
  {| social_context := social_context s; frames_received := frames_received s;
     frames_processed := frames_processed s; frames_skipped := frames_skipped s;
     current_goal := current_goal s; micro_target := micro_target s; mode := mode s;
     object_memory := object_memory s; task_state := task_state s;
     latest_frame := f; is_processing := busy;
     _tracker := _tracker s; _speech_manager := _speech_manager s |}.

Definition with_social_context (social : list string) (s : SessionState) : SessionState :=
  {| social_context := social; frames_received := frames_received s;
     frames_processed := frames_processed s; frames_skipped := frames_skipped s;
     current_goal := current_goal s; micro_target := micro_target s; mode := mode s;
     object_memory := object_memory s; task_state := task_state s;
     latest_frame := latest_frame s; is_processing := is_processing s;
     _tracker := _tracker s; _speech_manager := _speech_manager s |}.

Definition with_object_memory (mem : gmap string MemoryEntry) (s : SessionState)
    : SessionState :=
  {| social_context := social_context s; frames_received := frames_received s;
     frames_processed := frames_processed s; frames_skipped := frames_skipped s;
     current_goal := current_goal s; micro_target := micro_target s; mode := mode s;
     object_memory := mem; task_state := task_state s;
     latest_frame := latest_frame s; is_processing := is_processing s;
     _tracker := _tracker s; _speech_manager := _speech_manager s |}.

Definition with_tracker (tr : option Tracking.VisualTracker) (s : SessionState)
    : SessionState :=
  {| social_context := social_context s; frames_received := frames_received s;
     frames_processed := frames_processed s; frames_skipped := frames_skipped s;
     current_goal := current_goal s; micro_target := micro_target s; mode := mode s;
     object_memory := object_memory s; task_state := task_state s;
     latest_frame := latest_frame s; is_processing := is_processing s;
     _tracker := tr; _speech_manager := _speech_manager s |}.

Definition with_speech_manager (sp : option Speech.SpeechManager) (s : SessionState)
    : SessionState :=
  {| social_context := social_context s; frames_received := frames_received s;
     frames_processed := frames_processed s; frames_skipped := frames_skipped s;
     current_goal := current_goal s; micro_target := micro_target s; mode := mode s;
     object_memory := object_memory s; task_state := task_state s;
     latest_frame := latest_frame s; is_processing := is_processing s;
     _tracker := _tracker s; _speech_manager := sp |}.

(** [state.frames_skipped += 1] and [state.frames_processed += 1] *)
Definition skip_frame : M unit :=
  modify_session (λ s, with_counters (frames_received s) (frames_processed s)
                                     (frames_skipped s + 1) s).

Definition count_processed : M unit :=
  modify_session (λ s, with_counters (frames_received s) (frames_processed s + 1)
                                     (frames_skipped s) s).

(** [global_task_state.update_from(state.task_state, name)] *)
Definition sync_global (name : string) : M unit :=
  w <- get ;;
  g <- with_clock (update_from (global_task_state w) (task_state (session w)) name) ;;
  set_global g.

End World.

(** ** [app/services/processor.py]: the frame handlers *)

Module Processor.

Import Models World.
Local Open Scope Z_scope.
Local Open Scope world_scope.

(** The scene judgment the gateway returns for a navigation frame; a key
    the reply lacks is [None]. *)
Record NavReply : Type := mkNavReply {
  r_priority : option string;
  r_category : option string;
  r_subject : option string;
  r_distance : option float;
  r_direction : option string;
  r_speech : option string;
  r_scene_description : option string;
  r_target_detected : option bool;
  r_current_location_tag : option string;
  r_objects : option (list Tracking.Detection)
}.

Record TaskReply : Type := mkTaskReply {
  t_step_completed : option bool;
  t_speech : option string;
  t_visual_feedback : option string
}.

Record MicroReply : Type := mkMicroReply {
  mi_x : option Z;
  mi_y : option Z;
  mi_action : option string;
  mi_guidance_speech : option string
}.

(** The two external calls of a frame handler: decoding the image, which
    succeeds or raises, and the gateway. *)
Record FrameEnv (A : Type) : Type := mkFrameEnv {
  decoded : Res unit;
  gateway : Gateway A
}.
Arguments decoded {A} _.
Arguments gateway {A} _.

(** The gateway call followed by [if not response.text: return] and the
    parsing of the text: [None] stands for the early return. *)
Definition ask {A : Type} (gw : Gateway A) : M (option A) :=
  match gw with
  | GwFails e => raise e
  | GwEmpty => ret None
  | GwGarbled e => raise e
  | GwReply a => ret (Some a)
  end.

(** [state.speech_manager] and [state.tracker]: created on first use *)
Definition use_speech_manager : M Speech.SpeechManager :=
  modify_session (λ s, with_speech_manager (Some (speech_manager s)) s) ;;
  w <- get ;;
  ret (speech_manager (session w)).

Definition put_speech_manager (sp : Speech.SpeechManager) : M unit :=
  modify_session (with_speech_manager (Some sp)).

Definition use_tracker : M Tracking.VisualTracker :=
  modify_session (λ s, with_tracker (Some (tracker s)) s) ;;
  w <- get ;;
  ret (tracker (session w)).

Definition put_tracker (tr : Tracking.VisualTracker) : M unit :=
  modify_session (with_tracker (Some tr)).

(** The [try] block of [process_micro_frame] *)
Definition micro_body (env : FrameEnv MicroReply) : M unit :=
  lift (decoded env) ;;
  reply <- ask (gateway env) ;;
  match reply with
  | None => ret tt
  | Some result =>
      count_processed ;;
      safe_send_json
        (MicroResult (default 0 (mi_x result)) (default 0 (mi_y result))
                     (default "move" (mi_action result)) (mi_guidance_speech result))
  end.

(** Its [except Exception] clause *)
Definition micro_except (e : exn) : M unit :=
  logging (LogError "Micro-Nav Error" e) ;; skip_frame.

(** [process_micro_frame] *)
Definition process_micro_frame (frame_data : Frame) (env : FrameEnv MicroReply) : M unit :=
  w <- get ;;
  let target := micro_target (session w) in
  if (String.eqb (image frame_data) ""
      || match target with Some t => String.eqb t "" | None => true end)%bool
  then ret tt
  else try_except (micro_body env) micro_except.

(** The part of [process_task_frame] that runs on a positive verdict *)
Definition complete_step (idx : Z) : M unit :=
  w <- get ;;
  let ts := task_state (session w) in
  step <- lift (PyList.getitem (plan ts) idx) ;;
  plan' <- lift (PyList.setitem (plan ts) idx (set_completed true step)) ;;
  let index' := current_step_index ts + 1 in
  modify_session (with_task_state
                    {| is_active := is_active ts; plan := plan';
                       current_step_index := index';
                       waiting_for_user := waiting_for_user ts |}) ;;
  if Z.of_nat (List.length plan') <=? index' then
    safe_send_json (Speak "Task completed! Great job.") ;;
    modify_session (λ s, with_mode "nav"
      (with_task_state {| is_active := false; plan := plan';
                          current_step_index := index';
                          waiting_for_user := waiting_for_user ts |} s))
  else
    next_step <- lift (PyList.getitem plan' index') ;;
    safe_send_json (Speak ("Step done. Next: " ++ instruction next_step)).

(** The guidance of a negative verdict goes through the speech gate *)
Definition speak_guidance (speech : string) : M unit :=
  sp <- use_speech_manager ;;
  verdict <- with_clock (Speech.should_speak sp "medium" "task" "guidance" "task" 1.0 speech) ;;
  decision <- lift verdict ;;
  if decision.1 then
    sp' <- with_clock (Speech.record_speech sp speech "medium" "task" "guidance" "task" 1.0) ;;
    put_speech_manager sp' ;;
    safe_send_json (Speak speech)
  else ret tt.

(** The [try] block of [process_task_frame] *)
Definition task_body (idx : Z) (env : FrameEnv TaskReply) : M unit :=
  lift (decoded env) ;;
  reply <- ask (gateway env) ;;
  match reply with
  | None => ret tt
  | Some result =>
      let step_completed := default false (t_step_completed result) in
      let speech := default "" (t_speech result) in
      (if step_completed then complete_step idx
       else if negb (String.eqb speech "") then speak_guidance speech
       else ret tt) ;;
      sync_global "" ;;
      count_processed ;;
      w' <- get ;;
      safe_send_json
        (TaskUpdate (plan (task_state (session w')))
                    (current_step_index (task_state (session w')))
                    false (Some (default "" (t_visual_feedback result))))
  end.

(** Its [except Exception] clause *)
Definition task_except (e : exn) : M unit :=
  logging (LogError "Task Guidance Error" e) ;; skip_frame.

(** [process_task_frame] *)
Definition process_task_frame (frame_data : Frame) (env : FrameEnv TaskReply) : M unit :=
  w <- get ;;
  let ts := task_state (session w) in
  if (negb (is_active ts) || Nat.eqb (List.length (plan ts)) 0)%bool then
    modify_session (with_mode "nav")
  else
    let idx := current_step_index ts in
    if Z.of_nat (List.length (plan ts)) <=? idx then
      safe_send_json (Speak "Task already completed.") ;;
      modify_session (λ s, with_mode "nav" (with_task_state new_task_state s))
    else
      current_step <- lift (PyList.getitem (plan ts) idx) ;;
      try_except (task_body idx env) task_except.

(** [SessionState.get_memory_context]: one clock reading per entry *)
Fixpoint memory_parts (entries : list (string * MemoryEntry)) (clk : Clock)
    : Res (list string) * Clock :=
  match entries with
  | [] => (Ok [], clk)
  | (name, entry) :: rest =>
      let '(t, clk) := time_time clk in
      match PyFloat.to_int (t - Models.timestamp entry)%float with
      | Raise e => (Raise e, clk)
      | Ok age =>
          match memory_parts rest clk with
          | (Ok parts, clk) =>
              (Ok ((name ++ " (" ++ m_direction entry ++ ", "
                      ++ Utils.format_1f (m_distance entry) ++ "m, "
                      ++ PyStr.of_Z age ++ "s ago)")%string :: parts), clk)
          | (Raise e, clk) => (Raise e, clk)
          end
      end
  end.

Definition get_memory_context (mem : gmap string MemoryEntry) (clk : Clock)
    : Res string * Clock :=
  if Nat.eqb (size mem) 0 then (Ok "No objects in memory.", clk)
  else match memory_parts (map_to_list mem) clk with
       | (Ok parts, clk) => (Ok ("Objects in memory: " ++ PyStr.join ", " parts)%string, clk)
       | (Raise e, clk) => (Raise e, clk)
       end.

(** The fields of a scene judgment with their defaults *)
Definition nav_priority (r : NavReply) : string := PyStr.lower (default "low" (r_priority r)).
Definition nav_category (r : NavReply) : string := default "navigation" (r_category r).
Definition nav_subject (r : NavReply) : string := default "" (r_subject r).
Definition nav_distance (r : NavReply) : float := default 2.0%float (r_distance r).
Definition nav_direction (r : NavReply) : string := default "ahead" (r_direction r).
Definition nav_speech (r : NavReply) : string := default "" (r_speech r).
Definition nav_scene (r : NavReply) : string := default "" (r_scene_description r).
Definition nav_target_detected (r : NavReply) : bool := default false (r_target_detected r).
Definition nav_objects (r : NavReply) : list Tracking.Detection := default [] (r_objects r).

(** The distance phrase appended to a speech that does not mention it *)
Definition with_distance_phrase (speech_text : string) (dist : float) : Res string :=
  if (negb (String.eqb speech_text "") && PyFloat.gtb dist 0)%bool then
    match Utils.format_distance_speech dist with
    | Raise e => Raise e
    | Ok dist_str =>
        match PyFloat.to_int dist with
        | Raise e => Raise e
        | Ok whole =>
            if PyStr.contains (PyStr.of_Z whole) speech_text then Ok speech_text
            else Ok (speech_text ++ " " ++ dist_str ++ " away.")%string
        end
    end
  else Ok speech_text.

(** Step 5 of [process_frame], the pipeline behind a parsed reply. The
    console output ([Console.log], [Console.detection]) is not modelled. *)
Definition nav_pipeline (result : NavReply) : M unit :=
  let prio := nav_priority result in
  let category := nav_category result in
  let subject := nav_subject result in
  let dist := nav_distance result in
  let direction := nav_direction result in
  let scene_desc := nav_scene result in
  (if negb (String.eqb scene_desc "") then
     modify_session (λ s, with_social_context
                            (PyList.deque_append 5 (social_context s) scene_desc) s)
   else ret tt) ;;
  (if (negb (String.eqb subject "")
       && PyStr.mem category ["target"; "social"; "text"; "furniture"]%string)%bool then
     w <- get ;;
     m <- with_clock (Memory.log_object (memory_store w) subject
                        (r_current_location_tag result) scene_desc) ;;
     set_memory m
   else ret tt) ;;
  (if negb (String.eqb subject "") then
     w <- get ;;
     mem <- with_clock (update_memory (object_memory (session w)) subject direction dist
                          category) ;;
     modify_session (with_object_memory mem)
   else ret tt) ;;
  speech_text <- lift (with_distance_phrase (nav_speech result) dist) ;;
  sp <- use_speech_manager ;;
  verdict <- with_clock (Speech.should_speak sp prio subject direction category dist
                           speech_text) ;;
  decision <- lift verdict ;;
  (if (decision.1 && negb (String.eqb speech_text ""))%bool then
     sp' <- with_clock (Speech.record_speech sp speech_text prio subject direction category
                          dist) ;;
     put_speech_manager sp' ;;
     safe_send_json (Speak speech_text)
   else ret tt) ;;
  tr <- use_tracker ;;
  let raw_objects := nav_objects result in
  tracked <- with_clock (Tracking.process_detections tr raw_objects) ;;
  put_tracker tracked.2 ;;
  let stable_objects := tracked.1 in
  let ui_objects :=
    match stable_objects with
    | [] => map UiRaw (take 5 raw_objects)
    | _ => map (λ o, UiStable (Tracking.name o) (Tracking.distance o) (Tracking.category o))
               stable_objects
    end in
  count_processed ;;
  w <- get ;;
  safe_send_json
    (NavResult prio dist direction (nav_target_detected result) (current_goal (session w))
               ui_objects scene_desc (frames_received (session w))
               (frames_processed (session w))).

(** The [try] block of [process_frame]. Of the prompt only the memory
    context is modelled, for its clock readings and its [int()]. *)
Definition nav_body (env : FrameEnv NavReply) : M unit :=
  lift (decoded env) ;;
  w <- get ;;
  context <- with_clock (get_memory_context (object_memory (session w))) ;;
  lift context ;;
  reply <- ask (gateway env) ;;
  match reply with
  | None => logging (LogWarning "Model returned empty response.")
  | Some result => nav_pipeline result
  end.

(** Its clauses [except asyncio.TimeoutError] and [except Exception] *)
Definition nav_except (e : exn) : M unit :=
  match e with
  | TimeoutError => logging (LogWarning "AI Model Timed Out") ;; skip_frame
  | _ => logging (LogError "Nav Process Error" e) ;; skip_frame
  end.

(** [process_frame] *)
Definition process_frame (frame_data : Frame) (env : FrameEnv NavReply) : M unit :=
  try_except (nav_body env) nav_except.

(** *** Voice inquiries *)

(** The intent classification the gateway returns for an inquiry *)
Record IntentReply : Type := mkIntentReply {
  i_intent : option string;
  i_speech : option string;
  i_thinking : option string;
  i_target : option string;
  i_search_target : option string;
  i_goal : option string;
  i_tag_name : option string;
  i_scene_description : option string;
  i_task_name : option string
}.

(** The [inquiry] envelope: base64 image and audio *)
Record InquiryData : Type := mkInquiryData {
  inq_image : option string;
  inq_audio : option string
}.

(** Truth of an optional string: present and not empty *)
Definition truthy (s : option string) : bool :=
  match s with
  | Some t => negb (String.eqb t "")
  | None => false
  end.

(** [_generate_task_plan]; an empty reply makes the parser raise
    [AttributeError]. The two context strings built for the prompt have no
    effect and are not modelled. *)
Definition _generate_task_plan (task_name : option string) : M string :=
  match task_name with
  | None => ret "I didn't hear a task name."
  | Some name =>
      if String.eqb name "" then ret "I didn't hear a task name."
      else
        try_except
          (reply <- call_planner ;;
           plan_data <-
             match reply with
             | GwFails e => raise e
             | GwEmpty => raise AttributeError
             | GwGarbled e => raise e
             | GwReply d => ret d
             end ;;
           match plan_data with
           | PlanList (first :: rest) =>
               let steps := first :: rest in
               modify_session (λ s, with_mode "task"
                 (with_task_state {| is_active := true; plan := steps;
                                     current_step_index := 0;
                                     waiting_for_user := false |} s)) ;;
               sync_global name ;;
               safe_send_json (TaskUpdate steps 0 false None) ;;
               ret ("Plan generated for " ++ name ++ ". First step: " ++ instruction first)%string
           | _ => ret "I couldn't generate a valid plan."
           end)
          (λ e, logging (LogError "Task Planning Failed" e) ;;
                ret "Sorry, I failed to create a plan.")
  end.

Definition put_task_state (ts : TaskState) : M unit :=
  modify_session (with_task_state ts).

(** [_handle_task_control] *)
Definition _handle_task_control (intent : string) : M string :=
  w <- get ;;
  let ts := task_state (session w) in
  if (negb (is_active ts) || Nat.eqb (List.length (plan ts)) 0)%bool then
    ret "No active task to control."
  else
    resp_text <-
      (if (String.eqb intent "task_skip" || String.eqb intent "task_done")%bool then
         step <- lift (PyList.getitem (plan ts) (current_step_index ts)) ;;
         plan' <- lift (PyList.setitem (plan ts) (current_step_index ts)
                          (set_completed true step)) ;;
         let index' := current_step_index ts + 1 in
         put_task_state {| is_active := is_active ts; plan := plan';
                           current_step_index := index';
                           waiting_for_user := waiting_for_user ts |} ;;
         if Z.of_nat (List.length plan') <=? index' then
           modify_session (λ s, with_mode "nav"
             (with_task_state {| is_active := false; plan := plan';
                                 current_step_index := index';
                                 waiting_for_user := waiting_for_user ts |} s)) ;;
           w' <- get ;;
           set_global (deactivate (global_task_state w')) ;;
           ret "Task completed."
         else
           next_step <- lift (PyList.getitem plan' index') ;;
           ret ("Done. Next: " ++ instruction next_step)%string
       else if String.eqb intent "task_previous" then
         if 0 <? current_step_index ts then
           let index' := current_step_index ts - 1 in
           put_task_state {| is_active := is_active ts; plan := plan ts;
                             current_step_index := index';
                             waiting_for_user := waiting_for_user ts |} ;;
           step <- lift (PyList.getitem (plan ts) index') ;;
           plan' <- lift (PyList.setitem (plan ts) index' (set_completed false step)) ;;
           put_task_state {| is_active := is_active ts; plan := plan';
                             current_step_index := index';
                             waiting_for_user := waiting_for_user ts |} ;;
           ret ("Back to: " ++ instruction step)%string
         else ret "Already at start."
       else if String.eqb intent "task_repeat" then
         curr <- lift (PyList.getitem (plan ts) (current_step_index ts)) ;;
         ret ("Current step: " ++ instruction curr)%string
       else if String.eqb intent "task_status" then
         let total := Z.of_nat (List.length (plan ts)) in
         let current := current_step_index ts + 1 in
         ret ("Step " ++ PyStr.of_Z current ++ " of " ++ PyStr.of_Z total ++ ".")%string
       else ret "Unknown task command.") ;;
    sync_global "" ;;
    w' <- get ;;
    safe_send_json (TaskUpdate (plan (task_state (session w')))
                               (current_step_index (task_state (session w'))) false None) ;;
    ret resp_text.

(** [_handle_intent]: the side effects of an intent and the speech that
    overrides the gateway's, if any *)
Definition _handle_intent (intent : string) (result : IntentReply) : M (option string) :=
  if String.eqb intent "micro_nav" then
    match i_target result with
    | Some target =>
        if String.eqb target "" then ret None
        else
          modify_session (λ s, with_micro_target (Some target) (with_mode "micro" s)) ;;
          ret (Some ("Guiding you to the " ++ target ++ ". Hold steady.")%string)
    | None => ret None
    end
  else if String.eqb intent "search" then
    modify_session (with_mode "nav") ;;
    let goal := if truthy (i_search_target result) then i_search_target result
                else i_goal result in
    if truthy goal then
      modify_session (with_goal goal) ;;
      ret (Some ("Okay, searching for " ++ default "" goal ++ ".")%string)
    else ret None
  else if String.eqb intent "stop" then
    modify_session (λ s, with_task_state new_task_state
                           (with_micro_target None (with_goal None (with_mode "nav" s)))) ;;
    w <- get ;;
    set_global (deactivate (global_task_state w)) ;;
    ret (Some "Stopping all tasks and searches.")
  else if String.eqb intent "tag" then
    if (truthy (i_tag_name result) && truthy (i_scene_description result))%bool then
      w <- get ;;
      m <- with_clock (Memory.add_location (memory_store w) (default "" (i_tag_name result))
                         (default "" (i_scene_description result))) ;;
      set_memory m ;;
      ret (Some ("Tagged location as " ++ default "" (i_tag_name result) ++ ".")%string)
    else ret None
  else if String.eqb intent "task" then
    speech <- _generate_task_plan (i_task_name result) ;;
    ret (Some speech)
  else if String.prefix "task_" intent then
    speech <- _handle_task_control intent ;;
    ret (Some speech)
  else ret None.

(** [process_inquiry]. Decoding the image and the audio cannot raise (the
    helpers fall back to a black image and to no audio). The task line of
    the prompt reads the current step of an active task. *)
Definition process_inquiry (data : InquiryData) (gw : Gateway IntentReply) : M unit :=
  if (negb (truthy (inq_image data)) || negb (truthy (inq_audio data)))%bool then ret tt
  else
    try_except
      (w <- get ;;
       let ts := task_state (session w) in
       (if (is_active ts && (current_step_index ts <? Z.of_nat (List.length (plan ts))))%bool
        then step <- lift (PyList.getitem (plan ts) (current_step_index ts)) ;; ret tt
        else ret tt) ;;
       reply <- ask gw ;;
       match reply with
       | None => ret tt
       | Some result =>
           let intent := default "info" (i_intent result) in
           let speech_text := default "I didn't catch that." (i_speech result) in
           let thinking := default "" (i_thinking result) in
           _handle_intent intent result ;;
           handler_speech <- _handle_intent intent result ;;
           let speech_text := if truthy handler_speech then default "" handler_speech
                              else speech_text in
           w' <- get ;;
           safe_send_json (InquiryResult thinking (current_goal (session w'))
                             (mode (session w')) (is_active (task_state (session w')))) ;;
           safe_send_json (Speak speech_text)
       end)
      (λ e, logging (LogError "Inquiry Error" e) ;;
            safe_send_json (Speak "Sorry, I had an error processing that.")).

End Processor.

(** ** [app/routes/websocket.py]: one session *)

Module Websocket.

Import Models World Processor.
Local Open Scope Z_scope.
Local Open Scope world_scope.

(** The start of [websocket_endpoint]: a new session state, and the
    durable task adopted when it is valid *)
Definition on_connect : M unit :=
  set_session new_session_state ;;
  w <- get ;;
  valid <- with_clock (is_valid (global_task_state w)) ;;
  if valid : bool then
    let ts := to_task_state (global_task_state w) in
    modify_session (λ s, with_mode "task" (with_task_state ts s)) ;;
    safe_send_json (TaskUpdate (plan ts) (current_step_index ts) true None) ;;
    step <- lift (current_step ts) ;;
    match step with
    | Some st => safe_send_json (Speak ("Resuming. Step: " ++ instruction st))
    | None => ret tt
    end
  else ret tt.

(** The handler the consumer selects from [state.mode] *)
Inductive Handler : Type :=
| MicroHandler
| TaskHandler
| NavHandler.

Definition select_handler (mode : string) : Handler :=
  if String.eqb mode "micro" then MicroHandler
  else if String.eqb mode "task" then TaskHandler
  else NavHandler.

(** What the outside answers to the handler that runs *)
Inductive HandlerEnv : Type :=
| MicroEnv (env : FrameEnv MicroReply)
| TaskEnv (env : FrameEnv TaskReply)
| NavEnv (env : FrameEnv NavReply).

Definition env_matches (h : Handler) (env : HandlerEnv) : bool :=
  match h, env with
  | MicroHandler, MicroEnv _ | TaskHandler, TaskEnv _ | NavHandler, NavEnv _ => true
  | _, _ => false
  end.

Definition run_handler (frame_data : Frame) (env : HandlerEnv) : M unit :=
  match env with
  | MicroEnv e => process_micro_frame frame_data e
  | TaskEnv e => process_task_frame frame_data e
  | NavEnv e => process_frame frame_data e
  end.

(** Where the consumer task [_frame_processor_loop] stands *)
Inductive Consumer : Type :=
| Waiting
| Dispatching (handler : Handler) (frame_data : Frame)
| Stopped.

Record Session : Type := mkSession {
  world : World;
  frame_event : bool;
  consumer : Consumer
}.

(** The steps of a session. The two tasks are cooperative: a step is the
    code one of them runs between two suspension points, and a handler's
    effects are applied in one step, when it completes. *)
Inductive Label : Type :=
| Submit (bytes : string)
| Inquiry (data : InquiryData) (gw : Gateway IntentReply)
| Wake
| Handled (env : HandlerEnv)
| Cancel.

(** The payload the producer builds from a binary message *)
Definition frame_payload (bytes : string) : Frame :=
  {| image := bytes; heading := 0; task := "navigation" |}.

(** The producer on a binary message *)
Definition submit (bytes : string) (s : Session) : Session :=
  let st := session (world s) in
  let st := with_counters (frames_received st + 1) (frames_processed st)
                          (frames_skipped st) st in
  if negb (is_processing st) then
    {| world := (set_session (with_mailbox (Some (frame_payload bytes))
                                           (is_processing st) st) (world s)).2;
       frame_event := true;
       consumer := consumer s |}
  else
    let st := with_mailbox (Some (frame_payload bytes)) (is_processing st) st in
    {| world := (set_session (with_counters (frames_received st) (frames_processed st)
                                            (frames_skipped st + 1) st) (world s)).2;
       frame_event := frame_event s;
       consumer := consumer s |}.

(** The producer on an [inquiry] message; [process_inquiry] contains its
    exceptions, one that escaped would end the producer loop. *)
Definition inquiry (data : InquiryData) (gw : Gateway IntentReply) : M unit :=
  process_inquiry data gw ;;
  w <- get ;;
  if is_active (task_state (session w)) then sync_global "" else ret tt.

(** The [finally] clause of a dispatch *)
Definition after_dispatch (w : World) (event : bool) : World * bool :=
  let st := with_mailbox (latest_frame (session w)) false (session w) in
  ((set_session st w).2,
   match latest_frame st with Some _ => true | None => event end).

(** The cleanup of the producer before it cancels the consumer: the task
    of the session is saved once more *)
Definition teardown : M unit :=
  w <- get ;;
  if is_active (task_state (session w)) then sync_global "" else ret tt.

(** One step of the session; [None] when the step cannot be taken. A
    waking consumer clears the event and claims the pending frame (a payload
    is a non-empty dict, hence true) unless the flag is set. The consumer is
    cancelled while it waits for the event, or inside a handler, whose
    remaining effects are then lost. *)
Definition step (s : Session) (l : Label) : option Session :=
  match l, consumer s with
  | Submit bytes, _ => Some (submit bytes s)
  | Inquiry data gw, _ =>
      match inquiry data gw (world s) with
      | (Ok _, w) =>
          Some {| world := w; frame_event := frame_event s; consumer := consumer s |}
      | (Raise _, _) => None
      end
  | Wake, Waiting =>
      if frame_event s then
        let st := session (world s) in
        match latest_frame st with
        | Some frame_data =>
            if negb (is_processing st) then
              Some {| world := (set_session (with_mailbox None true st) (world s)).2;
                      frame_event := false;
                      consumer := Dispatching (select_handler (mode st)) frame_data |}
            else Some {| world := world s; frame_event := false; consumer := Waiting |}
        | None => Some {| world := world s; frame_event := false; consumer := Waiting |}
        end
      else None
  | Handled env, Dispatching h frame_data =>
      if env_matches h env then
        let '(r, w) := run_handler frame_data env (world s) in
        let w :=
          match r with
          | Ok _ => w
          | Raise e => (logging (LogError "Frame Processing Exception" e) w).2
          end in
        let '(w, event) := after_dispatch w (frame_event s) in
        Some {| world := w; frame_event := event; consumer := Waiting |}
      else None
  | Cancel, Waiting =>
      Some {| world := (teardown (world s)).2; frame_event := frame_event s;
              consumer := Stopped |}
  | Cancel, Dispatching _ _ =>
      let '(w, event) := after_dispatch (teardown (world s)).2 (frame_event s) in
      Some {| world := w; frame_event := event; consumer := Stopped |}
  | _, _ => None
  end.

(** A run of the session *)
Fixpoint run (s : Session) (ls : list Label) : option Session :=
  match ls with
  | [] => Some s
  | l :: rest =>
      match step s l with
      | Some s' => run s' rest
      | None => None
      end
  end.

(** The session as the two loops find it after [on_connect] *)
Definition connected (w : World) : option Session :=
  match on_connect w with
  | (Ok _, w') => Some {| world := w'; frame_event := false; consumer := Waiting |}
  | (Raise _, _) => None
  end.

(** The frame of the last [Submit] of a run *)
Definition last_submitted (ls : list Label) : option Frame :=
  last (omap (λ l, match l with Submit b => Some (frame_payload b) | _ => None end) ls).

End Websocket.

(** * Example inputs *)

Module Clocks.

Local Open Scope Z_scope.

(** A clock that starts at 100 s and advances by a tenth of a second per reading *)
Definition tenth_clock : Clock :=
  {| readings := λ n, (100 + PrimFloat.of_uint63 (Uint63.of_Z (Z.of_nat n)) / 10)%float;
     ticks := 0 |}.

(** A clock that starts at 100 s and advances by [step] seconds per reading *)
Definition stepping_clock (step : float) : Clock :=
  {| readings := λ n, (100 + PrimFloat.of_uint63 (Uint63.of_Z (Z.of_nat n)) * step)%float;
     ticks := 0 |}.

End Clocks.

Module TrackingExamples.

Import Tracking.
Local Open Scope Z_scope.

(** A detection named ["chair"] with confidence 90 at the given distance *)
Definition chair_at (d : float) : Detection :=
  {| det_name := Some "chair";
     det_confidence_score := Some 90%float;
     det_distance := Some d;
     det_direction := Some "ahead";
     det_category := Some "furniture" |}.

(** A detection that carries a name and nothing else *)
Definition bare (n : string) : Detection :=
  {| det_name := Some n;
     det_confidence_score := None;
     det_distance := None;
     det_direction := None;
     det_category := None |}.

End TrackingExamples.

Module SpeechExamples.

Import Speech.

(** The gate after "Chair ahead" was spoken at the given time, 2 m away,
    with medium priority; the speech ended a second later. *)
Definition spoke_chair_at (t : float) : SpeechManager :=
  {| current_speech_end_time := (t + 1)%float;
     last_semantic_key := "chair|ahead|furniture";
     last_speech_time := t;
     last_distance := 2.0%float;
     last_priority := "medium";
     announced_subjects := {[ "chair" := t ]};
     recent_speeches := ["Chair ahead"] |}.

End SpeechExamples.

Module TaskExamples.

Import Models World.
Local Open Scope Z_scope.

Definition coffee_plan : list TaskStep :=
  [ {| step_id := 1; instruction := "Find the mug"; items := ["mug"]; completed := false |};
    {| step_id := 2; instruction := "Pour the water"; items := ["kettle"]; completed := false |};
    {| step_id := 3; instruction := "Add the coffee"; items := ["coffee"]; completed := false |} ].

(** The durable state of the coffee task at step 2, last updated at [t] *)
Definition coffee_saved_at (t : float) : GlobalTaskState :=
  {| g_is_active := true; g_plan := coffee_plan; g_current_step_index := 1;
     task_name := "make coffee"; last_updated := t |}.

(** A planner that never answers *)
Definition silent_planner : nat -> Gateway PlanData := λ _, GwEmpty.

(** A world with the given durable state, an empty memory and a clock
    that always shows [now] *)
Definition world_at (g : GlobalTaskState) (now : float) : World :=
  {| session := new_session_state;
     global_task_state := g;
     memory_store := Memory.empty_memory;
     sent := [];
     log := [];
     clock := {| readings := λ _, now; ticks := 0 |};
     planner := silent_planner;
     planner_calls := 0 |}.

(** A session in task mode on the given plan and step *)
Definition session_on_task (steps : list TaskStep) (index : Z) : SessionState :=
  with_mode "task"
    (with_task_state {| is_active := true; plan := steps; current_step_index := index;
                        waiting_for_user := false |} new_session_state).

(** The world of a session on the coffee task at its first step *)
Definition coffee_world : World :=
  {| session := session_on_task coffee_plan 0;
     global_task_state := coffee_saved_at 1000;
     memory_store := Memory.empty_memory;
     sent := [];
     log := [];
     clock := {| readings := λ _, 1010%float; ticks := 0 |};
     planner := silent_planner;
     planner_calls := 0 |}.

(** A voice inquiry with an image and an audio clip *)
Definition voice : Processor.InquiryData :=
  {| Processor.inq_image := Some "data:image/jpeg;base64,AAAA";
     Processor.inq_audio := Some "data:audio/webm;base64,AAAA" |}.

(** The gateway classifying the inquiry as the given intent *)
Definition heard (intent speech : string) : Gateway Processor.IntentReply :=
  GwReply {| Processor.i_intent := Some intent;
             Processor.i_speech := Some speech;
             Processor.i_thinking := None;
             Processor.i_target := None;
             Processor.i_search_target := None;
             Processor.i_goal := None;
             Processor.i_tag_name := None;
             Processor.i_scene_description := None;
             Processor.i_task_name := None |}.

End TaskExamples.

Module MemoryExamples.

Import Memory.

(** The arguments of one call of [log_object] *)
Record LogCall : Type := mkLogCall {
  call_object : string;
  call_location : option string;
  call_scene : string
}.

Definition log_call (acc : PersistentMemory * Clock) (c : LogCall) : PersistentMemory * Clock :=
  log_object acc.1 (call_object c) (call_location c) (call_scene c) acc.2.

(** A sequence of calls, one after the other *)
Definition log_all (calls : list LogCall) (mem : PersistentMemory) (clk : Clock)
    : PersistentMemory * Clock :=
  fold_left log_call calls (mem, clk).

(** The history list, empty when the key is missing *)
Definition entries (mem : PersistentMemory) : list HistoryEntry :=
  default [] (history mem).

Definition saw (name : string) : LogCall :=
  {| call_object := name; call_location := None; call_scene := "" |}.

End MemoryExamples.

Module LoopExamples.

Import Models World Processor Websocket TaskExamples.
Local Open Scope Z_scope.

(** A world with no durable task, at 100 s *)
Definition quiet_world : World := world_at new_global_task_state 100.

(** The session of a client that has just connected to it *)
Definition fresh_session : Session :=
  {| world := (on_connect quiet_world).2; frame_event := false; consumer := Waiting |}.

(** A navigation frame whose gateway call times out *)
Definition timed_out : HandlerEnv :=
  NavEnv {| decoded := Ok tt; gateway := GwFails TimeoutError |}.

(** A navigation frame whose image cannot be decoded *)
Definition undecodable : HandlerEnv :=
  NavEnv {| decoded := Raise ValueError; gateway := GwEmpty |}.

(** Three frames arrive; the second and third while the first is handled *)
Definition three_frames : list Label :=
  [Submit "frame-1"; Wake; Submit "frame-2"; Submit "frame-3"; Handled timed_out].

(** The session after these steps, and after the consumer woke up again *)
Definition before_claim : Session :=
  default fresh_session (run fresh_session three_frames).

Definition after_claim : Session :=
  default before_claim (step before_claim Wake).

End LoopExamples.

(** * Notions the statements use *)

Module Notions.

Import Models World.
Local Open Scope Z_scope.

(** What the stability flag does record: a stable entry has counted at
    least two accepted detections since it was created. *)
Definition counted_twice (objs : gmap string Tracking.TrackedObject) : Prop :=
  ∀ k o, objs !! k = Some o →
         Tracking.is_stable o = true → 2 ≤ Tracking.frames_detected o.

(** The freshness test of the durable state at the clock reading [now] *)
Definition fresh_and_active (g : GlobalTaskState) (now : float) : bool :=
  (g_is_active g && PrimFloat.ltb (now - last_updated g)%float 300)%bool.

(** The state of the task after one [task_skip] or [task_done] that does
    not finish the plan *)
Definition skipped_once (ts : TaskState) (step : TaskStep) : TaskState :=
  {| is_active := is_active ts;
     plan := <[Z.to_nat (current_step_index ts) := set_completed true step]> (plan ts);
     current_step_index := current_step_index ts + 1;
     waiting_for_user := waiting_for_user ts |}.

(** A computation keeps a view of the session when the view reads the same
    before and after it, whatever the outcome. *)
Definition keeps {X A : Type} (view : SessionState -> X) (m : M A) : Prop :=
  ∀ w, view (session (m w).2) = view (session w).

(** The mailbox of the ingestion loop: the pending frame and the flag *)
Definition mailbox (s : SessionState) : option Frame * bool :=
  (latest_frame s, is_processing s).

(** The pending frame of a session, if there is one, is the frame of the
    last [Submit] of the run so far. *)
Definition pending_is_latest (ls : list Websocket.Label) (s : Websocket.Session) : Prop :=
  ∀ f, latest_frame (session (Websocket.world s)) = Some f →
       Websocket.last_submitted ls = Some f.

End Notions.

(** * Runs of the components *)

Module Replay.

(** The tracker fed one list of detections per frame; the state and the
    clock after the last frame *)
Definition track_frames (frames : list (list Tracking.Detection))
    (tr : Tracking.VisualTracker) (clk : Clock) : Tracking.VisualTracker * Clock :=
  fold_left (λ acc dets,
               let r := Tracking.process_detections acc.1 dets acc.2 in (r.1.2, r.2))
            frames (tr, clk).

(** A clock that shows the same time at every reading *)
Definition frozen_clock (t : float) : Clock := {| readings := λ _, t; ticks := 0 |}.

End Replay.

(** ** [app/services/memory.py]: reading the store *)

Module MemoryQueries.

Import Memory.

(** [get_locations]: the saved locations, none when the key is missing *)
Definition get_locations (self : PersistentMemory) : gmap string Location :=
  default ∅ (locations self).

End MemoryQueries.

(** ** [app/utils.py]: similarity of two texts *)

Module TextSimilarity.

(** [set(text.lower().split())] *)
Definition word_set (text : string) : gset string :=
  list_to_set (PyStr.split (PyStr.lower text)).

(** [calculate_similarity]: the Jaccard index of the two word sets. The
    quotient of the two counts is the binary64 division of their values. *)
Definition calculate_similarity (text1 text2 : string) : float :=
  if (String.eqb text1 "" || String.eqb text2 "")%bool then 0.0%float
  else
    let s1 := word_set text1 in
    let s2 := word_set text2 in
    if (Nat.eqb (size s1) 0 || Nat.eqb (size s2) 0)%bool then 0.0%float
    else
      let intersection := size (s1 ∩ s2) in
      let union := size (s1 ∪ s2) in
      (Speech.float_of_nat intersection / Speech.float_of_nat union)%float.

End TextSimilarity.


(** ** Voice inquiries *)

Module Inquiries.

Import Processor.

(** The goal a [search] reply names: [search_target] or [goal] *)
Definition named_goal (result : IntentReply) : option string :=
  if truthy (i_search_target result) then i_search_target result else i_goal result.

(** A reply with the given intent and nothing else but a speech *)
Definition reply (intent : string) : IntentReply :=
  {| i_intent := Some intent; i_speech := Some "Okay."; i_thinking := None;
     i_target := None; i_search_target := None; i_goal := None; i_tag_name := None;
     i_scene_description := None; i_task_name := None |}.

Definition search_reply (search_target goal : option string) : IntentReply :=
  {| i_intent := Some "search"; i_speech := Some "Okay."; i_thinking := None;
     i_target := None; i_search_target := search_target; i_goal := goal;
     i_tag_name := None; i_scene_description := None; i_task_name := None |}.

Definition micro_nav_reply (target : string) : IntentReply :=
  {| i_intent := Some "micro_nav"; i_speech := Some "Okay."; i_thinking := None;
     i_target := Some target; i_search_target := None; i_goal := None;
     i_tag_name := None; i_scene_description := None; i_task_name := None |}.

Definition tag_reply (name scene : string) : IntentReply :=
  {| i_intent := Some "tag"; i_speech := Some "Okay."; i_thinking := None;
     i_target := None; i_search_target := None; i_goal := None;
     i_tag_name := Some name; i_scene_description := Some scene; i_task_name := None |}.

End Inquiries.

(** ** Task commands *)

Module TaskNotions.

Import Models World Processor.
Local Open Scope Z_scope.

(** The world after a task command that ends normally: the session's task
    state is copied to the durable state, stamped with the clock reading, and
    a [task_update] is sent. *)
Definition synced (w : World) (s : SessionState) : World :=
  {| session := s;
     global_task_state :=
       {| g_is_active := is_active (task_state s);
          g_plan := plan (task_state s);
          g_current_step_index := current_step_index (task_state s);
          task_name := task_name (global_task_state w);
          last_updated := readings (clock w) (ticks (clock w)) |};
     memory_store := memory_store w;
     sent := (sent w ++ [TaskUpdate (plan (task_state s))
                           (current_step_index (task_state s)) false None])%list;
     log := log w;
     clock := {| readings := readings (clock w); ticks := S (ticks (clock w)) |};
     planner := planner w; planner_calls := planner_calls w |}.

End TaskNotions.

(** ** The ingestion loop *)

Module LoopNotions.

Import Models World Processor Websocket.
Local Open Scope Z_scope.

(** The consumer is inside a handler *)
Definition in_flight (s : Session) : bool :=
  match consumer s with
  | Dispatching _ _ => true
  | _ => false
  end.

(** The processing flag is set exactly while a handler runs *)
Definition flag_matches (s : Session) : Prop :=
  is_processing (session (world s)) = in_flight s.

(** A waiting consumer with a pending frame has its event set *)
Definition signalled (s : Session) : Prop :=
  consumer s = Waiting →
  latest_frame (session (world s)) ≠ None →
  frame_event s = true.

(** A frame arrives while the consumer waits; nothing has woken it yet *)
Definition one_frame_pending : Session :=
  default LoopExamples.fresh_session
          (run LoopExamples.fresh_session [Submit "frame-1"]).

End LoopNotions.

(** ** Frames of the task and micro modes *)

Module FrameExamples.

Import Models World Processor TaskExamples.
Local Open Scope Z_scope.

(** A frame the gateway judges as showing the current step completed *)
Definition step_done : FrameEnv TaskReply :=
  {| decoded := Ok tt;
     gateway := GwReply {| t_step_completed := Some true; t_speech := None;
                           t_visual_feedback := Some "Mug in hand" |} |}.

(** A frame that is never sent to the gateway *)
Definition unanswered {A : Type} : FrameEnv A :=
  {| decoded := Ok tt; gateway := GwEmpty |}.

Definition a_frame : Frame := {| image := "jpeg"; heading := 0; task := "navigation" |}.

(** The world of a session on the coffee task at the given index *)
Definition coffee_at (index : Z) : World :=
  {| session := session_on_task coffee_plan index;
     global_task_state := global_task_state coffee_world;
     memory_store := memory_store coffee_world; sent := []; log := [];
     clock := clock coffee_world; planner := silent_planner; planner_calls := 0 |}.

(** The coffee task with its index past the last step *)
Definition coffee_finished : World := coffee_at 3.

End FrameExamples.
(** ** Durable states a session can start on *)

Module ResumeExamples.

Import Models World TaskExamples.
Local Open Scope Z_scope.

(** The durable state of the coffee task saved after its last step was
    counted and before the task was deactivated: active, with the index at
    the end of the plan *)
Definition coffee_ended_at (t : float) : GlobalTaskState :=
  {| g_is_active := true; g_plan := coffee_plan; g_current_step_index := 3;
     task_name := "make coffee"; last_updated := t |}.

End ResumeExamples.

(** ** The server across sessions *)

Module RunNotions.

Import Models World Processor Websocket.
Local Open Scope Z_scope.

(** The step indices of the session's task and of the durable task are not
    negative *)
Definition index_ok (w : World) : Prop :=
  0 ≤ current_step_index (task_state (session w)) ∧
  0 ≤ g_current_step_index (global_task_state w).

(** A computation that leaves the indices non-negative, whatever the outcome *)
Definition preserves {A : Type} (m : M A) : Prop :=
  ∀ w, index_ok w → index_ok (m w).2.

(** Sessions that follow one another on the server: each connects on the
    world the one before it left, durable task state and memory included *)
Fixpoint sessions (w : World) (runs : list (list Label)) : option World :=
  match runs with
  | [] => Some w
  | ls :: rest =>
      match connected w with
      | Some s0 =>
          match run s0 ls with
          | Some s => sessions (world s) rest
          | None => None
          end
      | None => None
      end
  end.

(** A first session on the quiet server: one frame, whose image cannot be
    decoded, then the client leaves *)
Definition first_visit : list Label :=
  [Submit "frame-1"; Wake; Handled LoopExamples.undecodable; Cancel].

(** The world it leaves, the session of the next client, and that session
    when its first frame has been claimed *)
Definition after_first_visit : World :=
  default LoopExamples.quiet_world (sessions LoopExamples.quiet_world [first_visit]).

Definition second_visit : Session :=
  default LoopExamples.fresh_session (connected after_first_visit).

Definition second_visit_claimed : Session :=
  default second_visit (run second_visit [Submit "frame-2"; Wake]).

End RunNotions.

(** * Properties *)

(** ** The object stability tracker *)

Section TrackerFacts.

Import Tracking TrackingExamples Clocks Notions.
Local Open Scope Z_scope.

Lemma update_distance self d dir c clk :
  distance (update self d dir c clk).1 = (distance self * 0.7 + d * 0.3)%float.
Proof. reflexivity. Qed.

Lemma update_frames self d dir c clk :
  frames_detected (update self d dir c clk).1 = frames_detected self + 1.
Proof. reflexivity. Qed.

(** A detection that passes the guard is written at its lower-cased name:
    an update of the entry found there, or a fresh entry. *)
Lemma ingest_accepts thr now objs clk det n :
  det_name det = Some n →
  skipped thr det = false →
  (ingest thr now (objs, clk) det).1 =
    <[PyStr.lower n :=
        match objs !! PyStr.lower n with
        | Some o =>
            (update o (default 0.0%float (det_distance det))
                    (default "ahead" (det_direction det))
                    (detection_confidence det) clk).1
        | None => fresh_object n det now
        end]> objs.
Proof.
  intros Hn Hs. unfold ingest. rewrite Hn, Hs. simpl.
  destruct (objs !! PyStr.lower n) as [o|]; reflexivity.
Qed.

(** A detection that fails the guard leaves the tracker as it is. *)
Lemma ingest_skips thr now acc det :
  skipped thr det = true → ingest thr now acc det = acc.
Proof.
  intros Hs. unfold ingest. destruct (det_name det); [now rewrite Hs | reflexivity].
Qed.

(** The loop never removes a key. *)
Lemma ingest_keeps_keys thr now acc det k :
  is_Some (acc.1 !! k) → is_Some ((ingest thr now acc det).1 !! k).
Proof.
  intros Hk. unfold ingest.
  destruct (det_name det) as [n|]; [|exact Hk].
  destruct (skipped thr det); [exact Hk|].
  destruct (acc.1 !! PyStr.lower n) as [o|] eqn:Ho; simpl.
  - destruct (decide (PyStr.lower n = k)) as [->|Hne].
    + rewrite lookup_insert_eq. eauto.
    + rewrite lookup_insert_ne by exact Hne. exact Hk.
  - destruct (decide (PyStr.lower n = k)) as [->|Hne].
    + rewrite lookup_insert_eq. eauto.
    + rewrite lookup_insert_ne by exact Hne. exact Hk.
Qed.

Lemma fold_ingest_keeps_keys thr now dets acc k :
  is_Some (acc.1 !! k) →
  is_Some ((fold_left (ingest thr now) dets acc).1 !! k).
Proof.
  revert acc. induction dets as [|d dets IH]; intros acc Hk; simpl.
  - exact Hk.
  - apply IH. apply ingest_keeps_keys. exact Hk.
Qed.

Lemma process_detections_objects self dets clk :
  tracked_objects (process_detections self dets clk).1.2 =
    (fold_left (ingest (confidence_threshold self) (readings clk (ticks clk))) dets
       (prune (readings clk (ticks clk)) (timeout self) (tracked_objects self),
        {| readings := readings clk; ticks := S (ticks clk) |})).1.
Proof.
  unfold process_detections, time_time.
  destruct (fold_left _ _ _) as [objs clk']. reflexivity.
Qed.

Lemma prune_counted_twice now tmo objs :
  counted_twice objs → counted_twice (prune now tmo objs).
Proof.
  intros H k o Hk. apply map_lookup_filter_Some in Hk as [Hk _]. eauto.
Qed.

Lemma ingest_counted_twice thr now acc det :
  counted_twice acc.1 → counted_twice (ingest thr now acc det).1.
Proof.
  intros H. unfold ingest.
  destruct (det_name det) as [n|]; [|exact H].
  destruct (skipped thr det); [exact H|].
  destruct (acc.1 !! PyStr.lower n) as [o|] eqn:Ho; simpl; intros k o' Hk Hst.
  - destruct (decide (k = PyStr.lower n)) as [->|Hne].
    + rewrite lookup_insert_eq in Hk. injection Hk as <-. simpl in *.
      destruct (2 <=? frames_detected o + 1) eqn:Hle.
      * apply Z.leb_le in Hle. exact Hle.
      * specialize (H _ _ Ho Hst). lia.
    + rewrite lookup_insert_ne in Hk by congruence. eauto.
  - destruct (decide (k = PyStr.lower n)) as [->|Hne].
    + rewrite lookup_insert_eq in Hk. injection Hk as <-. discriminate Hst.
    + rewrite lookup_insert_ne in Hk by congruence. eauto.
Qed.

Lemma fold_ingest_counted_twice thr now dets acc :
  counted_twice acc.1 → counted_twice (fold_left (ingest thr now) dets acc).1.
Proof.
  revert acc. induction dets as [|d dets IH]; intros acc H; simpl; [exact H|].
  apply IH, ingest_counted_twice, H.
Qed.

Lemma process_detections_counted_twice self dets clk :
  counted_twice (tracked_objects self) →
  counted_twice (tracked_objects (process_detections self dets clk).1.2).
Proof.
  intros H. rewrite process_detections_objects.
  apply fold_ingest_counted_twice, prune_counted_twice, H.
Qed.

(** An entry that is gone after the pruning step and comes back through a
    single detection is tracked again, with a count of 1 and not stable. *)
Lemma reappearing_once_not_stable self clk det n :
  prune (readings clk (ticks clk)) (timeout self) (tracked_objects self)
    !! PyStr.lower n = None →
  det_name det = Some n →
  skipped (confidence_threshold self) det = false →
  ∃ o, tracked_objects (process_detections self [det] clk).1.2 !! PyStr.lower n = Some o ∧
       frames_detected o = 1 ∧ is_stable o = false.
Proof.
  intros Hgone Hn Hs. rewrite process_detections_objects. simpl.
  rewrite (ingest_accepts _ _ _ _ _ _ Hn Hs), Hgone, lookup_insert_eq.
  eexists. split; [reflexivity|]. split; reflexivity.
Qed.

(** The pruning step drops exactly the entries with
    [now - last_seen < timeout] false. *)
Lemma prune_lookup now tmo objs k :
  prune now tmo objs !! k =
    match objs !! k with
    | Some o => if PrimFloat.ltb (now - last_seen o)%float tmo then Some o else None
    | None => None
    end.
Proof.
  unfold prune. destruct (objs !! k) as [o|] eqn:Hk.
  - destruct (PrimFloat.ltb (now - last_seen o)%float tmo) eqn:Hlt.
    + apply map_lookup_filter_Some. split; [exact Hk | exact Hlt].
    + apply map_lookup_filter_None. right. intros o' Hk'. simpl.
      rewrite Hk in Hk'. injection Hk' as <-. rewrite Hlt. discriminate.
  - apply map_lookup_filter_None. left. exact Hk.
Qed.

(** C5: every update of a tracked entry sets the smoothed distance to
    [old * 0.7 + new * 0.3]; an entry created by a detection at raw distance
    2.0 and updated by one at raw distance 1.0 holds the smoothed distance
    [2.0 * 0.7 + 1.0 * 0.3 = 1.7] after the second detection. *)
Theorem C5_smoothing_is_ema :
  (∀ self new_dist new_dir new_conf clk,
      distance (update self new_dist new_dir new_conf clk).1 =
        (distance self * 0.7 + new_dist * 0.3)%float) ∧
  (∀ thr now objs clk det n o,
      det_name det = Some n → skipped thr det = false →
      objs !! PyStr.lower n = Some o →
      distance <$> ((ingest thr now (objs, clk) det).1 !! PyStr.lower n) =
        Some (distance o * 0.7 + default 0.0%float (det_distance det) * 0.3)%float) ∧
  (let r1 := process_detections new_tracker [chair_at 2.0] tenth_clock in
   let r2 := process_detections r1.1.2 [chair_at 1.0] r1.2 in
   distance <$> (tracked_objects r1.1.2 !! "chair") = Some 2.0%float ∧
   distance <$> (tracked_objects r2.1.2 !! "chair") = Some 1.7%float ∧
   map distance r2.1.1 = [1.7%float] ∧
   (2.0 * 0.7 + 1.0 * 0.3 = 1.7)%float).
Proof.
  split; [|split].
  - intros. reflexivity.
  - intros thr now objs clk det n o Hn Hs Ho.
    rewrite (ingest_accepts _ _ _ _ _ _ Hn Hs), Ho, lookup_insert_eq.
    reflexivity.
  - vm_compute. repeat split; reflexivity.
Qed.

(** C10: a detection with a non-empty name and no [confidence_score] key
    gets the confidence 100, which is not below the default threshold 75;
    [process_detections] therefore does not skip it but writes the entry
    at its lower-cased name (an update of the entry found there, or a fresh
    entry whose confidence is 100), and the entry is tracked after the call. *)
Theorem C10_missing_confidence_defaults_to_100
    (self : VisualTracker) (clk : Clock) (pre post : list Detection)
    (det : Detection) (n : string) :
  confidence_threshold self = 75%float →
  det_name det = Some n →
  n ≠ "" →
  det_confidence_score det = None →
  detection_confidence det = 100%float ∧
  PrimFloat.ltb (detection_confidence det) (confidence_threshold self) = false ∧
  skipped (confidence_threshold self) det = false ∧
  (∀ now objs c,
      (ingest (confidence_threshold self) now (objs, c) det).1 !! PyStr.lower n =
        Some match objs !! PyStr.lower n with
             | Some o =>
                 (update o (default 0.0%float (det_distance det))
                         (default "ahead" (det_direction det)) 100%float c).1
             | None => fresh_object n det now
             end) ∧
  (∀ now, confidence (fresh_object n det now) = 100%float) ∧
  is_Some (tracked_objects (process_detections self (pre ++ det :: post) clk).1.2
             !! PyStr.lower n).
Proof.
  intros Hthr Hn Hne Hc.
  assert (Hconf : detection_confidence det = 100%float)
    by (unfold detection_confidence; rewrite Hc; reflexivity).
  assert (Hskip : skipped (confidence_threshold self) det = false).
  { unfold skipped. rewrite Hn, Hconf, Hthr.
    destruct (String.eqb_spec n ""); [contradiction | reflexivity]. }
  split; [exact Hconf|]. split; [rewrite Hconf, Hthr; reflexivity|].
  split; [exact Hskip|]. split; [|split].
  - intros now objs c.
    rewrite (ingest_accepts _ _ _ _ _ _ Hn Hskip), lookup_insert_eq, Hconf.
    reflexivity.
  - intros now. unfold fresh_object. simpl. exact Hconf.
  - rewrite process_detections_objects, fold_left_app. simpl.
    apply fold_ingest_keeps_keys.
    match goal with |- context [ingest ?t ?nw ?a det] =>
      destruct a as [objs c] end.
    rewrite (ingest_accepts _ _ _ _ _ _ Hn Hskip), lookup_insert_eq. eauto.
Qed.

Lemma C10_witness :
  detection_confidence (bare "Chair") = 100%float ∧
  PrimFloat.ltb (detection_confidence (bare "Chair")) (confidence_threshold new_tracker) = false ∧
  skipped (confidence_threshold new_tracker) (bare "Chair") = false ∧
  (∀ now objs c,
      (ingest (confidence_threshold new_tracker) now (objs, c) (bare "Chair")).1
        !! PyStr.lower "Chair" =
        Some match objs !! PyStr.lower "Chair" with
             | Some o =>
                 (update o (default 0.0%float (det_distance (bare "Chair")))
                         (default "ahead" (det_direction (bare "Chair"))) 100%float c).1
             | None => fresh_object "Chair" (bare "Chair") now
             end) ∧
  (∀ now, confidence (fresh_object "Chair" (bare "Chair") now) = 100%float) ∧
  is_Some (tracked_objects
             (process_detections new_tracker ([] ++ bare "Chair" :: []) tenth_clock).1.2
             !! PyStr.lower "Chair").
Proof.
  apply (C10_missing_confidence_defaults_to_100 new_tracker tenth_clock [] []
           (bare "Chair") "Chair"); [reflexivity | reflexivity | discriminate | reflexivity].
Defined.

(** C4, evaluated where the code departs from it: one call of
    [process_detections] on a new tracker with two detections named
    ["chair"] returns the chair as stable, with a detection count of 2,
    although it was seen in a single ingest call. *)
Theorem C4_stable_after_one_call_with_two_detections :
  let r := process_detections new_tracker [chair_at 2.0; chair_at 2.0] tenth_clock in
  map name r.1.1 = ["chair"] ∧
  map frames_detected r.1.1 = [2] ∧
  ticks tenth_clock = 0%nat.
Proof. vm_compute. repeat split; reflexivity. Qed.

End TrackerFacts.

(** ** The speech gate *)

Section SpeechFacts.

Import Speech SpeechExamples.

Lemma should_speak_critical self subject direction category distance text clk :
  should_speak self "critical" subject direction category distance text clk =
    (Ok (true, "critical_alert"), (time_time clk).2).
Proof. reflexivity. Qed.

(** A priority other than critical, with no speech in progress and the
    semantic key of the last speech, is decided by [_check_same_context]
    at the first clock reading. *)
Lemma should_speak_same_context self priority subject direction category distance text clk :
  String.eqb priority "critical" = false →
  PrimFloat.ltb (readings clk (S (ticks clk))) (current_speech_end_time self) = false →
  Utils.extract_semantic_key subject direction category = last_semantic_key self →
  (should_speak self priority subject direction category distance text clk).1 =
    _check_same_context self priority (readings clk (ticks clk)) distance.
Proof.
  intros Hp Hquiet Hkey.
  unfold should_speak, is_speaking, time_time. rewrite Hp. cbn [ticks readings].
  rewrite Hquiet, Hkey, String.eqb_refl. reflexivity.
Qed.

(** The same-context decision for medium priority, for any elapsed time:
    under 4 s the message is suppressed, otherwise the interval has passed. *)
Lemma medium_same_context self now distance :
  PyFloat.gtb (last_distance self - distance) 0.5 = false →
  _check_same_context self "medium" now distance =
    if PrimFloat.ltb (now - last_speech_time self) 4.0 then
      match PyFloat.to_int (4.0 - (now - last_speech_time self)) with
      | Ok remaining =>
          Ok (false, "same_context_cooldown (" ++ PyStr.of_Z remaining ++ "s left)")
      | Raise e => Raise e
      end
    else Ok (true, "interval_passed").
Proof.
  intros Hd. unfold _check_same_context. rewrite Hd. reflexivity.
Qed.

(** C6: whatever the state of the gate, [should_speak] with priority
    critical answers [(True, "critical_alert")]; in particular it does so
    in the state left by [record_speech] called with the same arguments. *)
Theorem C6_critical_always_spoken :
  (∀ self subject direction category distance text clk,
      (should_speak self "critical" subject direction category distance text clk).1 =
        Ok (true, "critical_alert")) ∧
  (∀ self subject direction category distance text clk,
      let after := record_speech self text "critical" subject direction category distance clk in
      (should_speak after.1 "critical" subject direction category distance text after.2).1 =
        Ok (true, "critical_alert")).
Proof. split; intros; reflexivity. Qed.

(** C7: with no speech in progress (the test [now < speak_end_time] fails),
    a candidate whose semantic key is the last spoken one and whose distance
    has not closed by more than 0.5 m (the test [change > 0.5] fails), asked
    with priority medium, is suppressed with reason
    [same_context_cooldown (2s left)] when 2 s have passed since the last
    speech, and spoken with reason [interval_passed] when 5 s have passed. *)
Theorem C7_medium_repeat_interval
    (self : SpeechManager) (subject direction category : string) (distance : float)
    (text : string) (clk : Clock) :
  PrimFloat.ltb (readings clk (S (ticks clk))) (current_speech_end_time self) = false →
  Utils.extract_semantic_key subject direction category = last_semantic_key self →
  PyFloat.gtb (last_distance self - distance) 0.5 = false →
  ((readings clk (ticks clk) - last_speech_time self)%float = 2.0%float →
   (should_speak self "medium" subject direction category distance text clk).1 =
     Ok (false, "same_context_cooldown (2s left)")) ∧
  ((readings clk (ticks clk) - last_speech_time self)%float = 5.0%float →
   (should_speak self "medium" subject direction category distance text clk).1 =
     Ok (true, "interval_passed")).
Proof.
  intros Hquiet Hkey Hd.
  rewrite (should_speak_same_context self "medium" _ _ _ _ _ _ eq_refl Hquiet Hkey).
  rewrite (medium_same_context _ _ _ Hd).
  split; intros ->; reflexivity.
Qed.

Lemma C7_witness :
  (should_speak (spoke_chair_at 98) "medium" "Wooden chair" "ahead" "furniture" 1.8
     "Chair ahead" (Clocks.stepping_clock 0)).1 =
    Ok (false, "same_context_cooldown (2s left)") ∧
  (should_speak (spoke_chair_at 95) "medium" "Wooden chair" "ahead" "furniture" 1.8
     "Chair ahead" (Clocks.stepping_clock 0)).1 =
    Ok (true, "interval_passed").
Proof.
  split.
  - apply (proj1 (C7_medium_repeat_interval (spoke_chair_at 98) "Wooden chair" "ahead"
                    "furniture" 1.8 "Chair ahead" (Clocks.stepping_clock 0)
                    eq_refl eq_refl eq_refl)).
    reflexivity.
  - apply (proj2 (C7_medium_repeat_interval (spoke_chair_at 95) "Wooden chair" "ahead"
                    "furniture" 1.8 "Chair ahead" (Clocks.stepping_clock 0)
                    eq_refl eq_refl eq_refl)).
    reflexivity.
Defined.

End SpeechFacts.

(** ** Session start and the durable task *)

Section ResumeFacts.

Import Models World Websocket TaskExamples ResumeExamples Notions.
Local Open Scope Z_scope.

Lemma is_valid_spec g clk :
  (is_valid g clk).1 = fresh_and_active g (readings clk (ticks clk)).
Proof.
  unfold is_valid, fresh_and_active, time_time.
  destruct (g_is_active g); reflexivity.
Qed.

(** A session that starts on a valid durable state *)
Lemma on_connect_adopts w :
  fresh_and_active (global_task_state w) (readings (clock w) (ticks (clock w))) = true →
  let ts := to_task_state (global_task_state w) in
  let w' := (on_connect w).2 in
  task_state (session w') = ts ∧
  mode (session w') = "task" ∧
  ∃ rest, sent w' = (sent w ++ TaskUpdate (plan ts) (current_step_index ts) true None :: rest)%list ∧
          ∀ st, current_step ts = Ok (Some st) →
                rest = [Speak ("Resuming. Step: " ++ instruction st)].
Proof.
  intros Hv. unfold fresh_and_active in Hv. apply andb_true_iff in Hv as [Ha Hf].
  unfold on_connect, bind, with_clock, bind, get, set_session, is_valid, time_time.
  cbn -[current_step to_task_state]. rewrite Ha. cbn -[current_step to_task_state].
  rewrite Hf. cbn -[current_step to_task_state].
  unfold lift.
  destruct (current_step (to_task_state (global_task_state w))) as [[st|]|e] eqn:Hcs;
    cbn -[to_task_state].
  - repeat split. eexists. split; [rewrite <- app_assoc; reflexivity|].
    intros st' [= <-]. reflexivity.
  - repeat split. eexists. split; [reflexivity|]. intros st' [=].
  - repeat split. eexists. split; [reflexivity|]. intros st' [=].
Qed.

(** A session that starts on a durable state that is not valid *)
Lemma on_connect_ignores w :
  fresh_and_active (global_task_state w) (readings (clock w) (ticks (clock w))) = false →
  let w' := (on_connect w).2 in
  session w' = new_session_state ∧ sent w' = sent w.
Proof.
  intros Hv. unfold fresh_and_active in Hv.
  unfold on_connect, bind, with_clock, bind, get, set_session, is_valid, time_time.
  cbn. destruct (g_is_active (global_task_state w)); cbn in *.
  - rewrite Hv. cbn. split; reflexivity.
  - split; reflexivity.
Qed.

(** What a session that adopts the task state [ts] announces: the
    instruction of the current step, when there is one *)
Lemma current_step_cases ts :
  (Z.of_nat (List.length (plan ts)) ≤ current_step_index ts → current_step ts = Ok None) ∧
  (∀ st, is_active ts = true → 0 ≤ current_step_index ts →
         plan ts !! Z.to_nat (current_step_index ts) = Some st →
         current_step ts = Ok (Some st)).
Proof.
  split.
  - intros Hend. unfold current_step.
    apply Z.ltb_ge in Hend. rewrite Hend, andb_false_r. reflexivity.
  - intros st Hact Hidx Hst. unfold current_step.
    pose proof (lookup_lt_Some _ _ _ Hst) as Hlt.
    rewrite Hact.
    destruct (Nat.eqb_spec (List.length (plan ts)) 0) as [Hz|_]; [lia|].
    destruct (Z.ltb_spec (current_step_index ts) (Z.of_nat (List.length (plan ts))));
      [|lia].
    cbn [andb negb].
    unfold PyList.getitem.
    destruct (Z.ltb_spec (current_step_index ts) 0); [lia|].
    destruct (Z.ltb_spec (current_step_index ts) 0); [lia|].
    rewrite Hst. reflexivity.
Qed.

(** C8 as it is stated does not hold. An active durable state, updated
    10 s ago, whose index is at the end of its plan is adopted: the mode is
    set to task and the restored plan is sent, but no resumption announcement
    is emitted, since the task has no current step. *)
Lemma C8_counterexample :
  let g := coffee_ended_at 1000 in
  let w' := (on_connect (world_at g 1010)).2 in
  (is_valid g (clock (world_at g 1010))).1 = true ∧
  task_state (session w') = to_task_state g ∧
  mode (session w') = "task" ∧
  sent w' = [TaskUpdate coffee_plan 3 true None] ∧
  (∀ text, ¬ In (Speak text) (sent w')).
Proof.
  vm_compute. repeat split; try reflexivity.
  intros text [H|[]]. discriminate H.
Qed.

(** C8, as the code has it: a new session adopts the durable task state
    exactly when it is active and [now - last_updated < 300]: it then takes
    over the task state, sets the mode to task and sends the restored plan;
    the announcement ["Resuming. Step: "] with the instruction of the current
    step follows exactly when the adopted task has a current step, which it
    has when its index lies within its plan and has not when the index is at
    or past the end of the plan; otherwise the session stays a new one in
    navigation mode and nothing is sent. A state updated 301 s ago is not
    adopted, an active one updated 10 s ago is. *)
Theorem C8_resume_durable_task :
  (∀ g clk, (is_valid g clk).1 =
              (g_is_active g && PrimFloat.ltb (readings clk (ticks clk) - last_updated g) 300)%bool) ∧
  (∀ w, let now := readings (clock w) (ticks (clock w)) in
        let g := global_task_state w in
        let w' := (on_connect w).2 in
        (mode (session w') = "task" ↔ fresh_and_active g now = true) ∧
        (fresh_and_active g now = true →
           session w' = with_mode "task" (with_task_state (to_task_state g) new_session_state) ∧
           sent w' = (sent w ++ TaskUpdate (g_plan g) (g_current_step_index g) true None
                             :: match current_step (to_task_state g) with
                                | Ok (Some st) => [Speak ("Resuming. Step: " ++ instruction st)]
                                | _ => []
                                end)%list) ∧
        (fresh_and_active g now = false →
           session w' = new_session_state ∧ sent w' = sent w)) ∧
  (∀ g, (Z.of_nat (List.length (g_plan g)) ≤ g_current_step_index g →
         current_step (to_task_state g) = Ok None) ∧
        (∀ st, g_is_active g = true → 0 ≤ g_current_step_index g →
               g_plan g !! Z.to_nat (g_current_step_index g) = Some st →
               current_step (to_task_state g) = Ok (Some st))) ∧
  (let w' := (on_connect (world_at (coffee_saved_at 1000) 1301)).2 in
   (1301 - 1000 = 301)%float ∧
   session w' = new_session_state ∧ sent w' = []) ∧
  (let w' := (on_connect (world_at (coffee_saved_at 1000) 1010)).2 in
   (1010 - 1000 = 10)%float ∧
   task_state (session w') = to_task_state (coffee_saved_at 1000) ∧
   mode (session w') = "task" ∧
   sent w' = [TaskUpdate coffee_plan 1 true None; Speak "Resuming. Step: Pour the water"]).
Proof.
  split; [|split; [|split; [|split]]].
  - intros g clk. apply is_valid_spec.
  - intros w now g w'. split; [|split].
    + destruct (fresh_and_active g now) eqn:Hv.
      * split; [reflexivity|]. intros _.
        apply (on_connect_adopts w Hv).
      * split; [|discriminate]. intros Hm.
        destruct (on_connect_ignores w Hv) as [Hs _].
        subst w'. rewrite Hs in Hm. discriminate Hm.
    + intros Hv. subst w' g now.
      unfold fresh_and_active in Hv. apply andb_true_iff in Hv as [Ha Hf].
      unfold on_connect, bind, with_clock, bind, get, set_session, is_valid, time_time.
      cbn -[current_step to_task_state]. rewrite Ha. cbn -[current_step to_task_state].
      rewrite Hf. cbn -[current_step to_task_state].
      unfold lift.
      destruct (current_step (to_task_state (global_task_state w))) as [[st|]|e];
        cbn -[to_task_state]; rewrite <- ?app_assoc; split; reflexivity.
    + intros Hv. apply (on_connect_ignores w Hv).
  - intros g. apply (current_step_cases (to_task_state g)).
  - vm_compute. repeat split; reflexivity.
  - vm_compute. repeat split; reflexivity.
Qed.

End ResumeFacts.

(** ** The persistent memory store *)

Section MemoryFacts.

Import Memory MemoryExamples Clocks.

Lemma last_n_length {A : Type} (n : nat) (l : list A) :
  List.length (PyList.last_n n l) = Nat.min n (List.length l).
Proof. unfold PyList.last_n. rewrite length_drop. lia. Qed.

Lemma last_n_full {A : Type} (l : list A) (x y : A) (n : nat) :
  List.length (x :: l) = n →
  PyList.last_n n ((x :: l) ++ [y])%list = (l ++ [y])%list.
Proof.
  intros Hn. unfold PyList.last_n. rewrite length_app, Hn. simpl List.length.
  replace (n + 1 - n)%nat with 1%nat by lia. reflexivity.
Qed.

(** What a call that is not refused does: nothing when the last entry is
    of the same object and less than 10 s old at the second clock reading;
    otherwise it appends, and keeps the last 1000 entries. *)
Lemma log_object_cases mem name loc scn clk :
  refused_name name = false →
  let t := readings clk (ticks clk) in
  let t' := readings clk (S (ticks clk)) in
  let entry := {| object := name; location := loc; scene := scn; timestamp := t |} in
  let appended := (entries mem ++ [entry])%list in
  entries (log_object mem name loc scn clk).1 =
    match last (entries mem) with
    | Some l =>
        if (String.eqb (object l) name && PrimFloat.ltb (t' - timestamp l) 10)%bool
        then entries mem
        else if (1000 <? List.length appended)%nat then PyList.last_n 1000 appended
             else appended
    | None =>
        if (1000 <? List.length appended)%nat then PyList.last_n 1000 appended
        else appended
    end.
Proof.
  intros Hr. unfold log_object, entries, time_time. rewrite Hr. cbn [ticks readings].
  destruct (last (default [] (history mem))) as [l|]; [|reflexivity].
  destruct (String.eqb (object l) name); [|reflexivity].
  cbn [andb ticks readings].
  destruct (PrimFloat.ltb _ 10); reflexivity.
Qed.

Lemma log_object_refused mem name loc scn clk :
  refused_name name = true → log_object mem name loc scn clk = (mem, clk).
Proof. intros Hr. unfold log_object. rewrite Hr. reflexivity. Qed.

(** The cap is kept by every call. *)
Lemma log_object_cap mem name loc scn clk :
  (List.length (entries mem) ≤ 1000)%nat →
  (List.length (entries (log_object mem name loc scn clk).1) ≤ 1000)%nat.
Proof.
  intros Hlen. destruct (refused_name name) eqn:Hr.
  - rewrite (log_object_refused _ _ _ _ _ Hr). exact Hlen.
  - rewrite (log_object_cases _ _ _ _ _ Hr).
    assert (Happ : ∀ l : list HistoryEntry,
               (List.length (if (1000 <? List.length l)%nat then PyList.last_n 1000 l else l)
                ≤ 1000)%nat).
    { intros l. destruct (1000 <? List.length l)%nat eqn:Hc.
      - rewrite last_n_length. lia.
      - apply Nat.ltb_ge in Hc. exact Hc. }
    destruct (last (entries mem)) as [l|]; [|apply Happ].
    destruct (_ && _)%bool; [exact Hlen | apply Happ].
Qed.

Lemma log_all_cap calls mem clk :
  (List.length (entries mem) ≤ 1000)%nat →
  (List.length (entries (log_all calls mem clk).1) ≤ 1000)%nat.
Proof.
  unfold log_all. revert mem clk.
  induction calls as [|c calls IH]; intros mem clk Hlen; simpl; [exact Hlen|].
  unfold log_call at 2. simpl.
  destruct (log_object mem (call_object c) (call_location c) (call_scene c) clk)
    as [mem' clk'] eqn:Hstep.
  apply IH. change mem' with (mem', clk').1. rewrite <- Hstep.
  apply log_object_cap, Hlen.
Qed.

(** C9 as it is stated does not hold. Three sightings one second apart:
    chair, table, chair. The third call
    finds a chair entry that is 2 s old in the history, and appends all the
    same, because the last entry is the table. *)
Lemma C9_counterexample :
  let r1 := log_object empty_memory "chair" None "" (stepping_clock 1) in
  let r2 := log_object r1.1 "table" None "" r1.2 in
  let r3 := log_object r2.1 "chair" None "" r2.2 in
  let now := readings r2.2 (ticks r2.2) in
  (∃ e, In e (entries r2.1) ∧ object e = "chair" ∧
        PrimFloat.ltb (now - timestamp e) 10 = true) ∧
  map object (entries r2.1) = ["chair"; "table"] ∧
  map object (entries r3.1) = ["chair"; "table"; "chair"].
Proof.
  split; [|split; vm_compute; reflexivity].
  exists {| object := "chair"; location := None; scene := ""; timestamp := 100 |}.
  vm_compute. repeat split; try reflexivity. left. reflexivity.
Qed.

(** C9, as the code has it: on a store whose history starts with at most
    1000 entries, the history holds at most 1000 entries after every call
    of a sequence of [log_object] calls; a call whose object name is that
    of the last history entry, made less than 10 s after that entry was
    logged, appends nothing; and a call that appends to a history of 1000
    entries drops the oldest one. *)
Theorem C9_dedupe_against_last_entry_and_cap
    (calls : list LogCall) (mem : PersistentMemory) (clk : Clock) :
  (List.length (entries mem) ≤ 1000)%nat →
  (∀ n, (List.length (entries (log_all (take n calls) mem clk).1) ≤ 1000)%nat) ∧
  (∀ m name loc scn c l,
      last (entries m) = Some l →
      object l = name →
      PrimFloat.ltb (readings c (S (ticks c)) - timestamp l) 10 = true →
      entries (log_object m name loc scn c).1 = entries m) ∧
  (∀ m name loc scn c oldest rest,
      entries m = oldest :: rest →
      List.length (entries m) = 1000%nat →
      refused_name name = false →
      (∀ l, last (entries m) = Some l →
            (String.eqb (object l) name
             && PrimFloat.ltb (readings c (S (ticks c)) - timestamp l) 10)%bool = false) →
      entries (log_object m name loc scn c).1 =
        (rest ++ [{| object := name; location := loc; scene := scn;
                     timestamp := readings c (ticks c) |}])%list).
Proof.
  intros Hlen. split; [|split].
  - intros n. apply log_all_cap, Hlen.
  - intros m name loc scn c l Hlast Hobj Hnew.
    destruct (refused_name name) eqn:Hr.
    + rewrite (log_object_refused _ _ _ _ _ Hr). reflexivity.
    + rewrite (log_object_cases _ _ _ _ _ Hr), Hlast, Hobj, String.eqb_refl, Hnew.
      reflexivity.
  - intros m name loc scn c oldest rest Hm Hfull Hr Hnodup.
    rewrite (log_object_cases _ _ _ _ _ Hr).
    assert (Hgrow : (1000 <? List.length (entries m ++
               [{| object := name; location := loc; scene := scn;
                   timestamp := readings c (ticks c) |}])%list)%nat = true).
    { apply Nat.ltb_lt. rewrite length_app, Hfull. simpl. lia. }
    rewrite Hgrow.
    assert (Hdrop : PyList.last_n 1000 (entries m ++
               [{| object := name; location := loc; scene := scn;
                   timestamp := readings c (ticks c) |}])%list =
             (rest ++ [{| object := name; location := loc; scene := scn;
                          timestamp := readings c (ticks c) |}])%list).
    { rewrite Hm. apply last_n_full. rewrite <- Hm. exact Hfull. }
    destruct (last (entries m)) as [l|] eqn:Hlast.
    + rewrite (Hnodup l eq_refl). exact Hdrop.
    + exact Hdrop.
Qed.

Lemma C9_witness :
  (∀ n, (List.length (entries (log_all (take n [saw "chair"; saw "chair"; saw "table"])
                                 empty_memory (stepping_clock 1)).1) ≤ 1000)%nat) ∧
  (∀ m name loc scn c l,
      last (entries m) = Some l →
      object l = name →
      PrimFloat.ltb (readings c (S (ticks c)) - timestamp l) 10 = true →
      entries (log_object m name loc scn c).1 = entries m) ∧
  (∀ m name loc scn c oldest rest,
      entries m = oldest :: rest →
      List.length (entries m) = 1000%nat →
      refused_name name = false →
      (∀ l, last (entries m) = Some l →
            (String.eqb (object l) name
             && PrimFloat.ltb (readings c (S (ticks c)) - timestamp l) 10)%bool = false) →
      entries (log_object m name loc scn c).1 =
        (rest ++ [{| object := name; location := loc; scene := scn;
                     timestamp := readings c (ticks c) |}])%list).
Proof.
  apply (C9_dedupe_against_last_entry_and_cap [saw "chair"; saw "chair"; saw "table"]
           empty_memory (stepping_clock 1)).
  simpl. lia.
Defined.

(** The same sightings with the repeat directly after the first one: the
    second chair is dropped. *)
Example repeated_sighting_is_dropped :
  map object (entries (log_all [saw "chair"; saw "chair"; saw "table"]
                         empty_memory (stepping_clock 1)).1) = ["chair"; "table"].
Proof. vm_compute. reflexivity. Qed.

(** 1001 sightings, each more than 10 s after the one before: the history
    holds the last 1000 of them; the first, logged at 100 s, is gone. *)
Example history_keeps_last_thousand :
  let h := entries (log_all (repeat (saw "chair") 1001) empty_memory (stepping_clock 11)).1 in
  List.length h = 1000%nat ∧
  timestamp <$> head h = Some 111%float ∧
  timestamp <$> last h = Some (100 + 1999 * 11)%float.
Proof. vm_compute. repeat split; reflexivity. Qed.

End MemoryFacts.

(** ** Voice control of a task *)

Section InquiryFacts.

Import Models World Processor TaskExamples Notions.
Local Open Scope Z_scope.

Lemma getitem_lookup {A : Type} (l : list A) (i : Z) (x : A) :
  0 ≤ i → l !! Z.to_nat i = Some x → PyList.getitem l i = Ok x.
Proof.
  intros Hi Hx. unfold PyList.getitem.
  destruct (i <? 0) eqn:Hneg; [apply Z.ltb_lt in Hneg; lia|].
  rewrite Hneg, Hx. reflexivity.
Qed.

Lemma setitem_lookup {A : Type} (l : list A) (i : Z) (x y : A) :
  0 ≤ i → l !! Z.to_nat i = Some y →
  PyList.setitem l i x = Ok (<[Z.to_nat i := x]> l).
Proof.
  intros Hi Hy. unfold PyList.setitem.
  destruct (i <? 0) eqn:Hneg; [apply Z.ltb_lt in Hneg; lia|].
  rewrite Hneg.
  apply lookup_lt_Some in Hy.
  destruct (i <? Z.of_nat (List.length l)) eqn:Hlt; [reflexivity|].
  apply Z.ltb_ge in Hlt. lia.
Qed.

(** One call of [_handle_task_control] with [task_skip] or [task_done] on
    an active task with a step after the current one: the current step is
    marked, the index advances by one, the next instruction is returned. *)
Lemma handle_task_control_skip (w : World) (intent : string) (step next : TaskStep) :
  let ts := task_state (session w) in
  intent = "task_skip" ∨ intent = "task_done" →
  is_active ts = true →
  0 ≤ current_step_index ts →
  plan ts !! Z.to_nat (current_step_index ts) = Some step →
  plan ts !! Z.to_nat (current_step_index ts + 1) = Some next →
  ∃ w',
    _handle_task_control intent w = (Ok ("Done. Next: " ++ instruction next), w') ∧
    task_state (session w') = skipped_once ts step ∧
    mode (session w') = mode (session w) ∧
    current_goal (session w') = current_goal (session w) ∧
    sent w' = (sent w ++ [TaskUpdate (plan (skipped_once ts step))
                                    (current_step_index ts + 1) false None])%list.
Proof.
  intros ts Hintent Hact Hidx Hstep Hnext. subst ts.
  assert (Hlen : List.length (plan (task_state (session w))) ≠ 0%nat).
  { apply lookup_lt_Some in Hstep. lia. }
  assert (Hnext' : <[Z.to_nat (current_step_index (task_state (session w))) :=
                      set_completed true step]> (plan (task_state (session w)))
                   !! Z.to_nat (current_step_index (task_state (session w)) + 1) = Some next).
  { rewrite list_lookup_insert_ne by lia. exact Hnext. }
  assert (Hmore : (Z.of_nat (List.length
                     (<[Z.to_nat (current_step_index (task_state (session w))) :=
                         set_completed true step]> (plan (task_state (session w)))))
                   <=? current_step_index (task_state (session w)) + 1) = false).
  { apply Z.leb_gt. rewrite length_insert. apply lookup_lt_Some in Hnext. lia. }
  assert (Hi : (String.eqb intent "task_skip" || String.eqb intent "task_done")%bool = true).
  { destruct Hintent as [-> | ->]; reflexivity. }
  unfold _handle_task_control, bind, get.
  rewrite Hact. apply Nat.eqb_neq in Hlen. rewrite Hlen. cbn [negb orb].
  rewrite Hi. unfold lift.
  rewrite (getitem_lookup _ _ _ Hidx Hstep), (setitem_lookup _ _ _ _ Hidx Hstep).
  unfold put_task_state, modify_session, bind, get, set_session. cbn [session].
  rewrite Hmore.
  rewrite (getitem_lookup _ _ next); [|lia|exact Hnext'].
  eexists. split; [reflexivity|].
  unfold skipped_once. cbn. rewrite Hact. repeat split; reflexivity.
Qed.

Lemma handle_intent_task_control (intent : string) (result : IntentReply) :
  intent = "task_skip" ∨ intent = "task_done" →
  _handle_intent intent result =
    bind (_handle_task_control intent) (λ speech, ret (Some speech)).
Proof. intros [-> | ->]; reflexivity. Qed.

(** An inquiry classified as [task_skip] or [task_done], on an active task
    with two steps after the current one: [process_inquiry] runs the intent
    handler twice, so two steps are marked completed, the index advances by
    two, and the instruction spoken is the one two steps ahead. *)
Lemma process_inquiry_skip_runs_twice
    (w : World) (data : InquiryData) (result : IntentReply) (intent : string)
    (step next after : TaskStep) :
  let ts := task_state (session w) in
  let i := current_step_index ts in
  truthy (inq_image data) = true →
  truthy (inq_audio data) = true →
  i_intent result = Some intent →
  intent = "task_skip" ∨ intent = "task_done" →
  is_active ts = true →
  0 ≤ i →
  plan ts !! Z.to_nat i = Some step →
  plan ts !! Z.to_nat (i + 1) = Some next →
  plan ts !! Z.to_nat (i + 2) = Some after →
  let w' := (process_inquiry data (GwReply result) w).2 in
  current_step_index (task_state (session w')) = i + 2 ∧
  plan (task_state (session w')) !! Z.to_nat i = Some (set_completed true step) ∧
  plan (task_state (session w')) !! Z.to_nat (i + 1) = Some (set_completed true next) ∧
  last (sent w') = Some (Speak ("Done. Next: " ++ instruction after)).
Proof.
  intros ts i Himg Haud Hintent Hkind Hact Hi Hstep Hnext Hafter w'.
  subst ts i.
  destruct (handle_task_control_skip w intent step next Hkind Hact Hi Hstep Hnext)
    as (w1 & E1 & Hts1 & _ & _ & _).
  assert (Hstep1 : plan (task_state (session w1))
                     !! Z.to_nat (current_step_index (task_state (session w1))) = Some next).
  { rewrite Hts1. cbn. rewrite list_lookup_insert_ne by lia. exact Hnext. }
  assert (Hnext1 : plan (task_state (session w1))
                     !! Z.to_nat (current_step_index (task_state (session w1)) + 1)
                   = Some after).
  { rewrite Hts1. cbn. rewrite list_lookup_insert_ne by lia.
    rewrite <- Z.add_assoc. exact Hafter. }
  assert (Hact1 : is_active (task_state (session w1)) = true)
    by (rewrite Hts1; exact Hact).
  assert (Hi1 : 0 ≤ current_step_index (task_state (session w1)))
    by (rewrite Hts1; cbn; lia).
  destruct (handle_task_control_skip w1 intent next after Hkind Hact1 Hi1 Hstep1 Hnext1)
    as (w2 & E2 & Hts2 & _ & _ & _).
  assert (Hrun : process_inquiry data (GwReply result) w =
                 (Ok tt, (safe_send_json (Speak ("Done. Next: " ++ instruction after))
                            (safe_send_json
                               (InquiryResult (default "" (i_thinking result))
                                  (current_goal (session w2)) (mode (session w2))
                                  (is_active (task_state (session w2)))) w2).2).2)).
  { unfold process_inquiry. rewrite Himg, Haud. cbn [negb orb].
    unfold try_except, bind at 1. unfold bind at 1. unfold get at 1.
    rewrite Hact.
    assert (Hlt : (current_step_index (task_state (session w))
                   <? Z.of_nat (List.length (plan (task_state (session w))))) = true).
    { apply Z.ltb_lt. apply lookup_lt_Some in Hstep. lia. }
    rewrite Hlt. cbn [andb].
    unfold bind at 1. unfold bind at 1. unfold lift.
    rewrite (getitem_lookup _ _ _ Hi Hstep).
    unfold ret at 1. unfold bind at 1. unfold ask, ret at 1.
    rewrite Hintent. cbn [from_option]. unfold id.
    rewrite (handle_intent_task_control intent result Hkind).
    unfold bind at 1. unfold bind at 1. rewrite E1. unfold ret at 1.
    unfold bind at 1. unfold bind at 1. rewrite E2. unfold ret at 1.
    unfold bind at 1. unfold get at 1. unfold bind at 1.
    reflexivity. }
  subst w'. rewrite Hrun. cbn [snd].
  unfold safe_send_json. cbn [snd session sent].
  rewrite Hts2, Hts1. cbn [current_step_index plan skipped_once].
  split; [lia|]. split; [|split].
  - rewrite list_lookup_insert_ne by lia.
    rewrite list_lookup_insert_eq by (apply lookup_lt_Some in Hstep; exact Hstep).
    reflexivity.
  - rewrite list_lookup_insert_eq; [reflexivity|].
    rewrite length_insert. apply lookup_lt_Some in Hnext. exact Hnext.
  - rewrite last_snoc. reflexivity.
Qed.

(** C2, evaluated where the code departs from it: the coffee task (three
    steps) at its first step, and an inquiry classified as [task_skip].
    After [process_inquiry] the index is 2, not 1; the first two steps are
    marked completed; the instruction spoken is that of the third step, not
    of the second. *)
Theorem C2_skip_advances_two_steps :
  let w' := (process_inquiry voice (heard "task_skip" "Skipping.") coffee_world).2 in
  current_step_index (task_state (session coffee_world)) = 0 ∧
  current_step_index (task_state (session w')) = 2 ∧
  map completed (plan (task_state (session w'))) = [true; true; false] ∧
  last (sent w') = Some (Speak "Done. Next: Add the coffee") ∧
  instruction <$> coffee_plan !! 1%nat = Some "Pour the water".
Proof. vm_compute. repeat split; reflexivity. Qed.

End InquiryFacts.

(** ** What the handlers leave alone *)

Section FrameRule.

Import Models World Processor Websocket Notions.
Local Open Scope Z_scope.

Context {X : Type} (view : SessionState -> X).

Lemma keeps_ret {A : Type} (a : A) : keeps view (ret a).
Proof. intros w. reflexivity. Qed.

Lemma keeps_raise {A : Type} (e : exn) : keeps view (raise (A := A) e).
Proof. intros w. reflexivity. Qed.

Lemma keeps_lift {A : Type} (r : Res A) : keeps view (lift r).
Proof. intros w. reflexivity. Qed.

Lemma keeps_get : keeps view get.
Proof. intros w. reflexivity. Qed.

Lemma keeps_bind {A B : Type} (m : M A) (f : A -> M B) :
  keeps view m → (∀ a, keeps view (f a)) → keeps view (bind m f).
Proof.
  intros Hm Hf w. unfold bind. specialize (Hm w).
  destruct (m w) as [[a|e] w1]; cbn [snd] in *.
  - rewrite (Hf a w1). exact Hm.
  - exact Hm.
Qed.

Lemma keeps_try_except {A : Type} (m : M A) (h : exn -> M A) :
  keeps view m → (∀ e, keeps view (h e)) → keeps view (try_except m h).
Proof.
  intros Hm Hh w. unfold try_except. specialize (Hm w).
  destruct (m w) as [[a|e] w1]; cbn [snd] in *.
  - exact Hm.
  - rewrite (Hh e w1). exact Hm.
Qed.

Lemma keeps_set_global g : keeps view (set_global g).
Proof. intros w. reflexivity. Qed.

Lemma keeps_set_memory m : keeps view (set_memory m).
Proof. intros w. reflexivity. Qed.

Lemma keeps_set_clock c : keeps view (set_clock c).
Proof. intros w. reflexivity. Qed.

Lemma keeps_safe_send_json msg : keeps view (safe_send_json msg).
Proof. intros w. reflexivity. Qed.

Lemma keeps_logging r : keeps view (logging r).
Proof. intros w. reflexivity. Qed.

Lemma keeps_call_planner : keeps view call_planner.
Proof. intros w. reflexivity. Qed.

Lemma keeps_with_clock {A : Type} (f : Clock -> A * Clock) : keeps view (with_clock f).
Proof.
  intros w. unfold with_clock, bind, get. destruct (f (clock w)) as [a c]. reflexivity.
Qed.

Lemma keeps_modify_session (f : SessionState -> SessionState) :
  (∀ s, view (f s) = view s) → keeps view (modify_session f).
Proof. intros Hf w. unfold modify_session, bind, get, set_session. cbn. apply Hf. Qed.

Lemma keeps_ask {A : Type} (gw : Gateway A) : keeps view (ask gw).
Proof. intros w. destruct gw; reflexivity. Qed.

Lemma keeps_sync_global name : keeps view (sync_global name).
Proof.
  unfold sync_global. apply keeps_bind; [apply keeps_get|]. intros w.
  apply keeps_bind; [apply keeps_with_clock|]. intros g. apply keeps_set_global.
Qed.

End FrameRule.

Create HintDb keeps.

#[local] Hint Resolve keeps_ret keeps_raise keeps_lift keeps_get keeps_set_global
  keeps_set_memory keeps_set_clock keeps_safe_send_json keeps_logging keeps_call_planner
  keeps_with_clock keeps_ask keeps_sync_global : keeps.

(** The rules applied along the structure of a computation; a session update
    is left as a goal about the updating function, closed by computation. *)
Ltac keeps_step :=
  lazymatch goal with
  | |- Notions.keeps _ (World.bind _ _) => apply keeps_bind; [|intros ?]
  | |- Notions.keeps _ (World.try_except _ _) => apply keeps_try_except; [|intros ?]
  | |- Notions.keeps _ (World.modify_session _) =>
      apply keeps_modify_session; intros ?; reflexivity
  | |- Notions.keeps _ (let _ := _ in _) => cbv zeta
  | |- Notions.keeps _ (if ?b then _ else _) => destruct b
  | |- Notions.keeps _ (match ?x with _ => _ end) => destruct x
  | |- _ => solve [auto with keeps]
  end.

Ltac keeps_all := repeat keeps_step.

Section HandlersKeep.

Import Models World Processor Websocket Notions.
Local Open Scope Z_scope.

(** The [try] blocks touch neither the mailbox nor the skip counter. *)

Lemma micro_body_keeps_mailbox env : keeps mailbox (micro_body env).
Proof. unfold micro_body, count_processed. keeps_all. Qed.

Lemma micro_body_keeps_skipped env : keeps frames_skipped (micro_body env).
Proof. unfold micro_body, count_processed. keeps_all. Qed.

Lemma complete_step_keeps_mailbox idx : keeps mailbox (complete_step idx).
Proof. unfold complete_step. keeps_all. Qed.

Lemma complete_step_keeps_skipped idx : keeps frames_skipped (complete_step idx).
Proof. unfold complete_step. keeps_all. Qed.

Lemma speak_guidance_keeps_mailbox speech : keeps mailbox (speak_guidance speech).
Proof.
  unfold speak_guidance, use_speech_manager, put_speech_manager. keeps_all.
Qed.

Lemma speak_guidance_keeps_skipped speech : keeps frames_skipped (speak_guidance speech).
Proof.
  unfold speak_guidance, use_speech_manager, put_speech_manager. keeps_all.
Qed.

Hint Resolve complete_step_keeps_mailbox complete_step_keeps_skipped
  speak_guidance_keeps_mailbox speak_guidance_keeps_skipped : keeps.

Lemma task_body_keeps_mailbox idx env : keeps mailbox (task_body idx env).
Proof. unfold task_body, count_processed. keeps_all. Qed.

Lemma task_body_keeps_skipped idx env : keeps frames_skipped (task_body idx env).
Proof. unfold task_body, count_processed. keeps_all. Qed.

Lemma nav_pipeline_keeps_mailbox result : keeps mailbox (nav_pipeline result).
Proof.
  unfold nav_pipeline, use_speech_manager, put_speech_manager, use_tracker, put_tracker,
    count_processed.
  keeps_all.
Qed.

Lemma nav_pipeline_keeps_skipped result : keeps frames_skipped (nav_pipeline result).
Proof.
  unfold nav_pipeline, use_speech_manager, put_speech_manager, use_tracker, put_tracker,
    count_processed.
  keeps_all.
Qed.

Hint Resolve nav_pipeline_keeps_mailbox nav_pipeline_keeps_skipped : keeps.

Lemma nav_body_keeps_mailbox env : keeps mailbox (nav_body env).
Proof. unfold nav_body. keeps_all. Qed.

Lemma nav_body_keeps_skipped env : keeps frames_skipped (nav_body env).
Proof. unfold nav_body. keeps_all. Qed.

Hint Resolve micro_body_keeps_mailbox task_body_keeps_mailbox nav_body_keeps_mailbox : keeps.

(** The handlers, their [except] clauses included, leave the mailbox alone. *)

Lemma process_micro_frame_keeps_mailbox f env : keeps mailbox (process_micro_frame f env).
Proof. unfold process_micro_frame, micro_except, skip_frame. keeps_all. Qed.

Lemma process_task_frame_keeps_mailbox f env : keeps mailbox (process_task_frame f env).
Proof. unfold process_task_frame, task_except, skip_frame. keeps_all. Qed.

Lemma process_frame_keeps_mailbox f env : keeps mailbox (process_frame f env).
Proof. unfold process_frame, nav_except, skip_frame. keeps_all. Qed.

Lemma run_handler_keeps_mailbox f env : keeps mailbox (run_handler f env).
Proof.
  destruct env; simpl.
  - apply process_micro_frame_keeps_mailbox.
  - apply process_task_frame_keeps_mailbox.
  - apply process_frame_keeps_mailbox.
Qed.

(** So does the handling of a voice inquiry. *)

Lemma generate_task_plan_keeps_mailbox name : keeps mailbox (_generate_task_plan name).
Proof. unfold _generate_task_plan. keeps_all. Qed.

Lemma handle_task_control_keeps_mailbox intent : keeps mailbox (_handle_task_control intent).
Proof. unfold _handle_task_control, put_task_state. keeps_all. Qed.

Hint Resolve generate_task_plan_keeps_mailbox handle_task_control_keeps_mailbox : keeps.

Lemma handle_intent_keeps_mailbox intent result : keeps mailbox (_handle_intent intent result).
Proof. unfold _handle_intent. keeps_all. Qed.

Hint Resolve handle_intent_keeps_mailbox : keeps.

Lemma process_inquiry_keeps_mailbox data gw : keeps mailbox (process_inquiry data gw).
Proof. unfold process_inquiry. keeps_all. Qed.

Hint Resolve process_inquiry_keeps_mailbox : keeps.

Lemma inquiry_keeps_mailbox data gw : keeps mailbox (inquiry data gw).
Proof. unfold inquiry. keeps_all. Qed.

Lemma teardown_keeps_mailbox : keeps mailbox teardown.
Proof. unfold teardown. keeps_all. Qed.

End HandlersKeep.

(** ** The step index is never negative *)

Section IndexRule.

Import Models World Processor Websocket Notions RunNotions.
Local Open Scope Z_scope.

Lemma preserves_same {A : Type} (m : M A) :
  (∀ w, session (m w).2 = session w ∧ global_task_state (m w).2 = global_task_state w) →
  preserves m.
Proof.
  intros Hm w Hw. destruct (Hm w) as [Hs Hg]. unfold index_ok. rewrite Hs, Hg. exact Hw.
Qed.

Lemma preserves_ret {A : Type} (a : A) : preserves (ret a).
Proof. apply preserves_same. intros w. split; reflexivity. Qed.

Lemma preserves_raise {A : Type} (e : exn) : preserves (raise (A := A) e).
Proof. apply preserves_same. intros w. split; reflexivity. Qed.

Lemma preserves_lift {A : Type} (r : Res A) : preserves (lift r).
Proof. apply preserves_same. intros w. split; reflexivity. Qed.

Lemma preserves_get : preserves get.
Proof. apply preserves_same. intros w. split; reflexivity. Qed.

Lemma preserves_set_memory m : preserves (set_memory m).
Proof. apply preserves_same. intros w. split; reflexivity. Qed.

Lemma preserves_set_clock c : preserves (set_clock c).
Proof. apply preserves_same. intros w. split; reflexivity. Qed.

Lemma preserves_safe_send_json msg : preserves (safe_send_json msg).
Proof. apply preserves_same. intros w. split; reflexivity. Qed.

Lemma preserves_logging r : preserves (logging r).
Proof. apply preserves_same. intros w. split; reflexivity. Qed.

Lemma preserves_call_planner : preserves call_planner.
Proof. apply preserves_same. intros w. split; reflexivity. Qed.

Lemma preserves_ask {A : Type} (gw : Gateway A) : preserves (ask gw).
Proof. apply preserves_same. intros w. destruct gw; split; reflexivity. Qed.

Lemma preserves_with_clock {A : Type} (f : Clock -> A * Clock) : preserves (with_clock f).
Proof.
  apply preserves_same. intros w. unfold with_clock, bind, get.
  destruct (f (clock w)) as [a c]. split; reflexivity.
Qed.

Lemma preserves_bind {A B : Type} (m : M A) (f : A -> M B) :
  preserves m → (∀ a, preserves (f a)) → preserves (bind m f).
Proof.
  intros Hm Hf w Hw. unfold bind. specialize (Hm w Hw).
  destruct (m w) as [[a|e] w1]; cbn [snd] in *.
  - apply (Hf a w1 Hm).
  - exact Hm.
Qed.

(** What is read from the world can be used further on *)
Lemma preserves_bind_get {B : Type} (k : World -> M B) :
  (∀ w0, index_ok w0 → preserves (k w0)) → preserves (bind get k).
Proof. intros Hk w Hw. unfold bind, get. apply (Hk w Hw w Hw). Qed.

Lemma preserves_try_except {A : Type} (m : M A) (h : exn -> M A) :
  preserves m → (∀ e, preserves (h e)) → preserves (try_except m h).
Proof.
  intros Hm Hh w Hw. unfold try_except. specialize (Hm w Hw).
  destruct (m w) as [[a|e] w1]; cbn [snd] in *.
  - exact Hm.
  - apply (Hh e w1 Hm).
Qed.

Lemma preserves_modify_session (f : SessionState -> SessionState) :
  (∀ s, 0 ≤ current_step_index (task_state s) →
        0 ≤ current_step_index (task_state (f s))) →
  preserves (modify_session f).
Proof.
  intros Hf w [Hs Hg]. unfold modify_session, bind, get, set_session, index_ok. cbn.
  split; [apply Hf, Hs|exact Hg].
Qed.

Lemma preserves_set_session (s : SessionState) :
  0 ≤ current_step_index (task_state s) → preserves (set_session s).
Proof. intros Hs w [_ Hg]. unfold set_session, index_ok. cbn. split; assumption. Qed.

Lemma preserves_set_global (g : GlobalTaskState) :
  0 ≤ g_current_step_index g → preserves (set_global g).
Proof. intros Hg w [Hs _]. unfold set_global, index_ok. cbn. split; assumption. Qed.

Lemma preserves_sync_global name : preserves (sync_global name).
Proof.
  intros w [Hs Hg]. unfold sync_global, bind, get, with_clock, bind, get, update_from,
    time_time, index_ok.
  cbn. split; exact Hs.
Qed.

End IndexRule.

Create HintDb preserves.

#[local] Hint Resolve preserves_ret preserves_raise preserves_lift preserves_get
  preserves_set_memory preserves_set_clock preserves_safe_send_json preserves_logging
  preserves_call_planner preserves_ask preserves_with_clock preserves_sync_global
  : preserves.

(** An obligation about indices, closed from what was read before *)
Ltac index_arith :=
  unfold RunNotions.index_ok in *; cbn;
  repeat match goal with
         | H : _ ∧ _ |- _ => destruct H
         end;
  lia.

(** The rules applied along the structure of a computation *)
Ltac preserves_step :=
  lazymatch goal with
  | |- RunNotions.preserves (World.bind World.get _) =>
      apply preserves_bind_get; intros ? ?
  | |- RunNotions.preserves (World.bind _ _) => apply preserves_bind; [|intros ?]
  | |- RunNotions.preserves (World.try_except _ _) => apply preserves_try_except; [|intros ?]
  | |- RunNotions.preserves (World.modify_session _) =>
      apply preserves_modify_session; intros ? ?; index_arith
  | |- RunNotions.preserves (World.set_session _) =>
      apply preserves_set_session; index_arith
  | |- RunNotions.preserves (World.set_global _) =>
      apply preserves_set_global; index_arith
  | |- RunNotions.preserves (let _ := _ in _) => cbv zeta
  | |- RunNotions.preserves (if Z.ltb ?a ?b then _ else _) => destruct (Z.ltb_spec a b)
  | |- RunNotions.preserves (if Z.leb ?a ?b then _ else _) => destruct (Z.leb_spec a b)
  | |- RunNotions.preserves (if ?b then _ else _) => destruct b
  | |- RunNotions.preserves (match ?x with _ => _ end) => destruct x
  | |- _ => solve [auto with preserves]
  end.

Ltac preserves_all := repeat preserves_step.

Section HandlersPreserve.

Import Models World Processor Websocket Notions RunNotions.
Local Open Scope Z_scope.

Lemma micro_body_preserves env : preserves (micro_body env).
Proof. unfold micro_body, count_processed. preserves_all. Qed.

Lemma complete_step_preserves idx : preserves (complete_step idx).
Proof. unfold complete_step. preserves_all. Qed.

Lemma speak_guidance_preserves speech : preserves (speak_guidance speech).
Proof. unfold speak_guidance, use_speech_manager, put_speech_manager. preserves_all. Qed.

Hint Resolve complete_step_preserves speak_guidance_preserves : preserves.

Lemma task_body_preserves idx env : preserves (task_body idx env).
Proof. unfold task_body, count_processed. preserves_all. Qed.

Lemma nav_pipeline_preserves result : preserves (nav_pipeline result).
Proof.
  unfold nav_pipeline, use_speech_manager, put_speech_manager, use_tracker, put_tracker,
    count_processed.
  preserves_all.
Qed.

Hint Resolve nav_pipeline_preserves : preserves.

Lemma nav_body_preserves env : preserves (nav_body env).
Proof. unfold nav_body. preserves_all. Qed.

Hint Resolve micro_body_preserves task_body_preserves nav_body_preserves : preserves.

Lemma process_micro_frame_preserves f env : preserves (process_micro_frame f env).
Proof. unfold process_micro_frame, micro_except, skip_frame. preserves_all. Qed.

Lemma process_task_frame_preserves f env : preserves (process_task_frame f env).
Proof. unfold process_task_frame, task_except, skip_frame. preserves_all. Qed.

Lemma process_frame_preserves f env : preserves (process_frame f env).
Proof. unfold process_frame, nav_except, skip_frame. preserves_all. Qed.

Lemma run_handler_preserves f env : preserves (run_handler f env).
Proof.
  destruct env; simpl.
  - apply process_micro_frame_preserves.
  - apply process_task_frame_preserves.
  - apply process_frame_preserves.
Qed.

Lemma generate_task_plan_preserves name : preserves (_generate_task_plan name).
Proof. unfold _generate_task_plan. preserves_all. Qed.

Lemma handle_task_control_preserves intent : preserves (_handle_task_control intent).
Proof. unfold _handle_task_control, put_task_state. preserves_all. Qed.

Hint Resolve generate_task_plan_preserves handle_task_control_preserves : preserves.

Lemma handle_intent_preserves intent result : preserves (_handle_intent intent result).
Proof. unfold _handle_intent. preserves_all. Qed.

Hint Resolve handle_intent_preserves : preserves.

Lemma process_inquiry_preserves data gw : preserves (process_inquiry data gw).
Proof. unfold process_inquiry. preserves_all. Qed.

Hint Resolve process_inquiry_preserves : preserves.

Lemma inquiry_preserves data gw : preserves (inquiry data gw).
Proof. unfold inquiry. preserves_all. Qed.

Lemma teardown_preserves : preserves teardown.
Proof. unfold teardown. preserves_all. Qed.

End HandlersPreserve.

(** ** The ingestion loop *)

Section LoopFacts.

Import Models World Processor Websocket Notions LoopExamples RunNotions.

Local Hint Resolve getitem_lookup : core.
Local Open Scope Z_scope.

Lemma last_submitted_submit ls bytes :
  last_submitted (ls ++ [Submit bytes]) = Some (frame_payload bytes).
Proof. unfold last_submitted. rewrite omap_app. simpl. apply last_snoc. Qed.

Lemma last_submitted_other ls l :
  (∀ bytes, l ≠ Submit bytes) → last_submitted (ls ++ [l]) = last_submitted ls.
Proof.
  intros Hl. unfold last_submitted. rewrite omap_app.
  destruct l; simpl; try (rewrite app_nil_r; reflexivity).
  exfalso. eapply Hl. reflexivity.
Qed.

Lemma after_dispatch_latest w event :
  latest_frame (session (after_dispatch w event).1) = latest_frame (session w).
Proof. reflexivity. Qed.

Lemma keeps_mailbox_latest {A : Type} (m : M A) w :
  keeps mailbox m → latest_frame (session (m w).2) = latest_frame (session w).
Proof. intros Hm. specialize (Hm w). unfold mailbox in Hm. congruence. Qed.

Lemma step_pending_is_latest ls s l s' :
  pending_is_latest ls s → step s l = Some s' → pending_is_latest (ls ++ [l]) s'.
Proof.
  intros Hinv Hstep f Hf. destruct l; cbn -[teardown] in Hstep.
  - (* Submit *)
    rewrite last_submitted_submit. injection Hstep as <-.
    revert Hf. unfold submit. cbn.
    destruct (is_processing (session (world s))); cbn; intros [= <-]; reflexivity.
  - (* Inquiry *)
    rewrite last_submitted_other by discriminate.
    pose proof (keeps_mailbox_latest (inquiry data gw) (world s)
                  (inquiry_keeps_mailbox data gw)) as Hk.
    destruct (inquiry data gw (world s)) as [[u|e] w]; [|discriminate].
    injection Hstep as <-. cbn in *. apply Hinv. congruence.
  - (* Wake *)
    rewrite last_submitted_other by discriminate.
    destruct (consumer s); try discriminate.
    destruct (frame_event s); [|discriminate].
    destruct (latest_frame (session (world s))) as [f0|] eqn:Hl.
    + destruct (is_processing (session (world s))); cbn in Hstep;
        injection Hstep as <-; cbn in Hf; [|discriminate].
      apply Hinv. congruence.
    + injection Hstep as <-. cbn in Hf. congruence.
  - (* Handled *)
    rewrite last_submitted_other by discriminate.
    destruct (consumer s) as [|h f0|]; try discriminate.
    destruct (env_matches h env); [|discriminate].
    pose proof (keeps_mailbox_latest (run_handler f0 env) (world s)
                  (run_handler_keeps_mailbox f0 env)) as Hk.
    destruct (run_handler f0 env (world s)) as [[u|e] w]; cbn in Hstep, Hk;
      injection Hstep as <-; cbn in Hf; apply Hinv; congruence.
  - (* Cancel *)
    rewrite last_submitted_other by discriminate.
    pose proof (keeps_mailbox_latest teardown (world s) teardown_keeps_mailbox) as Hk.
    destruct (consumer s); try discriminate; cbn -[teardown] in Hstep;
      injection Hstep as <-; cbn -[teardown] in Hf; apply Hinv; congruence.
Qed.

Lemma run_pending_is_latest ls : ∀ pre s s',
  pending_is_latest pre s → run s ls = Some s' → pending_is_latest (pre ++ ls) s'.
Proof.
  induction ls as [|l ls IH]; intros pre s s' Hinv Hrun; simpl in Hrun.
  - injection Hrun as <-. rewrite app_nil_r. exact Hinv.
  - destruct (step s l) as [s1|] eqn:Hstep; [|discriminate].
    replace (pre ++ l :: ls)%list with ((pre ++ [l]) ++ ls)%list
      by (rewrite <- app_assoc; reflexivity).
    eapply IH; [|exact Hrun].
    eapply step_pending_is_latest; eassumption.
Qed.

(** A session starts with an empty mailbox. *)
Lemma connected_mailbox w s :
  connected w = Some s → mailbox (session (world s)) = (None, false).
Proof.
  unfold connected. intros Hc.
  assert (Hk : mailbox (session (on_connect w).2) = (None, false)).
  { unfold on_connect. unfold bind at 1. cbn [set_session].
    match goal with |- mailbox (session (?m ?w1).2) = _ =>
      assert (Hrest : keeps mailbox m) by keeps_all;
      rewrite (Hrest w1) end.
    reflexivity. }
  destruct (on_connect w) as [[u|e] w']; [|discriminate].
  injection Hc as <-. exact Hk.
Qed.

(** What the consumer does when it wakes up *)
Lemma wake_claims s s' h f :
  step s Wake = Some s' → consumer s' = Dispatching h f →
  latest_frame (session (world s)) = Some f ∧
  is_processing (session (world s)) = false ∧
  latest_frame (session (world s')) = None ∧
  is_processing (session (world s')) = true.
Proof.
  intros Hstep Hc. cbn in Hstep.
  destruct (consumer s); try discriminate.
  destruct (frame_event s); [|discriminate].
  destruct (latest_frame (session (world s))) as [f0|]; cycle 1.
  { injection Hstep as <-. discriminate Hc. }
  destruct (is_processing (session (world s))); cbn in Hstep; injection Hstep as <-.
  - discriminate Hc.
  - cbn in Hc. injection Hc as _ <-. repeat split.
Qed.

(** C1: in every run of a session from its connection, whenever the
    consumer wakes up and claims a frame for dispatch, the claimed frame is
    the one of the last [Submit] so far; the claim empties the slot and sets
    the processing flag, and it happens only while the flag is clear. *)
Theorem C1_consumer_claims_latest_submission
    (w0 : World) (s0 s s' : Session) (ls : list Label) (h : Handler) (f : Frame) :
  connected w0 = Some s0 →
  run s0 ls = Some s →
  step s Wake = Some s' →
  consumer s' = Dispatching h f →
  last_submitted ls = Some f ∧
  is_processing (session (world s)) = false ∧
  latest_frame (session (world s')) = None ∧
  is_processing (session (world s')) = true.
Proof.
  intros Hconn Hrun Hwake Hclaim.
  destruct (wake_claims _ _ _ _ Hwake Hclaim) as (Hl & Hp & Hl' & Hp').
  split; [|repeat split; assumption].
  assert (Hinit : pending_is_latest [] s0).
  { intros f0 Hf0. apply connected_mailbox in Hconn. unfold mailbox in Hconn.
    congruence. }
  apply (run_pending_is_latest ls [] s0 s Hinit Hrun f Hl).
Qed.

Lemma C1_witness :
  last_submitted three_frames = Some (frame_payload "frame-3") ∧
  is_processing (session (world before_claim)) = false ∧
  latest_frame (session (world after_claim)) = None ∧
  is_processing (session (world after_claim)) = true.
Proof.
  apply (C1_consumer_claims_latest_submission quiet_world fresh_session before_claim
           after_claim three_frames NavHandler (frame_payload "frame-3")).
  - vm_compute. reflexivity.
  - vm_compute. reflexivity.
  - vm_compute. reflexivity.
  - vm_compute. reflexivity.
Defined.

(** An exception out of the [try] block of the navigation handler *)
Lemma process_frame_contains f env w e w1 :
  nav_body env w = (Raise e, w1) →
  ∃ r, process_frame f env w =
         (Ok tt, (skip_frame (logging r w1).2).2) ∧
       log (process_frame f env w).2 = (log w1 ++ [r])%list ∧
       frames_skipped (session (process_frame f env w).2) = frames_skipped (session w) + 1.
Proof.
  intros Hbody.
  pose proof (nav_body_keeps_skipped env w) as Hk. rewrite Hbody in Hk. cbn [snd] in Hk.
  unfold process_frame, try_except. rewrite Hbody.
  destruct e; cbn; rewrite Hk; eexists; repeat split.
Qed.

(** The same for the micro-guidance handler, once it is past its guard *)
Lemma process_micro_frame_contains f env w e w1 :
  image f ≠ "" →
  truthy (micro_target (session w)) = true →
  micro_body env w = (Raise e, w1) →
  process_micro_frame f env w =
    (Ok tt, (skip_frame (logging (LogError "Micro-Nav Error" e) w1).2).2) ∧
  log (process_micro_frame f env w).2 = (log w1 ++ [LogError "Micro-Nav Error" e])%list ∧
  frames_skipped (session (process_micro_frame f env w).2) = frames_skipped (session w) + 1.
Proof.
  intros Himg Htarget Hbody.
  pose proof (micro_body_keeps_skipped env w) as Hk. rewrite Hbody in Hk. cbn [snd] in Hk.
  unfold process_micro_frame, bind, get.
  destruct (String.eqb_spec (image f) ""); [contradiction|].
  unfold truthy in Htarget.
  destruct (micro_target (session w)) as [t|]; [|discriminate].
  apply negb_true_iff in Htarget. rewrite Htarget. cbn [orb].
  unfold try_except. rewrite Hbody. cbn. rewrite Hk. repeat split.
Qed.

(** The same for the task handler, on an active task with a current step *)
Lemma process_task_frame_contains f env w e w1 step :
  let ts := task_state (session w) in
  is_active ts = true →
  0 ≤ current_step_index ts →
  plan ts !! Z.to_nat (current_step_index ts) = Some step →
  task_body (current_step_index ts) env w = (Raise e, w1) →
  process_task_frame f env w =
    (Ok tt, (skip_frame (logging (LogError "Task Guidance Error" e) w1).2).2) ∧
  log (process_task_frame f env w).2 = (log w1 ++ [LogError "Task Guidance Error" e])%list ∧
  frames_skipped (session (process_task_frame f env w).2) = frames_skipped (session w) + 1.
Proof.
  intros ts Hact Hidx Hstep Hbody. subst ts.
  pose proof (task_body_keeps_skipped (current_step_index (task_state (session w))) env w)
    as Hk.
  rewrite Hbody in Hk. cbn [snd] in Hk.
  pose proof (lookup_lt_Some _ _ _ Hstep) as Hlen.
  assert (Hrun : process_task_frame f env w =
                 (Ok tt, (skip_frame (logging (LogError "Task Guidance Error" e) w1).2).2)).
  { unfold process_task_frame, bind at 1. unfold get at 1. cbv zeta.
    rewrite Hact.
    destruct (Nat.eqb_spec (List.length (plan (task_state (session w)))) 0); [lia|].
    cbn [negb orb].
    destruct (Z.leb_spec (Z.of_nat (List.length (plan (task_state (session w)))))
                (current_step_index (task_state (session w)))); [lia|].
    unfold bind, lift. rewrite (getitem_lookup _ _ _ Hidx Hstep).
    unfold try_except. rewrite Hbody. reflexivity. }
  rewrite Hrun. cbn. rewrite Hk. repeat split.
Qed.

(** No exception leaves the navigation or the micro-guidance handler. *)
Lemma process_frame_never_raises f env w : (process_frame f env w).1 = Ok tt.
Proof.
  unfold process_frame, try_except.
  destruct (nav_body env w) as [[[]|e] w1]; [reflexivity|].
  destruct e; reflexivity.
Qed.

Lemma process_micro_frame_never_raises f env w : (process_micro_frame f env w).1 = Ok tt.
Proof.
  unfold process_micro_frame, bind, get.
  destruct (_ || _)%bool; [reflexivity|].
  unfold try_except. destruct (micro_body env w) as [[[]|e] w1]; reflexivity.
Qed.

(** Whatever the handler did, the dispatch ends with the flag cleared and
    the consumer back at the top of its loop. *)
Lemma handled_continues s h f env s' :
  consumer s = Dispatching h f →
  step s (Handled env) = Some s' →
  consumer s' = Waiting ∧
  is_processing (session (world s')) = false ∧
  frames_skipped (session (world s')) =
    frames_skipped (session (run_handler f env (world s)).2) ∧
  (is_ok (run_handler f env (world s)).1 = true →
     log (world s') = log (run_handler f env (world s)).2) ∧
  (∀ e, (run_handler f env (world s)).1 = Raise e →
     log (world s') =
       (log (run_handler f env (world s)).2 ++ [LogError "Frame Processing Exception" e])%list).
Proof.
  intros Hc Hstep. cbn in Hstep. rewrite Hc in Hstep.
  destruct (env_matches h env); [|discriminate].
  destruct (run_handler f env (world s)) as [[u|e] w]; cbn in Hstep;
    injection Hstep as <-; cbn; repeat split; try discriminate.
  intros e' [= <-]. reflexivity.
Qed.

(** The consumer stops on a cancellation and on nothing else. *)
Lemma only_cancel_stops s l s' :
  step s l = Some s' → consumer s' = Stopped → consumer s = Stopped ∨ l = Cancel.
Proof.
  intros Hstep Hstop. destruct l; [left|left|left|left|right; reflexivity].
  - cbn in Hstep. injection Hstep as <-. unfold submit in Hstop.
    destruct (negb _) in Hstop; exact Hstop.
  - cbn in Hstep. destruct (inquiry data gw (world s)) as [[u|e] w]; [|discriminate].
    injection Hstep as <-. exact Hstop.
  - cbn in Hstep. destruct (consumer s); try discriminate.
    destruct (frame_event s); [|discriminate].
    destruct (latest_frame (session (world s))); [destruct (negb _)|];
      injection Hstep as <-; discriminate Hstop.
  - cbn in Hstep. destruct (consumer s); try discriminate.
    destruct (env_matches handler env); [|discriminate].
    destruct (run_handler frame_data env (world s)) as [[u|e] w]; cbn in Hstep;
      injection Hstep as <-; discriminate Hstop.
Qed.

(** The indices stay non-negative along every run, from every connection,
    through every sequence of sessions. *)
Lemma after_dispatch_index_ok w event :
  index_ok w → index_ok (after_dispatch w event).1.
Proof. intros Hw. exact Hw. Qed.

Lemma step_index_ok s l s' :
  index_ok (world s) → step s l = Some s' → index_ok (world s').
Proof.
  intros Hw Hstep. destruct l; cbn -[teardown] in Hstep.
  - injection Hstep as <-. unfold submit.
    destruct (negb _); exact Hw.
  - pose proof (inquiry_preserves data gw (world s) Hw) as Hk.
    destruct (inquiry data gw (world s)) as [[u|e] w]; [|discriminate].
    injection Hstep as <-. exact Hk.
  - destruct (consumer s); try discriminate.
    destruct (frame_event s); [|discriminate].
    destruct (latest_frame (session (world s))) as [f0|].
    + destruct (negb _); injection Hstep as <-; exact Hw.
    + injection Hstep as <-. exact Hw.
  - destruct (consumer s) as [|h f0|]; try discriminate.
    destruct (env_matches h env); [|discriminate].
    pose proof (run_handler_preserves f0 env (world s) Hw) as Hk.
    destruct (run_handler f0 env (world s)) as [[u|e] w]; cbn in Hstep, Hk;
      injection Hstep as <-; exact Hk.
  - pose proof (teardown_preserves (world s) Hw) as Hk.
    destruct (consumer s); try discriminate; cbn -[teardown] in Hstep;
      injection Hstep as <-; exact Hk.
Qed.

Lemma run_index_ok ls : ∀ s s',
  index_ok (world s) → run s ls = Some s' → index_ok (world s').
Proof.
  induction ls as [|l ls IH]; intros s s' Hw Hrun; simpl in Hrun.
  - injection Hrun as <-. exact Hw.
  - destruct (step s l) as [s1|] eqn:Hstep; [|discriminate].
    exact (IH s1 s' (step_index_ok s l s1 Hw Hstep) Hrun).
Qed.

Lemma on_connect_index_ok w :
  0 ≤ g_current_step_index (global_task_state w) → index_ok (on_connect w).2.
Proof.
  intros Hg. unfold on_connect. unfold bind at 1. cbn [set_session].
  match goal with |- index_ok (?m ?w1).2 =>
    assert (Hrest : preserves m) by preserves_all;
    apply (Hrest w1) end.
  split; [cbn; lia|exact Hg].
Qed.

Lemma connected_index_ok w s :
  0 ≤ g_current_step_index (global_task_state w) → connected w = Some s →
  index_ok (world s).
Proof.
  intros Hg Hc. pose proof (on_connect_index_ok w Hg) as Hk.
  unfold connected in Hc. destruct (on_connect w) as [[u|e] w']; [|discriminate].
  injection Hc as <-. exact Hk.
Qed.

Lemma sessions_index_ok runs : ∀ w w',
  0 ≤ g_current_step_index (global_task_state w) → sessions w runs = Some w' →
  0 ≤ g_current_step_index (global_task_state w').
Proof.
  induction runs as [|ls runs IH]; intros w w' Hg Hs; simpl in Hs.
  - injection Hs as <-. exact Hg.
  - destruct (connected w) as [s0|] eqn:Hc; [|discriminate].
    destruct (run s0 ls) as [s|] eqn:Hrun; [|discriminate].
    apply (IH (world s) w'); [|exact Hs].
    apply (run_index_ok ls s0 s (connected_index_ok w s0 Hg Hc) Hrun).
Qed.

(** Every session of a server that started with [GlobalTaskState()] has
    non-negative indices at each of its steps. *)
Lemma reachable_index_ok w0 w1 earlier s0 ls s :
  global_task_state w0 = new_global_task_state →
  sessions w0 earlier = Some w1 →
  connected w1 = Some s0 →
  run s0 ls = Some s →
  index_ok (world s).
Proof.
  intros Hstart Hearlier Hconn Hrun.
  assert (Hg0 : 0 ≤ g_current_step_index (global_task_state w0)).
  { rewrite Hstart. cbn. lia. }
  pose proof (sessions_index_ok earlier w0 w1 Hg0 Hearlier) as Hg1.
  exact (run_index_ok ls s0 s (connected_index_ok w1 s0 Hg1 Hconn) Hrun).
Qed.

(** With a non-negative index the task handler finds its current step, so
    no exception leaves a handler. *)
Lemma process_task_frame_returns f env w :
  0 ≤ current_step_index (task_state (session w)) →
  (process_task_frame f env w).1 = Ok tt.
Proof.
  intros Hidx. unfold process_task_frame, bind at 1. unfold get at 1. cbv zeta.
  destruct (negb _ || _)%bool; [reflexivity|].
  destruct (Z.leb_spec (Z.of_nat (List.length (plan (task_state (session w)))))
              (current_step_index (task_state (session w)))) as [|Hlt]; [reflexivity|].
  destruct (lookup_lt_is_Some_2 (plan (task_state (session w)))
              (Z.to_nat (current_step_index (task_state (session w)))))
    as [step Hstep]; [lia|].
  unfold bind at 1, lift. rewrite (getitem_lookup _ _ _ Hidx Hstep).
  unfold try_except.
  destruct (task_body _ env w) as [[[]|e] w1]; reflexivity.
Qed.

Lemma run_handler_returns f env w :
  index_ok w → (run_handler f env w).1 = Ok tt.
Proof.
  intros [Hidx _]. destruct env; simpl.
  - apply process_micro_frame_never_raises.
  - apply process_task_frame_returns, Hidx.
  - apply process_frame_never_raises.
Qed.

(** The task handler past its guards, the step being found *)
Lemma process_task_frame_counts f env w e w1 :
  let ts := task_state (session w) in
  is_active ts = true →
  0 ≤ current_step_index ts →
  current_step_index ts < Z.of_nat (List.length (plan ts)) →
  task_body (current_step_index ts) env w = (Raise e, w1) →
  log (process_task_frame f env w).2 = (log w1 ++ [LogError "Task Guidance Error" e])%list ∧
  frames_skipped (session (process_task_frame f env w).2) = frames_skipped (session w) + 1.
Proof.
  intros ts Hact Hidx Hlt Hbody. subst ts.
  destruct (lookup_lt_is_Some_2 (plan (task_state (session w)))
              (Z.to_nat (current_step_index (task_state (session w)))))
    as [step Hstep]; [lia|].
  destruct (process_task_frame_contains f env w e w1 step Hact Hidx Hstep Hbody)
    as (_ & Hlog & Hskip).
  split; assumption.
Qed.

(** C3: take any session of a server that started with [GlobalTaskState()],
    after any sessions before it, at any point of its run where the consumer
    has a frame in a handler. The handler returns: an exception raised in
    its [try] block is caught by its own [except] clause, which adds one to
    the skip counter and logs it (navigation, micro-guidance and task handler
    alike, each once it is past its guards), and no exception leaves a
    handler, so that the loop's own [except] clause, which logs without
    counting, has nothing to catch. The dispatch then ends with the counter
    and the log as the handler left them, the processing flag cleared and
    the consumer back at the top of its loop; and a consumer stops on
    cancellation only. *)
Theorem C3_handler_exceptions_are_contained
    (w0 w1 : World) (earlier : list (list Label)) (s0 s : Session) (ls : list Label)
    (h : Handler) (f : Frame) (env : HandlerEnv) :
  global_task_state w0 = new_global_task_state →
  sessions w0 earlier = Some w1 →
  connected w1 = Some s0 →
  run s0 ls = Some s →
  consumer s = Dispatching h f →
  env_matches h env = true →
  let w := world s in
  let r := run_handler f env w in
  r.1 = Ok tt ∧
  (∃ s', step s (Handled env) = Some s' ∧
         consumer s' = Waiting ∧
         is_processing (session (world s')) = false ∧
         frames_skipped (session (world s')) = frames_skipped (session r.2) ∧
         log (world s') = log r.2) ∧
  (∀ nav e w2,
      env = NavEnv nav →
      nav_body nav w = (Raise e, w2) →
      frames_skipped (session r.2) = frames_skipped (session w) + 1 ∧
      (log r.2 = (log w2 ++ [LogWarning "AI Model Timed Out"])%list ∨
       log r.2 = (log w2 ++ [LogError "Nav Process Error" e])%list)) ∧
  (∀ micro e w2,
      env = MicroEnv micro →
      image f ≠ "" →
      truthy (micro_target (session w)) = true →
      micro_body micro w = (Raise e, w2) →
      frames_skipped (session r.2) = frames_skipped (session w) + 1 ∧
      log r.2 = (log w2 ++ [LogError "Micro-Nav Error" e])%list) ∧
  (∀ task e w2,
      env = TaskEnv task →
      is_active (task_state (session w)) = true →
      current_step_index (task_state (session w))
        < Z.of_nat (List.length (plan (task_state (session w)))) →
      task_body (current_step_index (task_state (session w))) task w = (Raise e, w2) →
      frames_skipped (session r.2) = frames_skipped (session w) + 1 ∧
      log r.2 = (log w2 ++ [LogError "Task Guidance Error" e])%list) ∧
  (∀ s1 l s2,
      step s1 l = Some s2 → consumer s2 = Stopped → consumer s1 = Stopped ∨ l = Cancel).
Proof.
  intros Hstart Hearlier Hconn Hrun Hdisp Henv w r. subst r w.
  pose proof (reachable_index_ok w0 w1 earlier s0 ls s Hstart Hearlier Hconn Hrun) as Hok.
  pose proof (run_handler_returns f env (world s) Hok) as Hret.
  split; [exact Hret|]. split; [|split; [|split; [|split]]].
  - assert (Hstep : ∃ s', step s (Handled env) = Some s').
    { cbn. rewrite Hdisp, Henv.
      destruct (run_handler f env (world s)) as [[u|e] w]; [|discriminate Hret].
      eexists. reflexivity. }
    destruct Hstep as [s' Hstep]. exists s'. split; [exact Hstep|].
    destruct (handled_continues s h f env s' Hdisp Hstep) as (H1 & H2 & H3 & H4 & _).
    repeat split; try assumption.
    apply H4. rewrite Hret. reflexivity.
  - intros nav e w2 -> Hbody. simpl.
    destruct (process_frame_contains f nav (world s) e w2 Hbody) as (rec & Heq & _ & Hskip).
    split; [exact Hskip|].
    revert Heq. unfold process_frame, try_except. rewrite Hbody.
    destruct e; cbn; intros _; (left; reflexivity) || (right; reflexivity).
  - intros micro e w2 -> Himg Htarget Hbody. simpl.
    destruct (process_micro_frame_contains f micro (world s) e w2 Himg Htarget Hbody)
      as (_ & Hlog & Hskip).
    split; assumption.
  - intros task e w2 -> Hact Hlt Hbody. simpl.
    destruct Hok as [Hidx _].
    destruct (process_task_frame_counts f task (world s) e w2 Hact Hidx Hlt Hbody)
      as (Hlog & Hskip).
    split; assumption.
  - exact only_cancel_stops.
Qed.

Lemma C3_witness :
  let w := world second_visit_claimed in
  let r := run_handler (frame_payload "frame-2") undecodable w in
  r.1 = Ok tt ∧
  (∃ s', step second_visit_claimed (Handled undecodable) = Some s' ∧
         consumer s' = Waiting ∧
         is_processing (session (world s')) = false ∧
         frames_skipped (session (world s')) = frames_skipped (session r.2) ∧
         log (world s') = log r.2) ∧
  (∀ nav e w2,
      undecodable = NavEnv nav →
      nav_body nav w = (Raise e, w2) →
      frames_skipped (session r.2) = frames_skipped (session w) + 1 ∧
      (log r.2 = (log w2 ++ [LogWarning "AI Model Timed Out"])%list ∨
       log r.2 = (log w2 ++ [LogError "Nav Process Error" e])%list)) ∧
  (∀ micro e w2,
      undecodable = MicroEnv micro →
      image (frame_payload "frame-2") ≠ "" →
      truthy (micro_target (session w)) = true →
      micro_body micro w = (Raise e, w2) →
      frames_skipped (session r.2) = frames_skipped (session w) + 1 ∧
      log r.2 = (log w2 ++ [LogError "Micro-Nav Error" e])%list) ∧
  (∀ task e w2,
      undecodable = TaskEnv task →
      is_active (task_state (session w)) = true →
      current_step_index (task_state (session w))
        < Z.of_nat (List.length (plan (task_state (session w)))) →
      task_body (current_step_index (task_state (session w))) task w = (Raise e, w2) →
      frames_skipped (session r.2) = frames_skipped (session w) + 1 ∧
      log r.2 = (log w2 ++ [LogError "Task Guidance Error" e])%list) ∧
  (∀ s1 l s2,
      step s1 l = Some s2 → consumer s2 = Stopped → consumer s1 = Stopped ∨ l = Cancel).
Proof.
  apply (C3_handler_exceptions_are_contained quiet_world after_first_visit [first_visit]
           second_visit second_visit_claimed [Submit "frame-2"; Wake] NavHandler
           (frame_payload "frame-2") undecodable).
  - reflexivity.
  - vm_compute. reflexivity.
  - vm_compute. reflexivity.
  - vm_compute. reflexivity.
  - vm_compute. reflexivity.
  - reflexivity.
Defined.

(** An undecodable image in a first session: it is counted and logged by
    the navigation handler, and the next frame is claimed afterwards. *)
Example undecodable_frame_is_counted :
  (λ s, (frames_skipped (session (world s)), log (world s), consumer s)) <$>
    run fresh_session [Submit "frame-1"; Wake; Handled undecodable; Submit "frame-2"; Wake]
  = Some (1, [LogError "Nav Process Error" ValueError],
          Dispatching NavHandler (frame_payload "frame-2")).
Proof. vm_compute. reflexivity. Qed.

End LoopFacts.

(** * Further properties of the code *)

(** ** The tracker: what is ignored, what expires, what counts as stable *)

Section TrackerMore.

Import Tracking TrackingExamples Clocks Notions Replay.
Local Open Scope Z_scope.

(** The three ways a detection fails the guard of the loop *)
Lemma skipped_cases thr det :
  skipped thr det = true ↔
  det_name det = None ∨ det_name det = Some "" ∨
  PrimFloat.ltb (detection_confidence det) thr = true.
Proof.
  unfold skipped. destruct (det_name det) as [n|].
  - destruct (String.eqb_spec n "") as [->|Hn]; cbn [orb].
    + split; [intros _; right; left; reflexivity | reflexivity].
    + split.
      * intros H. right. right. exact H.
      * intros [H | [H | H]]; [discriminate | congruence | exact H].
  - split; [intros _; left; reflexivity | reflexivity].
Qed.

Lemma fold_ingest_app thr now pre post acc :
  fold_left (ingest thr now) (pre ++ post) acc =
    fold_left (ingest thr now) post (fold_left (ingest thr now) pre acc).
Proof. apply fold_left_app. Qed.

(** X1: a detection without a name, with an empty name, or with a confidence
    below the threshold is ignored wherever it stands in the list: the call
    returns the same stable objects, tracker and clock as without it. *)
Theorem X1_rejected_detection_is_ignored
    (self : VisualTracker) (clk : Clock) (pre post : list Detection) (det : Detection) :
  det_name det = None ∨ det_name det = Some "" ∨
    PrimFloat.ltb (detection_confidence det) (confidence_threshold self) = true →
  process_detections self (pre ++ det :: post) clk = process_detections self (pre ++ post) clk.
Proof.
  intros Hrej. apply skipped_cases in Hrej.
  unfold process_detections. destruct (time_time clk) as [now clk1].
  rewrite !fold_ingest_app. simpl. rewrite (ingest_skips _ _ _ _ Hrej). reflexivity.
Qed.

Lemma X1_witness :
  process_detections new_tracker
    ([chair_at 2.0] ++ {| det_name := Some "table"; det_confidence_score := Some 40%float;
                          det_distance := Some 1.0%float; det_direction := None;
                          det_category := None |} :: [chair_at 1.5]) tenth_clock =
  process_detections new_tracker ([chair_at 2.0] ++ [chair_at 1.5]) tenth_clock.
Proof.
  apply (X1_rejected_detection_is_ignored new_tracker tenth_clock [chair_at 2.0]
           [chair_at 1.5]).
  right. right. reflexivity.
Defined.

(** A detection leaves the entries under other keys as they are. *)
Lemma ingest_other_key thr now acc det k :
  (∀ n, det_name det = Some n → skipped thr det = false → PyStr.lower n ≠ k) →
  (ingest thr now acc det).1 !! k = acc.1 !! k.
Proof.
  intros Hk. unfold ingest.
  destruct (det_name det) as [n|] eqn:Hn; [|reflexivity].
  destruct (skipped thr det) eqn:Hs; [reflexivity|].
  specialize (Hk n eq_refl eq_refl).
  destruct (acc.1 !! PyStr.lower n) as [o|] eqn:Ho; simpl.
  - rewrite lookup_insert_ne by exact Hk. reflexivity.
  - rewrite lookup_insert_ne by exact Hk. reflexivity.
Qed.

Lemma fold_ingest_other_key thr now dets k : ∀ acc,
  Forall (λ det, ∀ n, det_name det = Some n → skipped thr det = false →
                      PyStr.lower n ≠ k) dets →
  (fold_left (ingest thr now) dets acc).1 !! k = acc.1 !! k.
Proof.
  induction dets as [|d dets IH]; intros acc Hall; simpl; [reflexivity|].
  apply Forall_cons in Hall as [Hd Hrest].
  rewrite (IH _ Hrest). apply ingest_other_key, Hd.
Qed.

(** The returned list holds exactly the stable entries of the tracker. *)
Lemma stable_objects_spec objs o :
  In o (stable_objects objs) ↔ ∃ k, objs !! k = Some o ∧ is_stable o = true.
Proof.
  unfold stable_objects. rewrite filter_In, in_map_iff. split.
  - intros [[[k o'] [Heq Hin]] Hst]. simpl in Heq. subst o'.
    exists k. split; [|exact Hst].
    apply elem_of_map_to_list. apply list_elem_of_In. exact Hin.
  - intros [k [Hk Hst]]. split; [|exact Hst].
    exists (k, o). split; [reflexivity|].
    apply list_elem_of_In. apply elem_of_map_to_list. exact Hk.
Qed.

Lemma process_detections_stable self dets clk :
  (process_detections self dets clk).1.1 =
    stable_objects (tracked_objects (process_detections self dets clk).1.2).
Proof.
  unfold process_detections. destruct (time_time clk) as [now clk1].
  destruct (fold_left _ _ _) as [objs clk2]. reflexivity.
Qed.

(** X2: an entry that has not been seen for [timeout] at the start of a call
    (the test [now - last_seen < timeout] fails) and is not detected again in
    that call is no longer tracked after it. *)
Theorem X2_expired_entry_is_dropped
    (self : VisualTracker) (dets : list Detection) (clk : Clock) (k : string)
    (o : TrackedObject) :
  tracked_objects self !! k = Some o →
  PrimFloat.ltb (readings clk (ticks clk) - last_seen o) (timeout self) = false →
  Forall (λ det, ∀ n, det_name det = Some n →
                      skipped (confidence_threshold self) det = false →
                      PyStr.lower n ≠ k) dets →
  tracked_objects (process_detections self dets clk).1.2 !! k = None.
Proof.
  intros Hk Hold Hdets.
  rewrite process_detections_objects, (fold_ingest_other_key _ _ _ _ _ Hdets).
  simpl. rewrite prune_lookup, Hk, Hold. reflexivity.
Qed.

Lemma X2_witness :
  tracked_objects
    (process_detections (process_detections new_tracker [chair_at 2.0] (stepping_clock 3)).1.2
       [bare "Table"] (process_detections new_tracker [chair_at 2.0] (stepping_clock 3)).2).1.2
    !! "chair" = None.
Proof.
  eapply (X2_expired_entry_is_dropped
            (process_detections new_tracker [chair_at 2.0] (stepping_clock 3)).1.2
            [bare "Table"]
            (process_detections new_tracker [chair_at 2.0] (stepping_clock 3)).2 "chair").
  - vm_compute. reflexivity.
  - vm_compute. reflexivity.
  - constructor; [|constructor]. intros n Hn _. injection Hn as <-. discriminate.
Defined.

(** X3: an entry that has expired and is detected once in the same call
    starts over: it is tracked with the detection's own distance (nothing of the
    old smoothed distance is kept), a count of 1 and the stable flag off, and
    the call does not return it. *)
Theorem X3_expired_entry_starts_over
    (self : VisualTracker) (clk : Clock) (det : Detection) (n : string) (o : TrackedObject) :
  tracked_objects self !! PyStr.lower n = Some o →
  PrimFloat.ltb (readings clk (ticks clk) - last_seen o) (timeout self) = false →
  det_name det = Some n →
  skipped (confidence_threshold self) det = false →
  tracked_objects (process_detections self [det] clk).1.2 !! PyStr.lower n =
    Some (fresh_object n det (readings clk (ticks clk))) ∧
  distance (fresh_object n det (readings clk (ticks clk))) = default 0.0%float (det_distance det) ∧
  frames_detected (fresh_object n det (readings clk (ticks clk))) = 1 ∧
  ¬ In (fresh_object n det (readings clk (ticks clk))) (process_detections self [det] clk).1.1.
Proof.
  intros Hk Hold Hn Hs.
  assert (Hgone : prune (readings clk (ticks clk)) (timeout self) (tracked_objects self)
                    !! PyStr.lower n = None)
    by (rewrite prune_lookup, Hk, Hold; reflexivity).
  assert (Hobjs : tracked_objects (process_detections self [det] clk).1.2 =
                  <[PyStr.lower n := fresh_object n det (readings clk (ticks clk))]>
                    (prune (readings clk (ticks clk)) (timeout self) (tracked_objects self))).
  { rewrite process_detections_objects. simpl.
    rewrite (ingest_accepts _ _ _ _ _ _ Hn Hs), Hgone. reflexivity. }
  split; [rewrite Hobjs; apply lookup_insert_eq|].
  split; [reflexivity|]. split; [reflexivity|].
  rewrite process_detections_stable. intros Hin.
  apply stable_objects_spec in Hin as (k & _ & Hst). discriminate Hst.
Qed.

Lemma X3_witness :
  let first := process_detections new_tracker [chair_at 2.0; chair_at 2.0] (stepping_clock 3) in
  tracked_objects (process_detections first.1.2 [chair_at 1.0] first.2).1.2 !! PyStr.lower "chair" =
    Some (fresh_object "chair" (chair_at 1.0) (readings first.2 (ticks first.2))) ∧
  distance (fresh_object "chair" (chair_at 1.0) (readings first.2 (ticks first.2))) =
    default 0.0%float (det_distance (chair_at 1.0)) ∧
  frames_detected (fresh_object "chair" (chair_at 1.0) (readings first.2 (ticks first.2))) = 1 ∧
  ¬ In (fresh_object "chair" (chair_at 1.0) (readings first.2 (ticks first.2)))
       (process_detections first.1.2 [chair_at 1.0] first.2).1.1.
Proof.
  intros first.
  eapply (X3_expired_entry_starts_over first.1.2 first.2 (chair_at 1.0) "chair").
  - vm_compute. reflexivity.
  - vm_compute. reflexivity.
  - reflexivity.
  - reflexivity.
Defined.

Lemma track_frames_counted_twice frames : ∀ tr clk,
  counted_twice (tracked_objects tr) →
  counted_twice (tracked_objects (track_frames frames tr clk).1).
Proof.
  unfold track_frames.
  induction frames as [|dets frames IH]; intros tr clk H; simpl; [exact H|].
  apply IH. apply process_detections_counted_twice, H.
Qed.

(** X4: however many frames a new tracker has been fed, every object a call
    returns as stable has counted at least two accepted detections since its
    entry was created. *)
Theorem X4_stable_needs_two_detections
    (frames : list (list Detection)) (dets : list Detection) (clk : Clock) (o : TrackedObject) :
  let before := track_frames frames new_tracker clk in
  In o (process_detections before.1 dets before.2).1.1 →
  is_stable o = true ∧ 2 ≤ frames_detected o.
Proof.
  intros before Hin. rewrite process_detections_stable in Hin.
  apply stable_objects_spec in Hin as (k & Hk & Hst).
  split; [exact Hst|].
  refine (process_detections_counted_twice before.1 dets before.2 _ k o Hk Hst).
  apply track_frames_counted_twice. intros k' o' Hk'.
  change (tracked_objects new_tracker) with (∅ : gmap string TrackedObject) in Hk'.
  rewrite lookup_empty in Hk'. discriminate.
Qed.

Lemma X4_witness :
  is_stable {| name := "chair"; category := "furniture"; confidence := 90;
               raw_distance := 1; raw_direction := "ahead"; distance := 1.7;
               direction := "ahead"; last_seen := 100.2; frames_detected := 2;
               is_stable := true |} = true ∧
  2 ≤ frames_detected {| name := "chair"; category := "furniture"; confidence := 90;
                         raw_distance := 1; raw_direction := "ahead"; distance := 1.7;
                         direction := "ahead"; last_seen := 100.2; frames_detected := 2;
                         is_stable := true |}.
Proof.
  apply (X4_stable_needs_two_detections [[chair_at 2.0]] [chair_at 1.0] tenth_clock).
  vm_compute. left. reflexivity.
Defined.

(** The order of binary64 numbers as the comparison [<] sees it *)
Ltac order_cases :=
  repeat match goal with
    | H : context [Z.compare ?x ?y] |- _ => destruct (Z.compare_spec x y)
    | |- context [Z.compare ?x ?y] => destruct (Z.compare_spec x y)
    | H : context [Pos.compare ?x ?y] |- _ => destruct (Pos.compare_spec x y)
    | |- context [Pos.compare ?x ?y] => destruct (Pos.compare_spec x y)
    end.

Lemma SFcompare_lt_trans a b c :
  SFcompare a b = Some Lt → SFcompare b c = Some Lt → SFcompare a c = Some Lt.
Proof.
  destruct a as [sa|sa| |sa ma ea], b as [sb|sb| |sb mb eb], c as [sc|sc| |sc mc ec];
    simpl; try discriminate;
    try (destruct sa; try destruct sb; try destruct sc; simpl; congruence).
  all: change (Pos.compare_cont Eq) with Pos.compare.
  all: destruct sa, sb, sc; simpl; try congruence.
  all: intros H1 H2; order_cases; simpl in *; try congruence; try lia.
Qed.

Lemma SFcompare_lt_irrefl a : SFcompare a a ≠ Some Lt.
Proof.
  destruct a as [sa|sa| |sa ma ea]; simpl; try discriminate.
  - destruct sa; discriminate.
  - change (Pos.compare_cont Eq) with Pos.compare.
    rewrite Z.compare_refl, Pos.compare_refl. destruct sa; discriminate.
Qed.

Lemma float_ltb_trans x y z :
  PrimFloat.ltb x y = true → PrimFloat.ltb y z = true → PrimFloat.ltb x z = true.
Proof.
  rewrite !ltb_spec. unfold SFltb. intros H1 H2.
  destruct (SFcompare (Prim2SF x) (Prim2SF y)) as [[]|] eqn:E1; try discriminate.
  destruct (SFcompare (Prim2SF y) (Prim2SF z)) as [[]|] eqn:E2; try discriminate.
  rewrite (SFcompare_lt_trans _ _ _ E1 E2). reflexivity.
Qed.

Lemma float_ltb_irrefl x : PrimFloat.ltb x x = false.
Proof.
  rewrite ltb_spec. unfold SFltb.
  pose proof (SFcompare_lt_irrefl (Prim2SF x)) as H.
  destruct (SFcompare (Prim2SF x) (Prim2SF x)) as [[]|]; congruence.
Qed.

(** The scan behind [min]: the running best is an element seen so far, and
    nothing seen so far is closer than it. *)
Lemma closest_scan rest : ∀ best seen,
  In best seen →
  (∀ x, In x seen → PrimFloat.ltb (distance x) (distance best) = false) →
  let r := fold_left (λ best x, if PrimFloat.ltb (distance x) (distance best) then x else best)
                     rest best in
  In r (seen ++ rest)%list ∧
  ∀ x, In x (seen ++ rest)%list → PrimFloat.ltb (distance x) (distance r) = false.
Proof.
  induction rest as [|y rest IH]; intros best seen Hin Hmin; simpl.
  - rewrite app_nil_r. split; assumption.
  - replace (seen ++ y :: rest)%list with ((seen ++ [y]) ++ rest)%list
      by (rewrite <- app_assoc; reflexivity).
    destruct (PrimFloat.ltb (distance y) (distance best)) eqn:Hy.
    + apply IH.
      * apply in_or_app. right. left. reflexivity.
      * intros x Hx. apply in_app_or in Hx as [Hx | [<- | []]].
        -- destruct (PrimFloat.ltb (distance x) (distance y)) eqn:Hxy; [|reflexivity].
           rewrite <- (Hmin x Hx). symmetry. eapply float_ltb_trans; eassumption.
        -- apply float_ltb_irrefl.
    + apply IH.
      * apply in_or_app. left. exact Hin.
      * intros x Hx. apply in_app_or in Hx as [Hx | [<- | []]].
        -- apply Hmin, Hx.
        -- exact Hy.
Qed.

(** X5: [get_primary_target] answers [None] exactly on the empty list;
    otherwise it answers one of the given objects, and no given object is
    closer than it (the comparison [<] on their distances fails). *)
Theorem X5_primary_target_is_closest (stable : list TrackedObject) :
  match get_primary_target stable with
  | None => stable = []
  | Some r =>
      In r stable ∧
      ∀ x, In x stable → PrimFloat.ltb (distance x) (distance r) = false
  end.
Proof.
  destruct stable as [|o rest]; simpl; [reflexivity|].
  apply (closest_scan rest o [o]).
  - left. reflexivity.
  - intros x [<- | []]. apply float_ltb_irrefl.
Qed.

End TrackerMore.

(** ** The speech gate: interruptions, new contexts, the log *)

Section SpeechMore.

Import Speech SpeechExamples Clocks.
Local Open Scope Z_scope.

Lemma not_critical priority : priority ≠ "critical" → String.eqb priority "critical" = false.
Proof. intros H. destruct (String.eqb_spec priority "critical"); [contradiction|reflexivity]. Qed.

(** While a speech is in progress, only a higher priority that is also
    closer by more than 0.3 m gets through; critical apart. *)
Lemma speech_in_progress_holds
    (self : SpeechManager) (priority subject direction category : string)
    (distance : float) (text : string) (clk : Clock) :
  priority ≠ "critical" →
  PrimFloat.ltb (readings clk (S (ticks clk))) (current_speech_end_time self) = true →
  priority_map priority ≤ priority_map (last_priority self) ∨
    PrimFloat.ltb distance (last_distance self - 0.3) = false →
  (should_speak self priority subject direction category distance text clk).1 =
    Ok (false, "speech_in_progress").
Proof.
  intros Hp Hbusy Hno.
  unfold should_speak, is_speaking, time_time. rewrite (not_critical _ Hp).
  cbn [ticks readings]. rewrite Hbusy.
  destruct Hno as [Hrank | Hdist].
  - apply Z.ltb_ge in Hrank. rewrite Hrank. reflexivity.
  - rewrite Hdist, andb_false_r. reflexivity.
Qed.

(** X6: while a speech is in progress, a message that is not critical and
    does not outrank the last spoken priority, or whose distance is not more
    than 0.3 m below the last recorded one, is suppressed with the reason
    [speech_in_progress], whatever its subject. *)
Theorem X6_no_interruption_without_escalation
    (self : SpeechManager) (priority subject direction category : string)
    (distance : float) (text : string) (clk : Clock) :
  priority ≠ "critical" →
  PrimFloat.ltb (readings clk (S (ticks clk))) (current_speech_end_time self) = true →
  priority_map priority ≤ priority_map (last_priority self) ∨
    PrimFloat.ltb distance (last_distance self - 0.3) = false →
  (should_speak self priority subject direction category distance text clk).1 =
    Ok (false, "speech_in_progress").
Proof.
  intros Hp Hbusy Hno.
  unfold should_speak, is_speaking, time_time. rewrite (not_critical _ Hp).
  cbn [ticks readings]. rewrite Hbusy.
  destruct Hno as [Hrank | Hdist].
  - apply Z.ltb_ge in Hrank. rewrite Hrank. reflexivity.
  - rewrite Hdist, andb_false_r. reflexivity.
Qed.

Lemma X6_witness :
  (should_speak (spoke_chair_at 100) "medium" "Door" "left" "navigation" 0.5 "Door on the left"
     (stepping_clock 0.2)).1 = Ok (false, "speech_in_progress").
Proof.
  apply X6_no_interruption_without_escalation.
  - discriminate.
  - reflexivity.
  - left. vm_compute. discriminate.
Defined.

(** A message that is not critical, asked while nothing is being spoken
    and with another semantic key than the last one, is decided by
    [_check_new_context]. *)
Lemma should_speak_new_context self priority subject direction category distance text clk :
  priority ≠ "critical" →
  PrimFloat.ltb (readings clk (S (ticks clk))) (current_speech_end_time self) = false →
  Utils.extract_semantic_key subject direction category ≠ last_semantic_key self →
  (should_speak self priority subject direction category distance text clk).1 =
    Ok (_check_new_context self subject (readings clk (ticks clk))).
Proof.
  intros Hp Hquiet Hkey.
  unfold should_speak, is_speaking, time_time. rewrite (not_critical _ Hp).
  cbn [ticks readings]. rewrite Hquiet.
  destruct (String.eqb_spec (Utils.extract_semantic_key subject direction category)
              (last_semantic_key self)); [contradiction|reflexivity].
Qed.

(** X7: a new context (another semantic key than the last spoken one), not
    critical and with no speech in progress, is suppressed with
    [global_cooldown] when less than 3 s have passed since the last speech;
    after that it is suppressed with [subject_recently_announced] when its
    subject was announced less than 10 s ago, and spoken as [new_context]
    otherwise. A subject that was never announced counts as announced at
    time 0. *)
Theorem X7_new_context_cooldowns
    (self : SpeechManager) (priority subject direction category : string)
    (distance : float) (text : string) (clk : Clock) :
  priority ≠ "critical" →
  PrimFloat.ltb (readings clk (S (ticks clk))) (current_speech_end_time self) = false →
  Utils.extract_semantic_key subject direction category ≠ last_semantic_key self →
  let now := readings clk (ticks clk) in
  let announced := default 0%float (announced_subjects self !! PyStr.lower subject) in
  let answer := (should_speak self priority subject direction category distance text clk).1 in
  (PrimFloat.ltb (now - last_speech_time self) 3.0 = true →
     answer = Ok (false, "global_cooldown")) ∧
  (PrimFloat.ltb (now - last_speech_time self) 3.0 = false →
   PrimFloat.ltb (now - announced) 10.0 = true →
     answer = Ok (false, "subject_recently_announced")) ∧
  (PrimFloat.ltb (now - last_speech_time self) 3.0 = false →
   PrimFloat.ltb (now - announced) 10.0 = false →
     answer = Ok (true, "new_context")).
Proof.
  intros Hp Hquiet Hkey now announced answer. subst answer.
  rewrite (should_speak_new_context _ _ _ _ _ _ _ _ Hp Hquiet Hkey).
  unfold _check_new_context. fold now. fold announced.
  repeat split.
  - intros ->. reflexivity.
  - intros -> ->. reflexivity.
  - intros -> ->. reflexivity.
Qed.

Lemma X7_witness :
  (should_speak (spoke_chair_at 100) "medium" "Door" "left" "navigation" 3.0
     "Door on the left" (Replay.frozen_clock 102)).1 = Ok (false, "global_cooldown") ∧
  (should_speak (spoke_chair_at 100) "medium" "Chair" "left" "furniture" 3.0
     "Chair on the left" (Replay.frozen_clock 105)).1 =
    Ok (false, "subject_recently_announced") ∧
  (should_speak (spoke_chair_at 100) "medium" "Chair" "left" "furniture" 3.0
     "Chair on the left" (Replay.frozen_clock 111)).1 = Ok (true, "new_context").
Proof.
  split; [|split].
  - apply (X7_new_context_cooldowns (spoke_chair_at 100) "medium" "Door" "left" "navigation"
             3.0 "Door on the left" (Replay.frozen_clock 102));
      [discriminate | reflexivity | discriminate | reflexivity].
  - apply (X7_new_context_cooldowns (spoke_chair_at 100) "medium" "Chair" "left" "furniture"
             3.0 "Chair on the left" (Replay.frozen_clock 105));
      [discriminate | reflexivity | discriminate | reflexivity | reflexivity].
  - apply (X7_new_context_cooldowns (spoke_chair_at 100) "medium" "Chair" "left" "furniture"
             3.0 "Chair on the left" (Replay.frozen_clock 111));
      [discriminate | reflexivity | discriminate | reflexivity | reflexivity].
Defined.

(** X8: right after [record_speech], a call of [should_speak] with the same
    arguments and a priority that is not critical is suppressed with
    [speech_in_progress] as long as the clock reads less than the estimated
    end of the speech. *)
Theorem X8_recorded_speech_is_not_repeated
    (self : SpeechManager) (priority subject direction category : string)
    (distance : float) (text : string) (clk : Clock) :
  priority ≠ "critical" →
  PrimFloat.ltb (readings clk (S (S (ticks clk))))
                (readings clk (ticks clk) + estimate_speech_duration text) = true →
  let after := record_speech self text priority subject direction category distance clk in
  (should_speak after.1 priority subject direction category distance text after.2).1 =
    Ok (false, "speech_in_progress").
Proof.
  intros Hp Hbusy after.
  apply speech_in_progress_holds; [exact Hp | exact Hbusy | left].
  cbn. lia.
Qed.

Lemma X8_witness :
  let after := record_speech new_speech_manager "Chair ahead two meters" "medium" "Chair"
                 "ahead" "furniture" 2.0 tenth_clock in
  (should_speak after.1 "medium" "Chair" "ahead" "furniture" 2.0 "Chair ahead two meters"
     after.2).1 = Ok (false, "speech_in_progress").
Proof.
  apply (X8_recorded_speech_is_not_repeated new_speech_manager "medium" "Chair" "ahead"
           "furniture" 2.0 "Chair ahead two meters" tenth_clock).
  - discriminate.
  - vm_compute. reflexivity.
Defined.

Lemma push_recent_cases log text :
  push_recent log text =
    if (5 <=? List.length log)%nat then (tl log ++ [text])%list else (log ++ [text])%list.
Proof.
  unfold push_recent. rewrite length_app. simpl List.length.
  destruct (5 <=? List.length log)%nat eqn:Hfull.
  - apply Nat.leb_le in Hfull.
    destruct (5 <? List.length log + 1)%nat eqn:H; [|apply Nat.ltb_ge in H; lia].
    destruct log; [simpl in Hfull; lia | reflexivity].
  - apply Nat.leb_gt in Hfull.
    destruct (5 <? List.length log + 1)%nat eqn:H; [apply Nat.ltb_lt in H; lia | reflexivity].
Qed.

(** X9: [record_speech] keeps the log of recent speeches at five entries at
    most: the text is appended, and a log that already holds five loses its
    oldest entry; the newest entry is always the text just recorded. *)
Theorem X9_recent_speeches_bounded
    (self : SpeechManager) (text priority subject direction category : string)
    (distance : float) (clk : Clock) :
  (List.length (recent_speeches self) ≤ 5)%nat →
  let after := (record_speech self text priority subject direction category distance clk).1 in
  (List.length (recent_speeches after) ≤ 5)%nat ∧
  last (recent_speeches after) = Some text ∧
  ((List.length (recent_speeches self) < 5)%nat →
     recent_speeches after = (recent_speeches self ++ [text])%list) ∧
  (List.length (recent_speeches self) = 5%nat →
     recent_speeches after = (tl (recent_speeches self) ++ [text])%list).
Proof.
  intros Hlen after. subst after. unfold record_speech, time_time. cbn [fst recent_speeches].
  rewrite push_recent_cases.
  destruct (5 <=? List.length (recent_speeches self))%nat eqn:Hfull.
  - apply Nat.leb_le in Hfull. repeat split.
    + rewrite length_app. simpl. destruct (recent_speeches self); simpl in *; lia.
    + apply last_snoc.
    + lia.
  - apply Nat.leb_gt in Hfull. repeat split.
    + rewrite length_app. simpl. lia.
    + apply last_snoc.
    + lia.
Qed.

Lemma X9_witness :
  let log := ["one"; "two"; "three"; "four"; "five"] in
  let self := {| current_speech_end_time := 0; last_semantic_key := ""; last_speech_time := 0;
                 last_distance := 999; last_priority := "low"; announced_subjects := ∅;
                 recent_speeches := log |} in
  let after := (record_speech self "six" "low" "Door" "ahead" "navigation" 2.0 tenth_clock).1 in
  (List.length (recent_speeches after) ≤ 5)%nat ∧
  last (recent_speeches after) = Some "six" ∧
  ((List.length (recent_speeches self) < 5)%nat →
     recent_speeches after = (recent_speeches self ++ ["six"])%list) ∧
  (List.length (recent_speeches self) = 5%nat →
     recent_speeches after = (tl (recent_speeches self) ++ ["six"])%list).
Proof.
  intros log self.
  apply (X9_recent_speeches_bounded self "six" "low" "Door" "ahead" "navigation" 2.0 tenth_clock).
  simpl. lia.
Defined.

(** X10: after [record_speech] every subject still remembered was announced
    less than 60 s before the recording (the test [now - t < 60] holds for
    it); a subject whose announcement is 60 s old or older is forgotten, and
    the other subjects younger than that keep their times. *)
Theorem X10_announced_subjects_expire
    (self : SpeechManager) (text priority subject direction category : string)
    (distance : float) (clk : Clock) :
  let now := readings clk (ticks clk) in
  let after := (record_speech self text priority subject direction category distance clk).1 in
  (∀ k t, announced_subjects after !! k = Some t → PrimFloat.ltb (now - t) 60.0 = true) ∧
  (∀ k t, k ≠ PyStr.lower subject → announced_subjects self !! k = Some t →
          announced_subjects after !! k =
            if PrimFloat.ltb (now - t) 60.0 then Some t else None) ∧
  announced_subjects after !! PyStr.lower subject =
    if PrimFloat.ltb (now - now) 60.0 then Some now else None.
Proof.
  intros now after. subst after. unfold record_speech, time_time.
  cbn [fst announced_subjects]. fold now.
  assert (Hlook : ∀ (m : gmap string float) k,
             filter (λ kv : string * float, PrimFloat.ltb (now - kv.2) 60.0 = true) m !! k =
             match m !! k with
             | Some t => if PrimFloat.ltb (now - t) 60.0 then Some t else None
             | None => None
             end).
  { intros m k. destruct (m !! k) as [t|] eqn:Hk.
    - destruct (PrimFloat.ltb (now - t) 60.0) eqn:Ht.
      + apply map_lookup_filter_Some. split; [exact Hk | exact Ht].
      + apply map_lookup_filter_None. right. intros t' Hk'. simpl.
        rewrite Hk in Hk'. injection Hk' as <-. rewrite Ht. discriminate.
    - apply map_lookup_filter_None. left. exact Hk. }
  split; [|split].
  - intros k t Hk. apply map_lookup_filter_Some in Hk as [_ Ht]. exact Ht.
  - intros k t Hne Hk. rewrite Hlook, lookup_insert_ne by congruence. rewrite Hk. reflexivity.
  - rewrite Hlook, lookup_insert_eq. reflexivity.
Qed.

End SpeechMore.

(** ** The persistent memory store: what gets in, what comes back *)

Section MemoryMore.

Import Memory MemoryExamples MemoryQueries Clocks.

(** A call leaves the history as it is or appends its entry, and keeps a
    suffix of the result. *)
Lemma log_object_suffix mem name loc scn clk :
  refused_name name = false →
  entries (log_object mem name loc scn clk).1 = entries mem ∨
  ∃ n, entries (log_object mem name loc scn clk).1 =
         drop n (entries mem ++ [{| object := name; location := loc; scene := scn;
                                    timestamp := readings clk (ticks clk) |}])%list.
Proof.
  intros Hr. rewrite (log_object_cases _ _ _ _ _ Hr).
  set (appended := (entries mem ++ _)%list).
  assert (Happ : ∃ n, (if (1000 <? List.length appended)%nat
                       then PyList.last_n 1000 appended else appended) = drop n appended).
  { destruct (1000 <? List.length appended)%nat.
    - eexists. reflexivity.
    - exists 0%nat. reflexivity. }
  destruct (last (entries mem)) as [l|]; [|right; exact Happ].
  destruct (_ && _)%bool; [left; reflexivity | right; exact Happ].
Qed.

Lemma log_object_keeps_accepted mem name loc scn clk :
  Forall (λ e, refused_name (object e) = false) (entries mem) →
  Forall (λ e, refused_name (object e) = false) (entries (log_object mem name loc scn clk).1).
Proof.
  intros Hall. destruct (refused_name name) eqn:Hr.
  - rewrite (log_object_refused _ _ _ _ _ Hr). exact Hall.
  - destruct (log_object_suffix mem name loc scn clk Hr) as [-> | [n ->]]; [exact Hall|].
    apply Forall_drop. apply Forall_app. split; [exact Hall|].
    constructor; [exact Hr | constructor].
Qed.

(** X11: the history never holds an entry for an empty name or for the names
    ["none"], ["unknown"] and ["null"] in any letter case: a history free of
    them stays free of them through any sequence of [log_object] calls. *)
Theorem X11_refused_names_stay_out
    (calls : list LogCall) (mem : PersistentMemory) (clk : Clock) :
  Forall (λ e, refused_name (object e) = false) (entries mem) →
  Forall (λ e, object e ≠ "" ∧
               PyStr.lower (object e) ≠ "none" ∧
               PyStr.lower (object e) ≠ "unknown" ∧
               PyStr.lower (object e) ≠ "null")
         (entries (log_all calls mem clk).1).
Proof.
  intros Hall.
  assert (Hinv : Forall (λ e, refused_name (object e) = false)
                        (entries (log_all calls mem clk).1)).
  { unfold log_all. revert mem clk Hall.
    induction calls as [|c calls IH]; intros mem clk Hall; simpl; [exact Hall|].
    unfold log_call at 2. simpl.
    destruct (log_object mem (call_object c) (call_location c) (call_scene c) clk)
      as [mem' clk'] eqn:Hstep.
    apply IH. change mem' with (mem', clk').1. rewrite <- Hstep.
    apply log_object_keeps_accepted, Hall. }
  eapply Forall_impl; [exact Hinv|].
  intros e He. unfold refused_name, PyStr.mem in He. simpl in He.
  apply orb_false_iff in He as [H0 He].
  apply orb_false_iff in He as [H1 He].
  apply orb_false_iff in He as [H2 He].
  apply orb_false_iff in He as [H3 _].
  repeat split.
  - intros E. rewrite E in H0. discriminate.
  - intros E. rewrite E in H1. discriminate.
  - intros E. rewrite E in H2. discriminate.
  - intros E. rewrite E in H3. discriminate.
Qed.

Lemma X11_witness :
  Forall (λ e, object e ≠ "" ∧
               PyStr.lower (object e) ≠ "none" ∧
               PyStr.lower (object e) ≠ "unknown" ∧
               PyStr.lower (object e) ≠ "null")
         (entries (log_all [saw "chair"; saw "None"; saw ""; saw "UNKNOWN"; saw "table"]
                     empty_memory (stepping_clock 1)).1).
Proof.
  apply (X11_refused_names_stay_out
           [saw "chair"; saw "None"; saw ""; saw "UNKNOWN"; saw "table"]
           empty_memory (stepping_clock 1)).
  constructor.
Defined.

(** X12: a location tagged with [add_location] is what [get_locations]
    returns under its name, with the description given and the time of the
    call, also when the loaded file had no locations; a later tag of the same
    name replaces it; the other locations and the history are left alone. *)
Theorem X12_tagged_location_is_found :
  (∀ mem name description clk,
      get_locations (add_location mem name description clk).1 !! name =
        Some {| description := description; loc_timestamp := readings clk (ticks clk) |}) ∧
  (∀ mem name description clk other,
      other ≠ name →
      get_locations (add_location mem name description clk).1 !! other =
        get_locations mem !! other) ∧
  (∀ mem name first second clk,
      let once := add_location mem name first clk in
      description <$> (get_locations (add_location once.1 name second once.2).1 !! name) =
        Some second) ∧
  (∀ mem name description clk,
      history (add_location mem name description clk).1 = history mem).
Proof.
  repeat split.
  - intros. unfold add_location, get_locations, time_time. simpl. apply lookup_insert_eq.
  - intros mem name description clk other Hne.
    unfold add_location, get_locations, time_time. simpl.
    rewrite lookup_insert_ne by congruence. reflexivity.
  - intros mem name first second clk once.
    unfold add_location, get_locations, time_time. simpl.
    rewrite lookup_insert_eq. reflexivity.
Qed.

End MemoryMore.

(** ** Voice inquiries: what each command does *)

Section InquiryMore.

Import Models World Processor TaskExamples Notions Inquiries.
Local Open Scope Z_scope.

(** An inquiry that carries an image and audio, on a task whose index is not
    negative, and whose two runs of the intent handler return: the world after
    the second run, then the inquiry result and the speech are sent; the
    speech is the handler's when it returned one. *)
Lemma process_inquiry_two_calls (w w1 w2 : World) (data : InquiryData) (result : IntentReply)
    (r1 r2 : option string) :
  truthy (inq_image data) = true →
  truthy (inq_audio data) = true →
  0 ≤ current_step_index (task_state (session w)) →
  _handle_intent (default "info" (i_intent result)) result w = (Ok r1, w1) →
  _handle_intent (default "info" (i_intent result)) result w1 = (Ok r2, w2) →
  process_inquiry data (GwReply result) w =
    (Ok tt,
     (safe_send_json
        (Speak (if truthy r2 then default "" r2
                else default "I didn't catch that." (i_speech result)))
        (safe_send_json
           (InquiryResult (default "" (i_thinking result)) (current_goal (session w2))
              (mode (session w2)) (is_active (task_state (session w2)))) w2).2).2).
Proof.
  intros Himg Haud Hidx E1 E2.
  unfold process_inquiry. rewrite Himg, Haud. cbn [negb orb].
  unfold try_except, bind at 1. unfold bind at 1. unfold get at 1.
  assert (Hprompt :
    (if (is_active (task_state (session w))
         && (current_step_index (task_state (session w))
             <? Z.of_nat (List.length (plan (task_state (session w))))))%bool
     then bind (lift (PyList.getitem (plan (task_state (session w)))
                        (current_step_index (task_state (session w))))) (λ _, ret tt)
     else ret tt) w = (Ok tt, w)).
  { destruct (is_active (task_state (session w))); [|reflexivity]. cbn [andb].
    destruct (Z.ltb_spec (current_step_index (task_state (session w)))
                (Z.of_nat (List.length (plan (task_state (session w)))))) as [Hlt|];
      [|reflexivity].
    destruct (lookup_lt_is_Some_2 (plan (task_state (session w)))
                (Z.to_nat (current_step_index (task_state (session w)))))
      as [step Hstep]; [lia|].
    unfold bind, lift. rewrite (getitem_lookup _ _ _ Hidx Hstep). reflexivity. }
  rewrite Hprompt.
  unfold bind at 1. unfold ask, ret at 1.
  unfold bind at 1. rewrite E1.
  unfold bind at 1. rewrite E2.
  unfold bind at 1. unfold get at 1. unfold bind at 1.
  reflexivity.
Qed.

Lemma handle_intent_stop (result : IntentReply) (w : World) :
  _handle_intent "stop" result w =
    (Ok (Some "Stopping all tasks and searches."),
     {| session := with_task_state new_task_state
                     (with_micro_target None (with_goal None (with_mode "nav" (session w))));
        global_task_state := deactivate (global_task_state w);
        memory_store := memory_store w; sent := sent w; log := log w; clock := clock w;
        planner := planner w; planner_calls := planner_calls w |}).
Proof. reflexivity. Qed.

(** X13: a voice inquiry classified as [stop], in a session whose step
    index is not negative, puts the session in navigation mode with no search
    goal, no micro target and no task, marks the durable task inactive, and
    answers "Stopping all tasks and searches.". *)
Theorem X13_stop_clears_everything
    (w : World) (data : InquiryData) (result : IntentReply) :
  truthy (inq_image data) = true →
  truthy (inq_audio data) = true →
  0 ≤ current_step_index (task_state (session w)) →
  i_intent result = Some "stop" →
  let w' := (process_inquiry data (GwReply result) w).2 in
  mode (session w') = "nav" ∧
  current_goal (session w') = None ∧
  micro_target (session w') = None ∧
  task_state (session w') = new_task_state ∧
  g_is_active (global_task_state w') = false ∧
  sent w' = (sent w ++ [InquiryResult (default "" (i_thinking result)) None "nav" false;
                        Speak "Stopping all tasks and searches."])%list.
Proof.
  intros Himg Haud Hidx Hintent w'. subst w'.
  erewrite (process_inquiry_two_calls w _ _ data result _ _ Himg Haud Hidx).
  2: { rewrite Hintent. apply handle_intent_stop. }
  2: { rewrite Hintent. apply handle_intent_stop. }
  cbn. rewrite <- app_assoc. repeat split.
Qed.

Lemma X13_witness :
  let w' := (process_inquiry voice (GwReply (reply "stop")) coffee_world).2 in
  mode (session w') = "nav" ∧
  current_goal (session w') = None ∧
  micro_target (session w') = None ∧
  task_state (session w') = new_task_state ∧
  g_is_active (global_task_state w') = false ∧
  sent w' = [InquiryResult "" None "nav" false; Speak "Stopping all tasks and searches."].
Proof.
  apply (X13_stop_clears_everything coffee_world voice (reply "stop"));
    [reflexivity | reflexivity | simpl; lia | reflexivity].
Defined.

Lemma handle_intent_search (result : IntentReply) (w : World) (g : string) :
  named_goal result = Some g → g ≠ "" →
  _handle_intent "search" result w =
    (Ok (Some ("Okay, searching for " ++ g ++ ".")),
     {| session := with_goal (Some g) (with_mode "nav" (session w));
        global_task_state := global_task_state w;
        memory_store := memory_store w; sent := sent w; log := log w; clock := clock w;
        planner := planner w; planner_calls := planner_calls w |}).
Proof.
  intros Hg Hne. unfold named_goal in Hg.
  unfold _handle_intent. cbn [String.eqb Ascii.eqb Bool.eqb andb].
  cbv zeta. unfold bind at 1. unfold modify_session at 1. unfold bind at 1.
  cbn [get set_session fst snd].
  rewrite Hg. unfold truthy at 1.
  destruct (String.eqb_spec g ""); [contradiction|]. cbn [negb].
  reflexivity.
Qed.

(** X14: a voice inquiry classified as [search] that names a goal (in
    [search_target], or else in [goal]), in a session whose step index is not
    negative, puts the session in navigation mode, sets the search goal,
    leaves the task as it is and answers "Okay, searching for <goal>.". *)
Theorem X14_search_sets_goal
    (w : World) (data : InquiryData) (result : IntentReply) (g : string) :
  truthy (inq_image data) = true →
  truthy (inq_audio data) = true →
  0 ≤ current_step_index (task_state (session w)) →
  i_intent result = Some "search" →
  named_goal result = Some g →
  g ≠ "" →
  let w' := (process_inquiry data (GwReply result) w).2 in
  mode (session w') = "nav" ∧
  current_goal (session w') = Some g ∧
  task_state (session w') = task_state (session w) ∧
  sent w' = (sent w ++ [InquiryResult (default "" (i_thinking result)) (Some g) "nav"
                          (is_active (task_state (session w)));
                        Speak ("Okay, searching for " ++ g ++ ".")])%list.
Proof.
  intros Himg Haud Hidx Hintent Hg Hne w'. subst w'.
  erewrite (process_inquiry_two_calls w _ _ data result _ _ Himg Haud Hidx).
  2: { rewrite Hintent. apply (handle_intent_search result w g Hg Hne). }
  2: { rewrite Hintent. apply (handle_intent_search result _ g Hg Hne). }
  cbn. rewrite <- app_assoc.
  destruct (String.eqb_spec ("Okay, searching for " ++ g ++ ".") ""); [discriminate|].
  repeat split.
Qed.

Lemma X14_witness :
  let w' := (process_inquiry voice (GwReply (search_reply None (Some "exit"))) coffee_world).2 in
  mode (session w') = "nav" ∧
  current_goal (session w') = Some "exit" ∧
  task_state (session w') = task_state (session coffee_world) ∧
  sent w' = [InquiryResult "" (Some "exit") "nav" true; Speak "Okay, searching for exit."].
Proof.
  apply (X14_search_sets_goal coffee_world voice (search_reply None (Some "exit")) "exit");
    [reflexivity | reflexivity | simpl; lia | reflexivity | reflexivity | discriminate].
Defined.

Lemma handle_intent_micro_nav (result : IntentReply) (w : World) (t : string) :
  i_target result = Some t → t ≠ "" →
  _handle_intent "micro_nav" result w =
    (Ok (Some ("Guiding you to the " ++ t ++ ". Hold steady.")),
     {| session := with_micro_target (Some t) (with_mode "micro" (session w));
        global_task_state := global_task_state w;
        memory_store := memory_store w; sent := sent w; log := log w; clock := clock w;
        planner := planner w; planner_calls := planner_calls w |}).
Proof.
  intros Ht Hne. unfold _handle_intent. cbn [String.eqb Ascii.eqb Bool.eqb andb].
  rewrite Ht. destruct (String.eqb_spec t ""); [contradiction|]. reflexivity.
Qed.

(** X15: a voice inquiry classified as [micro_nav] that names a target, in
    a session whose step index is not negative, switches the session to micro
    guidance on that target, leaves the search goal and the task as they are,
    and answers "Guiding you to the <target>. Hold steady."; without a target
    the session is not changed and the gateway's own speech is spoken. *)
Theorem X15_micro_nav_sets_target
    (w : World) (data : InquiryData) (result : IntentReply) :
  truthy (inq_image data) = true →
  truthy (inq_audio data) = true →
  0 ≤ current_step_index (task_state (session w)) →
  i_intent result = Some "micro_nav" →
  let w' := (process_inquiry data (GwReply result) w).2 in
  (∀ t, i_target result = Some t → t ≠ "" →
     mode (session w') = "micro" ∧
     micro_target (session w') = Some t ∧
     current_goal (session w') = current_goal (session w) ∧
     task_state (session w') = task_state (session w) ∧
     sent w' = (sent w ++ [InquiryResult (default "" (i_thinking result))
                             (current_goal (session w)) "micro"
                             (is_active (task_state (session w)));
                           Speak ("Guiding you to the " ++ t ++ ". Hold steady.")])%list) ∧
  (truthy (i_target result) = false →
     session w' = session w ∧
     sent w' = (sent w ++ [InquiryResult (default "" (i_thinking result))
                             (current_goal (session w)) (mode (session w))
                             (is_active (task_state (session w)));
                           Speak (default "I didn't catch that." (i_speech result))])%list).
Proof.
  intros Himg Haud Hidx Hintent w'. subst w'. split.
  - intros t Ht Hne.
    erewrite (process_inquiry_two_calls w _ _ data result _ _ Himg Haud Hidx).
    2: { rewrite Hintent. apply (handle_intent_micro_nav result w t Ht Hne). }
    2: { rewrite Hintent. apply (handle_intent_micro_nav result _ t Ht Hne). }
    cbn. rewrite <- app_assoc. repeat split.
  - intros Hno.
    assert (Hcall : ∀ w0, _handle_intent "micro_nav" result w0 = (Ok None, w0)).
    { intros w0. unfold _handle_intent. cbn [String.eqb Ascii.eqb Bool.eqb andb].
      unfold truthy in Hno. destruct (i_target result) as [t|]; [|reflexivity].
      destruct (String.eqb t ""); [reflexivity|discriminate]. }
    erewrite (process_inquiry_two_calls w _ _ data result _ _ Himg Haud Hidx).
    2: { rewrite Hintent. apply Hcall. }
    2: { rewrite Hintent. apply Hcall. }
    cbn. rewrite <- app_assoc. destruct w as [s ? ? ? ? ? ? ?]. split; reflexivity.
Qed.

Lemma X15_witness :
  let w' := (process_inquiry voice (GwReply (micro_nav_reply "mug")) coffee_world).2 in
  (∀ t, Some "mug" = Some t → t ≠ "" →
     mode (session w') = "micro" ∧
     micro_target (session w') = Some t ∧
     current_goal (session w') = None ∧
     task_state (session w') = task_state (session coffee_world) ∧
     sent w' = [InquiryResult "" None "micro" true;
                Speak ("Guiding you to the " ++ t ++ ". Hold steady.")]) ∧
  (true = false →
     session w' = session coffee_world ∧
     sent w' = [InquiryResult "" None "task" true; Speak "Okay."]).
Proof.
  apply (X15_micro_nav_sets_target coffee_world voice (micro_nav_reply "mug"));
    [reflexivity | reflexivity | simpl; lia | reflexivity].
Defined.


End InquiryMore.

(** ** Task commands: one call of [_handle_task_control] *)

Section TaskControlMore.

Import Models World Processor TaskExamples Notions TaskNotions FrameExamples.
Local Open Scope Z_scope.

Lemma task_control_previous (w : World) (step : TaskStep) :
  let ts := task_state (session w) in
  is_active ts = true →
  0 < current_step_index ts →
  plan ts !! Z.to_nat (current_step_index ts - 1) = Some step →
  _handle_task_control "task_previous" w =
    (Ok ("Back to: " ++ instruction step),
     synced w (with_task_state
                 {| is_active := true;
                    plan := <[Z.to_nat (current_step_index ts - 1) :=
                                set_completed false step]> (plan ts);
                    current_step_index := current_step_index ts - 1;
                    waiting_for_user := waiting_for_user ts |} (session w))).
Proof.
  intros ts Hact Hidx Hstep. subst ts.
  assert (Hlen : Nat.eqb (List.length (plan (task_state (session w)))) 0 = false).
  { apply Nat.eqb_neq. apply lookup_lt_Some in Hstep. lia. }
  unfold _handle_task_control, bind, get.
  rewrite Hact, Hlen. cbn [negb orb String.eqb Ascii.eqb Bool.eqb andb].
  apply Z.ltb_lt in Hidx as Hpos. rewrite Hpos.
  unfold put_task_state, modify_session, bind, get, set_session, lift. cbn [session fst snd].
  rewrite (getitem_lookup _ _ step) by (lia || exact Hstep).
  rewrite (setitem_lookup _ _ _ step) by (lia || exact Hstep).
  cbn. unfold time_time. cbn. reflexivity.
Qed.

(** X16: [task_previous] on an active task past its first step moves the
    index back by one, marks the step it returns to as not completed, answers
    "Back to: <instruction>", copies the task to the durable state and sends
    one [task_update]; the mode and the search goal are left alone. *)
Theorem X16_previous_goes_back_one (w : World) (step : TaskStep) :
  let ts := task_state (session w) in
  let i := current_step_index ts in
  is_active ts = true →
  0 < i →
  plan ts !! Z.to_nat (i - 1) = Some step →
  let r := _handle_task_control "task_previous" w in
  let ts' := task_state (session r.2) in
  r.1 = Ok ("Back to: " ++ instruction step) ∧
  current_step_index ts' = i - 1 ∧
  plan ts' = <[Z.to_nat (i - 1) := set_completed false step]> (plan ts) ∧
  is_active ts' = true ∧
  mode (session r.2) = mode (session w) ∧
  current_goal (session r.2) = current_goal (session w) ∧
  g_current_step_index (global_task_state r.2) = i - 1 ∧
  g_plan (global_task_state r.2) = plan ts' ∧
  g_is_active (global_task_state r.2) = true ∧
  sent r.2 = (sent w ++ [TaskUpdate (plan ts') (i - 1) false None])%list.
Proof.
  intros ts i Hact Hidx Hstep r ts'. subst r ts' i ts.
  rewrite (task_control_previous w step Hact Hidx Hstep).
  cbn. repeat split.
Qed.

Lemma X16_witness :
  let r := _handle_task_control "task_previous" (coffee_at 2) in
  let ts' := task_state (session r.2) in
  r.1 = Ok "Back to: Pour the water" ∧
  current_step_index ts' = 1 ∧
  plan ts' = coffee_plan ∧
  is_active ts' = true ∧
  mode (session r.2) = "task" ∧
  current_goal (session r.2) = None ∧
  g_current_step_index (global_task_state r.2) = 1 ∧
  g_plan (global_task_state r.2) = plan ts' ∧
  g_is_active (global_task_state r.2) = true ∧
  sent r.2 = [TaskUpdate (plan ts') 1 false None].
Proof.
  apply (X16_previous_goes_back_one (coffee_at 2)
           {| step_id := 2; instruction := "Pour the water"; items := ["kettle"];
              completed := false |});
    [reflexivity | simpl; lia | reflexivity].
Defined.

(** X17: [task_previous] on an active task whose index is not past its
    first step answers "Already at start." and leaves the session as it is;
    the durable state is refreshed from the unchanged task and a
    [task_update] is sent. *)
Theorem X17_previous_at_start (w : World) :
  let ts := task_state (session w) in
  is_active ts = true →
  plan ts ≠ [] →
  current_step_index ts ≤ 0 →
  _handle_task_control "task_previous" w = (Ok "Already at start.", synced w (session w)).
Proof.
  intros ts Hact Hplan Hidx. subst ts.
  assert (Hlen : Nat.eqb (List.length (plan (task_state (session w)))) 0 = false).
  { apply Nat.eqb_neq. destruct (plan (task_state (session w))); [contradiction|].
    discriminate. }
  unfold _handle_task_control, bind, get.
  rewrite Hact, Hlen. cbn [negb orb String.eqb Ascii.eqb Bool.eqb andb].
  assert (Hpos : (0 <? current_step_index (task_state (session w))) = false)
    by (apply Z.ltb_ge; lia).
  rewrite Hpos. cbn. unfold time_time. cbn. reflexivity.
Qed.

Lemma X17_witness :
  _handle_task_control "task_previous" coffee_world =
    (Ok "Already at start.", synced coffee_world (session coffee_world)).
Proof.
  apply (X17_previous_at_start coffee_world); [reflexivity | discriminate | simpl; lia].
Defined.



(** X19: [task_skip] or [task_done] on the last step of an active task
    marks the step completed, answers "Task completed.", deactivates the
    task, puts the session back in navigation mode and leaves the durable
    state inactive; the index then equals the length of the plan. *)
Theorem X19_last_step_completes_task (w : World) (intent : string) (step : TaskStep) :
  let ts := task_state (session w) in
  let i := current_step_index ts in
  intent = "task_skip" ∨ intent = "task_done" →
  is_active ts = true →
  0 ≤ i →
  plan ts !! Z.to_nat i = Some step →
  Z.of_nat (List.length (plan ts)) = i + 1 →
  _handle_task_control intent w =
    (Ok "Task completed.",
     synced w (with_mode "nav"
                 (with_task_state
                    {| is_active := false;
                       plan := <[Z.to_nat i := set_completed true step]> (plan ts);
                       current_step_index := Z.of_nat (List.length (plan ts));
                       waiting_for_user := waiting_for_user ts |} (session w)))).
Proof.
  intros ts i Hintent Hact Hidx Hstep Hlast. subst i ts.
  assert (Hlen : Nat.eqb (List.length (plan (task_state (session w)))) 0 = false).
  { apply Nat.eqb_neq. lia. }
  assert (Hi : (String.eqb intent "task_skip" || String.eqb intent "task_done")%bool = true).
  { destruct Hintent as [-> | ->]; reflexivity. }
  assert (Hdone : (Z.of_nat (List.length
                     (<[Z.to_nat (current_step_index (task_state (session w))) :=
                         set_completed true step]> (plan (task_state (session w)))))
                   <=? current_step_index (task_state (session w)) + 1) = true).
  { apply Z.leb_le. rewrite length_insert. lia. }
  unfold _handle_task_control, bind, get.
  rewrite Hact, Hlen. cbn [negb orb]. rewrite Hi. unfold lift.
  rewrite (getitem_lookup _ _ _ Hidx Hstep), (setitem_lookup _ _ _ _ Hidx Hstep).
  unfold put_task_state, modify_session, bind, get, set_session. cbn [session fst snd].
  rewrite Hdone. rewrite Hlast.
  cbn. unfold time_time. cbn. reflexivity.
Qed.

Lemma X19_witness :
  _handle_task_control "task_done" (coffee_at 2) =
    (Ok "Task completed.",
     synced (coffee_at 2)
       (with_mode "nav"
          (with_task_state
             {| is_active := false;
                plan := <[2%nat := {| step_id := 3; instruction := "Add the coffee";
                                      items := ["coffee"]; completed := true |}]> coffee_plan;
                current_step_index := 3;
                waiting_for_user := false |} (session (coffee_at 2))))).
Proof.
  apply (X19_last_step_completes_task (coffee_at 2) "task_done"
           {| step_id := 3; instruction := "Add the coffee"; items := ["coffee"];
              completed := false |});
    [right; reflexivity | reflexivity | simpl; lia | reflexivity | reflexivity].
Defined.

(** X20: with no active task, or an empty plan, every task command answers
    "No active task to control." and changes nothing: no step is touched, the
    durable state is not refreshed and no [task_update] is sent. *)
Theorem X20_no_task_no_effect (w : World) (intent : string) :
  is_active (task_state (session w)) = false ∨ plan (task_state (session w)) = [] →
  _handle_task_control intent w = (Ok "No active task to control.", w).
Proof.
  intros Hno. unfold _handle_task_control, bind, get.
  destruct Hno as [-> | ->]; [reflexivity|].
  cbn [List.length Nat.eqb]. rewrite orb_true_r. reflexivity.
Qed.

Lemma X20_witness :
  _handle_task_control "task_skip" (world_at (coffee_saved_at 1000) 1010) =
    (Ok "No active task to control.", world_at (coffee_saved_at 1000) 1010).
Proof.
  apply (X20_no_task_no_effect (world_at (coffee_saved_at 1000) 1010) "task_skip").
  left. reflexivity.
Defined.

(** X21: [task_repeat] and [task_status] read the task without changing
    it: the first answers with the instruction of the current step, the
    second with "Step <index + 1> of <length>."; a command the handler does
    not know, [task_resume], answers "Unknown task command.". In each case
    the session is unchanged, the durable state is refreshed and one
    [task_update] is sent. *)
Theorem X21_repeat_and_status_read_only (w : World) (step : TaskStep) :
  let ts := task_state (session w) in
  let i := current_step_index ts in
  is_active ts = true →
  0 ≤ i →
  plan ts !! Z.to_nat i = Some step →
  _handle_task_control "task_repeat" w =
    (Ok ("Current step: " ++ instruction step), synced w (session w)) ∧
  _handle_task_control "task_status" w =
    (Ok ("Step " ++ PyStr.of_Z (i + 1) ++ " of "
           ++ PyStr.of_Z (Z.of_nat (List.length (plan ts))) ++ "."),
     synced w (session w)) ∧
  _handle_task_control "task_resume" w = (Ok "Unknown task command.", synced w (session w)).
Proof.
  intros ts i Hact Hidx Hstep. subst i ts.
  assert (Hlen : Nat.eqb (List.length (plan (task_state (session w)))) 0 = false).
  { apply Nat.eqb_neq. apply lookup_lt_Some in Hstep. lia. }
  repeat split.
  - unfold _handle_task_control, bind, get.
    rewrite Hact, Hlen. cbn [negb orb String.eqb Ascii.eqb Bool.eqb andb]. unfold lift.
    rewrite (getitem_lookup _ _ _ Hidx Hstep).
    cbn. unfold time_time. cbn. reflexivity.
  - unfold _handle_task_control, bind, get.
    rewrite Hact, Hlen. cbn [negb orb String.eqb Ascii.eqb Bool.eqb andb].
    cbn. unfold time_time. cbn. reflexivity.
  - unfold _handle_task_control, bind, get.
    rewrite Hact, Hlen. cbn [negb orb String.eqb Ascii.eqb Bool.eqb andb].
    cbn. unfold time_time. cbn. reflexivity.
Qed.

Lemma X21_witness :
  _handle_task_control "task_repeat" coffee_world =
    (Ok "Current step: Find the mug", synced coffee_world (session coffee_world)) ∧
  _handle_task_control "task_status" coffee_world =
    (Ok "Step 1 of 3.", synced coffee_world (session coffee_world)) ∧
  _handle_task_control "task_resume" coffee_world =
    (Ok "Unknown task command.", synced coffee_world (session coffee_world)).
Proof.
  apply (X21_repeat_and_status_read_only coffee_world
           {| step_id := 1; instruction := "Find the mug"; items := ["mug"];
              completed := false |});
    [reflexivity | simpl; lia | reflexivity].
Defined.

End TaskControlMore.

(** ** The ingestion loop: the flag and the event *)

Section LoopMore.

Import Models World Processor Websocket Notions LoopExamples LoopNotions.
Local Open Scope Z_scope.

Lemma keeps_mailbox_flag {A : Type} (m : M A) w :
  keeps mailbox m → is_processing (session (m w).2) = is_processing (session w).
Proof. intros Hm. specialize (Hm w). unfold mailbox in Hm. congruence. Qed.

Lemma keeps_mailbox_frame {A : Type} (m : M A) w :
  keeps mailbox m → latest_frame (session (m w).2) = latest_frame (session w).
Proof. intros Hm. specialize (Hm w). unfold mailbox in Hm. congruence. Qed.

Lemma step_flag_and_signal s l s' :
  flag_matches s → signalled s → step s l = Some s' → flag_matches s' ∧ signalled s'.
Proof.
  unfold flag_matches, signalled, in_flight.
  intros Hflag Hsig Hstep. destruct l; cbn -[teardown] in Hstep.
  - (* Submit *)
    injection Hstep as <-. unfold submit. cbn.
    destruct (is_processing (session (world s))) eqn:Hp; cbn.
    + split; [exact Hflag|]. intros Hc. rewrite Hc in Hflag. discriminate.
    + split; [exact Hflag|]. reflexivity.
  - (* Inquiry *)
    pose proof (keeps_mailbox_flag (inquiry data gw) (world s)
                  (inquiry_keeps_mailbox data gw)) as Hkp.
    pose proof (keeps_mailbox_frame (inquiry data gw) (world s)
                  (inquiry_keeps_mailbox data gw)) as Hkf.
    destruct (inquiry data gw (world s)) as [[u|e] w]; [|discriminate].
    injection Hstep as <-. cbn in *. rewrite Hkp, Hkf. split; assumption.
  - (* Wake *)
    destruct (consumer s) eqn:Hc; try discriminate.
    destruct (frame_event s); [|discriminate].
    destruct (latest_frame (session (world s))) as [f0|] eqn:Hl.
    + rewrite Hflag in Hstep. cbn in Hstep. injection Hstep as <-. cbn.
      split; [reflexivity|discriminate].
    + injection Hstep as <-. cbn. rewrite ?Hc in *.
      split; [exact Hflag|]. intros _ Hne. rewrite Hl in Hne. contradiction.
  - (* Handled *)
    destruct (consumer s) as [|h f0|]; try discriminate.
    destruct (env_matches h env); [|discriminate].
    destruct (run_handler f0 env (world s)) as [[u|e] w]; cbn in Hstep;
      injection Hstep as <-; cbn; (split; [reflexivity|]);
      intros _ Hne; destruct (latest_frame (session w)); congruence.
  - (* Cancel *)
    pose proof (keeps_mailbox_flag teardown (world s) teardown_keeps_mailbox) as Hkp.
    destruct (consumer s); try discriminate; cbn -[teardown] in Hstep;
      injection Hstep as <-; cbn -[teardown].
    + split; [congruence|discriminate].
    + split; [reflexivity|discriminate].
Qed.

Lemma run_flag_and_signal ls : ∀ s s',
  flag_matches s → signalled s → run s ls = Some s' → flag_matches s' ∧ signalled s'.
Proof.
  induction ls as [|l ls IH]; intros s s' Hflag Hsig Hrun; simpl in Hrun.
  - injection Hrun as <-. split; assumption.
  - destruct (step s l) as [s1|] eqn:Hstep; [|discriminate].
    destruct (step_flag_and_signal s l s1 Hflag Hsig Hstep) as [Hflag1 Hsig1].
    exact (IH s1 s' Hflag1 Hsig1 Hrun).
Qed.

Lemma connected_flag_and_signal w s :
  connected w = Some s → flag_matches s ∧ signalled s.
Proof.
  intros Hc. pose proof (connected_mailbox w s Hc) as Hm.
  unfold connected in Hc. destruct (on_connect w) as [[u|e] w']; [|discriminate].
  injection Hc as <-. unfold mailbox in Hm. cbn in Hm. injection Hm as Hl Hp.
  unfold flag_matches, signalled, in_flight. cbn. split; [exact Hp|].
  intros _ Hne. contradiction.
Qed.

(** X23: in every run of a session from its connection, the processing
    flag is set exactly while the consumer is inside a handler; so a frame
    that arrives is counted as skipped exactly when a handler is running,
    and it is stored as the pending frame either way. *)
Theorem X23_flag_set_exactly_while_dispatching
    (w0 : World) (s0 s : Session) (ls : list Label) :
  connected w0 = Some s0 →
  run s0 ls = Some s →
  is_processing (session (world s)) = in_flight s ∧
  ∀ bytes,
    let s' := submit bytes s in
    frames_skipped (session (world s')) =
      frames_skipped (session (world s)) + (if in_flight s then 1 else 0) ∧
    latest_frame (session (world s')) = Some (frame_payload bytes) ∧
    is_processing (session (world s')) = in_flight s'.
Proof.
  intros Hconn Hrun.
  destruct (connected_flag_and_signal w0 s0 Hconn) as [Hflag0 Hsig0].
  destruct (run_flag_and_signal ls s0 s Hflag0 Hsig0 Hrun) as [Hflag _].
  unfold flag_matches in Hflag. split; [exact Hflag|].
  intros bytes s'. subst s'. unfold submit, in_flight in *. cbn.
  rewrite <- Hflag.
  destruct (is_processing (session (world s))) eqn:Hp; cbn;
    rewrite <- ?Hflag; repeat split; lia.
Qed.

Lemma X23_witness :
  is_processing (session (world before_claim)) = in_flight before_claim ∧
  ∀ bytes,
    let s' := submit bytes before_claim in
    frames_skipped (session (world s')) =
      frames_skipped (session (world before_claim))
        + (if in_flight before_claim then 1 else 0) ∧
    latest_frame (session (world s')) = Some (frame_payload bytes) ∧
    is_processing (session (world s')) = in_flight s'.
Proof.
  apply (X23_flag_set_exactly_while_dispatching quiet_world fresh_session before_claim
           three_frames).
  - vm_compute. reflexivity.
  - vm_compute. reflexivity.
Defined.

(** X24: in every run of a session from its connection, a frame that is
    pending while the consumer waits is never left without its wake-up
    signal: the event is set, and the consumer's next wake-up claims that
    frame for the handler of the current mode, empties the slot and sets the
    flag. *)
Theorem X24_pending_frame_is_claimed
    (w0 : World) (s0 s : Session) (ls : list Label) (f : Frame) :
  connected w0 = Some s0 →
  run s0 ls = Some s →
  consumer s = Waiting →
  latest_frame (session (world s)) = Some f →
  frame_event s = true ∧
  step s Wake =
    Some {| world := (set_session (with_mailbox None true (session (world s))) (world s)).2;
            frame_event := false;
            consumer := Dispatching (select_handler (mode (session (world s)))) f |}.
Proof.
  intros Hconn Hrun Hwait Hframe.
  destruct (connected_flag_and_signal w0 s0 Hconn) as [Hflag0 Hsig0].
  destruct (run_flag_and_signal ls s0 s Hflag0 Hsig0 Hrun) as [Hflag Hsig].
  assert (Hevent : frame_event s = true).
  { apply Hsig; [exact Hwait|]. rewrite Hframe. discriminate. }
  split; [exact Hevent|].
  unfold flag_matches, in_flight in Hflag. rewrite Hwait in Hflag.
  cbn. rewrite Hwait, Hevent, Hframe, Hflag. reflexivity.
Qed.

Lemma X24_witness :
  frame_event one_frame_pending = true ∧
  step one_frame_pending Wake =
    Some {| world := (set_session (with_mailbox None true
                                     (session (world one_frame_pending)))
                        (world one_frame_pending)).2;
            frame_event := false;
            consumer := Dispatching (select_handler (mode (session (world one_frame_pending))))
                                    (frame_payload "frame-1") |}.
Proof.
  apply (X24_pending_frame_is_claimed quiet_world fresh_session one_frame_pending
           [Submit "frame-1"] (frame_payload "frame-1")).
  - vm_compute. reflexivity.
  - vm_compute. reflexivity.
  - vm_compute. reflexivity.
  - vm_compute. reflexivity.
Defined.

End LoopMore.

(** ** Disconnecting and connecting again *)

Section ReconnectMore.

Import Models World Processor Websocket TaskExamples Notions.
Local Open Scope Z_scope.

Lemma teardown_saves w :
  is_active (task_state (session w)) = true →
  (teardown w).2 =
    {| session := session w;
       global_task_state :=
         {| g_is_active := true;
            g_plan := plan (task_state (session w));
            g_current_step_index := current_step_index (task_state (session w));
            task_name := task_name (global_task_state w);
            last_updated := readings (clock w) (ticks (clock w)) |};
       memory_store := memory_store w; sent := sent w; log := log w;
       clock := {| readings := readings (clock w); ticks := S (ticks (clock w)) |};
       planner := planner w; planner_calls := planner_calls w |}.
Proof.
  intros Hact. unfold teardown, bind, get. rewrite Hact.
  cbn. unfold time_time. cbn. rewrite Hact. reflexivity.
Qed.

(** X25: a task that is active when the client disconnects is saved by the
    cleanup, and a client that connects while the clock shows less than
    300 s more than at the cleanup gets it back: the session is a new session
    in every field but the mode, which is task, and the task state, which is
    active with the same plan and the same step index; the restored plan is
    sent as a [task_update], followed by the resumption announcement when the
    task has a current step; the durable state stays as the cleanup saved it. *)
Theorem X25_task_survives_reconnect (w : World) :
  is_active (task_state (session w)) = true →
  PrimFloat.ltb (readings (clock w) (S (ticks (clock w)))
                 - readings (clock w) (ticks (clock w)))%float 300 = true →
  let w' := (on_connect (teardown w).2).2 in
  let ts := {| is_active := true;
               plan := plan (task_state (session w));
               current_step_index := current_step_index (task_state (session w));
               waiting_for_user := false |} in
  session w' = with_mode "task" (with_task_state ts new_session_state) ∧
  sent w' = (sent w ++ TaskUpdate (plan ts) (current_step_index ts) true None
                    :: match current_step ts with
                       | Ok (Some st) => [Speak ("Resuming. Step: " ++ instruction st)]
                       | _ => []
                       end)%list ∧
  global_task_state w' = global_task_state (teardown w).2 ∧
  to_task_state (global_task_state w') = ts.
Proof.
  intros Hact Hfresh w' ts. subst w' ts.
  rewrite (teardown_saves w Hact).
  unfold on_connect, bind, with_clock, bind, get, set_session, is_valid, time_time.
  cbn -[current_step]. rewrite Hfresh. cbn -[current_step].
  unfold lift, to_task_state. cbn -[current_step].
  match goal with |- context [current_step ?ts] =>
    destruct (current_step ts) as [[st|]|e] end; cbn;
    rewrite <- ?app_assoc; repeat split.
Qed.

Lemma X25_witness :
  let w' := (on_connect (teardown coffee_world).2).2 in
  let ts := {| is_active := true; plan := coffee_plan; current_step_index := 0;
               waiting_for_user := false |} in
  session w' = with_mode "task" (with_task_state ts new_session_state) ∧
  sent w' = [TaskUpdate coffee_plan 0 true None; Speak "Resuming. Step: Find the mug"] ∧
  global_task_state w' = global_task_state (teardown coffee_world).2 ∧
  to_task_state (global_task_state w') = ts.
Proof.
  apply (X25_task_survives_reconnect coffee_world); reflexivity.
Defined.

End ReconnectMore.

(** ** Frames in task mode and in micro mode *)

Section FrameMore.

Import Models World Processor TaskExamples Notions FrameExamples.
Local Open Scope Z_scope.

(** X26: a frame in task mode that the gateway judges as showing the
    current step completed advances the task by exactly one step when a step
    follows: the step is marked completed, "Step done. Next: <instruction>"
    is spoken, the durable state is refreshed, the frame is counted as
    processed, and a [task_update] with the new index is sent. *)
Theorem X26_completed_frame_advances_one_step
    (f : Frame) (env : FrameEnv TaskReply) (result : TaskReply) (w : World)
    (step next : TaskStep) :
  let ts := task_state (session w) in
  let i := current_step_index ts in
  is_active ts = true →
  0 ≤ i →
  plan ts !! Z.to_nat i = Some step →
  plan ts !! Z.to_nat (i + 1) = Some next →
  decoded env = Ok tt →
  gateway env = GwReply result →
  t_step_completed result = Some true →
  let r := process_task_frame f env w in
  r.1 = Ok tt ∧
  task_state (session r.2) = skipped_once ts step ∧
  mode (session r.2) = mode (session w) ∧
  frames_processed (session r.2) = frames_processed (session w) + 1 ∧
  frames_skipped (session r.2) = frames_skipped (session w) ∧
  g_current_step_index (global_task_state r.2) = i + 1 ∧
  g_plan (global_task_state r.2) = plan (skipped_once ts step) ∧
  sent r.2 = (sent w ++ [Speak ("Step done. Next: " ++ instruction next);
                         TaskUpdate (plan (skipped_once ts step)) (i + 1) false
                           (Some (default "" (t_visual_feedback result)))])%list.
Proof.
  intros ts i Hact Hidx Hstep Hnext Hdec Hgw Hdone r. subst r i ts.
  assert (Hlen : Nat.eqb (List.length (plan (task_state (session w)))) 0 = false).
  { apply Nat.eqb_neq. apply lookup_lt_Some in Hstep. lia. }
  assert (Hin : (Z.of_nat (List.length (plan (task_state (session w))))
                 <=? current_step_index (task_state (session w))) = false).
  { apply Z.leb_gt. apply lookup_lt_Some in Hstep. lia. }
  assert (Hnext' : <[Z.to_nat (current_step_index (task_state (session w))) :=
                      set_completed true step]> (plan (task_state (session w)))
                   !! Z.to_nat (current_step_index (task_state (session w)) + 1) = Some next).
  { rewrite list_lookup_insert_ne by lia. exact Hnext. }
  assert (Hmore : (Z.of_nat (List.length
                     (<[Z.to_nat (current_step_index (task_state (session w))) :=
                         set_completed true step]> (plan (task_state (session w)))))
                   <=? current_step_index (task_state (session w)) + 1) = false).
  { apply Z.leb_gt. rewrite length_insert. apply lookup_lt_Some in Hnext. lia. }
  assert (Hrun : process_task_frame f env w =
    (Ok tt,
     (safe_send_json
        (TaskUpdate (plan (skipped_once (task_state (session w)) step))
           (current_step_index (task_state (session w)) + 1) false
           (Some (default "" (t_visual_feedback result))))
        ((count_processed
           ((sync_global ""
              ((safe_send_json (Speak ("Step done. Next: " ++ instruction next))
                 ((modify_session (with_task_state (skipped_once (task_state (session w)) step))
                     w).2)).2)).2)).2)).2)).
  { unfold process_task_frame. unfold bind at 1. unfold get at 1.
    rewrite Hact, Hlen. cbn [negb orb]. rewrite Hin.
    unfold bind at 1. unfold lift at 1. rewrite (getitem_lookup _ _ _ Hidx Hstep).
    unfold try_except, task_body. rewrite Hdec, Hgw.
    unfold bind at 1. unfold lift at 1.
    unfold bind at 1. unfold ask at 1, ret at 1.
    rewrite Hdone. cbn [default from_option id].
    unfold bind at 1. unfold bind at 1.
    unfold complete_step. unfold bind at 1. unfold get at 1.
    unfold bind at 1. unfold lift at 1. rewrite (getitem_lookup _ _ _ Hidx Hstep).
    unfold bind at 1. unfold lift at 1. rewrite (setitem_lookup _ _ _ _ Hidx Hstep).
    unfold bind at 1.
    unfold modify_session at 1. unfold bind at 1. unfold get at 1. unfold set_session at 1.
    rewrite Hmore.
    unfold bind at 1. unfold lift at 1.
    rewrite (getitem_lookup _ _ next); [|lia|exact Hnext'].
    reflexivity. }
  rewrite Hrun. cbn. unfold time_time. cbn. rewrite <- app_assoc. repeat split.
Qed.

Lemma X26_witness :
  let r := process_task_frame a_frame step_done coffee_world in
  r.1 = Ok tt ∧
  task_state (session r.2) =
    skipped_once (task_state (session coffee_world))
      {| step_id := 1; instruction := "Find the mug"; items := ["mug"]; completed := false |} ∧
  mode (session r.2) = "task" ∧
  frames_processed (session r.2) = 0 + 1 ∧
  frames_skipped (session r.2) = 0 ∧
  g_current_step_index (global_task_state r.2) = 0 + 1 ∧
  g_plan (global_task_state r.2) =
    plan (skipped_once (task_state (session coffee_world))
            {| step_id := 1; instruction := "Find the mug"; items := ["mug"];
               completed := false |}) ∧
  sent r.2 =
    [Speak "Step done. Next: Pour the water";
     TaskUpdate (plan (skipped_once (task_state (session coffee_world))
                         {| step_id := 1; instruction := "Find the mug"; items := ["mug"];
                            completed := false |}))
                (0 + 1) false (Some "Mug in hand")].
Proof.
  apply (X26_completed_frame_advances_one_step a_frame step_done
           {| t_step_completed := Some true; t_speech := None;
              t_visual_feedback := Some "Mug in hand" |}
           coffee_world
           {| step_id := 1; instruction := "Find the mug"; items := ["mug"];
              completed := false |}
           {| step_id := 2; instruction := "Pour the water"; items := ["kettle"];
              completed := false |});
    [reflexivity | simpl; lia | reflexivity | reflexivity | reflexivity | reflexivity
    | reflexivity].
Defined.

(** X27: a frame in task mode when no task is active, or the plan is
    empty, only puts the session back in navigation mode: nothing is sent,
    no counter moves, the gateway is not consulted. *)
Theorem X27_task_frame_without_task (f : Frame) (env : FrameEnv TaskReply) (w : World) :
  is_active (task_state (session w)) = false ∨ plan (task_state (session w)) = [] →
  process_task_frame f env w =
    (Ok tt,
     {| session := with_mode "nav" (session w);
        global_task_state := global_task_state w; memory_store := memory_store w;
        sent := sent w; log := log w; clock := clock w; planner := planner w;
        planner_calls := planner_calls w |}).
Proof.
  intros Hno. unfold process_task_frame, bind, get.
  destruct Hno as [-> | ->]; [reflexivity|].
  cbn [List.length Nat.eqb]. rewrite orb_true_r. reflexivity.
Qed.

Lemma X27_witness :
  process_task_frame a_frame unanswered (world_at (coffee_saved_at 1000) 1010) =
    (Ok tt,
     {| session := with_mode "nav" new_session_state;
        global_task_state := coffee_saved_at 1000; memory_store := Memory.empty_memory;
        sent := []; log := []; clock := {| readings := λ _, 1010%float; ticks := 0 |};
        planner := silent_planner; planner_calls := 0 |}).
Proof.
  apply (X27_task_frame_without_task a_frame unanswered (world_at (coffee_saved_at 1000) 1010)).
  left. reflexivity.
Defined.

(** X28: a frame in task mode when the index of an active task is at or
    past the end of its plan speaks "Task already completed.", replaces the
    task by a new inactive one and puts the session in navigation mode; the
    durable state is not touched and no counter moves. *)
Theorem X28_task_frame_after_last_step (f : Frame) (env : FrameEnv TaskReply) (w : World) :
  is_active (task_state (session w)) = true →
  plan (task_state (session w)) ≠ [] →
  Z.of_nat (List.length (plan (task_state (session w))))
    ≤ current_step_index (task_state (session w)) →
  process_task_frame f env w =
    (Ok tt,
     {| session := with_mode "nav" (with_task_state new_task_state (session w));
        global_task_state := global_task_state w; memory_store := memory_store w;
        sent := (sent w ++ [Speak "Task already completed."])%list;
        log := log w; clock := clock w; planner := planner w;
        planner_calls := planner_calls w |}).
Proof.
  intros Hact Hplan Hpast. unfold process_task_frame, bind, get.
  rewrite Hact.
  assert (Hlen : Nat.eqb (List.length (plan (task_state (session w)))) 0 = false).
  { apply Nat.eqb_neq. destruct (plan (task_state (session w))); [contradiction|].
    discriminate. }
  rewrite Hlen. cbn [negb orb].
  apply Z.leb_le in Hpast. rewrite Hpast. reflexivity.
Qed.

Lemma X28_witness :
  process_task_frame a_frame unanswered coffee_finished =
    (Ok tt,
     {| session := with_mode "nav" (with_task_state new_task_state (session coffee_finished));
        global_task_state := global_task_state coffee_finished;
        memory_store := memory_store coffee_finished;
        sent := ([] ++ [Speak "Task already completed."])%list;
        log := log coffee_finished; clock := clock coffee_finished;
        planner := planner coffee_finished;
        planner_calls := planner_calls coffee_finished |}).
Proof.
  apply (X28_task_frame_after_last_step a_frame unanswered coffee_finished);
    [reflexivity | discriminate | simpl; lia].
Defined.

(** X29: a frame in micro mode is dropped without any effect when it has
    no image or the session has no micro target; with both, a decoded image
    and a parsed reply, it is counted as processed and one [micro_result] is
    sent, with 0, 0 and "move" for the fields the reply lacks. *)
Theorem X29_micro_frame_needs_target :
  (∀ f env w,
      image f = "" ∨ truthy (micro_target (session w)) = false →
      process_micro_frame f env w = (Ok tt, w)) ∧
  (∀ f env w result,
      image f ≠ "" →
      truthy (micro_target (session w)) = true →
      decoded env = Ok tt →
      gateway env = GwReply result →
      let r := process_micro_frame f env w in
      r.1 = Ok tt ∧
      frames_processed (session r.2) = frames_processed (session w) + 1 ∧
      frames_skipped (session r.2) = frames_skipped (session w) ∧
      mode (session r.2) = mode (session w) ∧
      sent r.2 = (sent w ++ [MicroResult (default 0 (mi_x result)) (default 0 (mi_y result))
                               (default "move" (mi_action result))
                               (mi_guidance_speech result)])%list).
Proof.
  split.
  - intros f env w Hno. unfold process_micro_frame, bind, get.
    destruct Hno as [-> | Hno]; [reflexivity|].
    unfold truthy in Hno.
    destruct (micro_target (session w)) as [t|]; [|rewrite orb_true_r; reflexivity].
    destruct (String.eqb t ""); [rewrite orb_true_r; reflexivity|discriminate].
  - intros f env w result Himg Htarget Hdec Hgw r. subst r.
    assert (Hrun : process_micro_frame f env w =
      (safe_send_json
         (MicroResult (default 0 (mi_x result)) (default 0 (mi_y result))
            (default "move" (mi_action result)) (mi_guidance_speech result))
         (count_processed w).2)).
    { unfold process_micro_frame, bind at 1. unfold get at 1.
      unfold truthy in Htarget.
      destruct (micro_target (session w)) as [t|]; [|discriminate].
      destruct (String.eqb_spec (image f) ""); [contradiction|].
      destruct (String.eqb t ""); [discriminate|]. cbn [orb].
      unfold try_except, micro_body. rewrite Hdec, Hgw. reflexivity. }
    rewrite Hrun. cbn. repeat split.
Qed.

End FrameMore.

(** ** Text similarity *)

Section SimilarityMore.

Import TextSimilarity.

(** X30: [calculate_similarity] does not depend on the order of its two
    texts, and it is 0.0 as soon as one of them is empty or holds only
    white space. *)
Theorem X30_similarity_symmetric_and_zero_on_blank :
  (∀ text1 text2, calculate_similarity text1 text2 = calculate_similarity text2 text1) ∧
  (∀ text1 text2,
      PyStr.split (PyStr.lower text1) = [] ∨ PyStr.split (PyStr.lower text2) = [] →
      calculate_similarity text1 text2 = 0.0%float).
Proof.
  split.
  - intros text1 text2. unfold calculate_similarity.
    rewrite (orb_comm (String.eqb text1 "")).
    destruct (String.eqb text2 "" || String.eqb text1 "")%bool; [reflexivity|].
    cbv zeta.
    rewrite (orb_comm (Nat.eqb (size (word_set text1)) 0)).
    destruct (Nat.eqb (size (word_set text2)) 0 || Nat.eqb (size (word_set text1)) 0)%bool;
      [reflexivity|].
    rewrite (comm_L (∩) (word_set text1)), (comm_L (∪) (word_set text1)). reflexivity.
  - intros text1 text2 Hblank. unfold calculate_similarity.
    destruct (String.eqb text1 "" || String.eqb text2 "")%bool; [reflexivity|].
    cbv zeta. unfold word_set.
    destruct Hblank as [-> | ->]; cbn [list_to_set]; rewrite size_empty; cbn [Nat.eqb orb].
    + reflexivity.
    + rewrite orb_true_r. reflexivity.
Qed.

End SimilarityMore.
